(** * AACT bot manager and bot conductor: a shallow embedding

    The development follows [bot_manager.py], [phoenix_bot.py],
    [auth_manager.py] and [bot_conductor.py].  Python integers are [Z],
    lists are [list], [str] is [string], dictionaries whose keys are fixed
    are records and dictionaries with free keys are insertion-ordered
    association lists.

    Two things of the Python program are not data of the model:

    - wall-clock readings ([time.time()], the [start_time], [end_time],
      [execution_time], [elapsed_time] and [timestamp] values) are left
      out, and [time.sleep] is kept as an event of the trace; the
      delays and intervals that are slept are finite floats, each the
      rational it stands for, and the success rate of a report is the
      binary64 number that the division and the product give;
    - the task processor and the network are arbitrary, stateful callables
      that several threads use at once.  A thread depends on them only
      through what each of its calls gives back, so a callable is given
      by what a thread observes: the outcome of its k-th call.  Every
      interleaving of the threads and every state the callable may keep
      is an instance of such an observation, and the theorems hold for
      all of them. *)

From Stdlib Require Import String ZArith List Bool Lia QArith Permutation.
From Stdlib Require Import SpecFloat.
From Stdlib Require DecimalString.
Import ListNotations.
Local Open Scope string_scope.
Local Open Scope list_scope.
Local Open Scope Z_scope.

Set Implicit Arguments.

(** ** Python primitives *)

(** The exceptions that leave a function of the model. *)
Inductive PyError : Type :=
| ValueError (msg : string).

Module Py.

(** [len(l)] *)
Definition len {A : Type} (l : list A) : Z := Z.of_nat (length l).

(** [range(n)]: empty when [n <= 0]. *)
Definition range (n : Z) : list Z := map Z.of_nat (seq 0 (Z.to_nat n)).

(** The elements of [range(start, stop, step)] for a positive step,
    produced one at a time as the iterator does; [fuel] bounds their
    number. *)
Fixpoint range_from (fuel : nat) (i stop step : Z) : list Z :=
  match fuel with
  | O => []
  | S fuel' =>
      if i <? stop then i :: range_from fuel' (i + step) stop step else []
  end.

(** [range(start, stop, step)], listed.  A zero step raises
    [ValueError]; a negative step counts down. *)
Definition range3 (start stop step : Z) : PyError + list Z :=
  if step =? 0 then inl (ValueError "range() arg 3 must not be zero")
  else if step <? 0 then
    inr (if stop <? start
         then map (fun k => start + Z.of_nat k * step)
                  (seq 0 (Z.to_nat ((start - stop - step - 1) / - step)))
         else [])
  else inr (range_from (Z.to_nat (stop - start)) start stop step).

(** A slice bound as Python normalises it against the length [n]:
    a negative bound counts from the end, and both ends are clamped. *)
Definition clamp (n i : Z) : Z :=
  if i <? 0 then Z.max 0 (i + n) else Z.min i n.

(** [l[i:j]] *)
Definition slice {A : Type} (l : list A) (i j : Z) : list A :=
  let a := clamp (len l) i in
  let b := clamp (len l) j in
  firstn (Z.to_nat (b - a)) (skipn (Z.to_nat a) l).

(** What the engine needs of an arbitrary Python object: [str(x)] and
    its truth value ([if x]). *)
Class Object (A : Type) := {
  str : A -> string;
  truthy : A -> bool
}.

(** [dict.get(key)] on an insertion-ordered dictionary with string
    keys. *)
Fixpoint get {V : Type} (d : list (string * V)) (key : string) : option V :=
  match d with
  | [] => None
  | (k, v) :: d' => if String.eqb k key then Some v else get d' key
  end.

(** [d[key] = v]: an existing key keeps its place. *)
Fixpoint set {V : Type} (d : list (string * V)) (key : string) (v : V)
  : list (string * V) :=
  match d with
  | [] => [(key, v)]
  | (k, w) :: d' =>
      if String.eqb k key then (k, v) :: d' else (k, w) :: set d' key v
  end.

End Py.

(** ** Floats *)

(** The floats of Python are the binary64 numbers of IEEE 754: the
    [spec_float] of the standard library with 53 bits of precision,
    every operation rounding its exact result to the nearest float,
    ties to even. *)
Module Float.

Definition prec : Z := 53.
Definition emax : Z := 1024.

(** An integer as an operand, exact whatever its size. *)
Definition of_int (n : Z) : spec_float :=
  match n with
  | Z0 => S754_zero false
  | Zpos m => S754_finite false m 0
  | Zneg m => S754_finite true m 0
  end.

(** [a / b] on two integers, [b] not 0: the exact quotient is rounded
    once.  Python raises [OverflowError] where the result here is an
    infinity; a quotient of at most 1 is not such. *)
Definition truediv (a b : Z) : spec_float :=
  SFdiv prec emax (of_int a) (of_int b).

(** [x * n] on a float and an integer that is a float, as 100 is. *)
Definition mul_int (x : spec_float) (n : Z) : spec_float :=
  SFmul prec emax x (of_int n).

(** The number that a float is, if it is finite. *)
Definition value (x : spec_float) : option Q :=
  match x with
  | S754_zero _ => Some 0%Q
  | S754_finite s m e =>
      let n := if s then Z.neg m else Z.pos m in
      Some (match e with
            | Z0 => n # 1
            | Z.pos p => (n * Z.pow_pos 2 p) # 1
            | Z.neg p => n # (2 ^ p)
            end)
  | S754_infinity _ | S754_nan => None
  end.

(** The rounding of the library shifts a mantissa to the right and
    keeps two bits of what it drops.  Some bit that has been dropped is
    not 0: *)
Definition inexact (mrs : shr_record) : bool := shr_r mrs || shr_s mrs.

(** Nothing lies between the mantissa and the exact result. *)
Definition is_exact (l : location) : bool :=
  match l with loc_Exact => true | loc_Inexact _ => false end.

(** [b] is [a] after [k] shifts to the right: its mantissa is the
    quotient by [2 ^ k], and a bit that is not 0 has been dropped for
    it if one had been for [a] or if one is among the last [k]. *)
Definition shifted (k : Z) (a b : shr_record) : Prop :=
  shr_m b = shr_m a / 2 ^ k /\
  inexact b = inexact a || negb (shr_m a mod 2 ^ k =? 0).

End Float.

(** ** bot_manager.py *)

(** What one call [task_processor(task)] gives back: a value, or an
    exception [e] caught by [except Exception], kept as [str(e)]. *)
Inductive Outcome (Result : Type) : Type :=
| Returned (r : Result)
| Raised (e : string).
Arguments Returned {Result} r.
Arguments Raised {Result} e.

(** The task processor as one thread observes it: the outcome of the
    thread's k-th call (counted from 0), on the task it passes. *)
Definition Processor (Task Result : Type) : Type :=
  nat -> Task -> Outcome Result.

(** The effects of a bot that leave it: calls of the processor and
    [time.sleep]. *)
Inductive Event (Task : Type) : Type :=
| EvCall (task : Task)
| EvSleep (delay : Q).
Arguments EvCall {Task} task.
Arguments EvSleep {Task} delay.

Inductive BotState : Type := IDLE | ACTIVE | ERROR | COMPLETED.

Module BotState.
(** [BotState.value] *)
Definition value (s : BotState) : string :=
  match s with
  | IDLE => "idle"
  | ACTIVE => "active"
  | ERROR => "error"
  | COMPLETED => "completed"
  end.
End BotState.

(** [@dataclass BotProgress] *)
Module BotProgress.

Record t (Task : Type) : Type := mk {
  bot_id : Z;
  state : BotState;
  tasks_completed : Z;
  tasks_failed : Z;
  current_task : option Task;
  error_message : option string
}.

(** [BotProgress(bot_id=bot_id)], the other fields at their defaults. *)
Definition new {Task : Type} (bot_id : Z) : t Task :=
  mk bot_id IDLE 0 0 None None.

Section Updates.
Context {Task : Type}.

Definition set_state (s : BotState) (p : t Task) : t Task :=
  mk (bot_id p) s (tasks_completed p) (tasks_failed p)
     (current_task p) (error_message p).

Definition set_current_task (c : option Task) (p : t Task) : t Task :=
  mk (bot_id p) (state p) (tasks_completed p) (tasks_failed p)
     c (error_message p).

Definition set_error_message (e : option string) (p : t Task) : t Task :=
  mk (bot_id p) (state p) (tasks_completed p) (tasks_failed p)
     (current_task p) e.

(** [self.progress.tasks_completed += 1] *)
Definition incr_tasks_completed (p : t Task) : t Task :=
  mk (bot_id p) (state p) (tasks_completed p + 1) (tasks_failed p)
     (current_task p) (error_message p).

(** [self.progress.tasks_failed += 1] *)
Definition incr_tasks_failed (p : t Task) : t Task :=
  mk (bot_id p) (state p) (tasks_completed p) (tasks_failed p + 1)
     (current_task p) (error_message p).
End Updates.

(** The dictionary built by [to_dict], without its [elapsed_time]. *)
Module Dict.
Record t : Type := mk {
  bot_id : Z;
  state : string;
  tasks_completed : Z;
  tasks_failed : Z;
  current_task : option string;
  error_message : option string
}.
End Dict.

(** [str(self.current_task) if self.current_task else None] tests the
    truth value of the task itself, so a falsy task is shown as
    [None]. *)
Definition to_dict {Task : Type} `{Py.Object Task} (self : t Task) : Dict.t :=
  Dict.mk (bot_id self)
          (BotState.value (state self))
          (tasks_completed self)
          (tasks_failed self)
          (match current_task self with
           | Some task => if Py.truthy task then Some (Py.str task) else None
           | None => None
           end)
          (error_message self).

End BotProgress.

(** [@dataclass TaskResult] *)
Module TaskResult.

Record t (Task Result : Type) : Type := mk {
  bot_id : Z;
  task : Task;
  success : bool;
  result : option Result;
  error : option string
}.

End TaskResult.

(** [class Bot] *)
Module Bot.

Record t (Task Result : Type) : Type := mk {
  bot_id : Z;
  task_processor : Processor Task Result;
  max_retries : Z;
  retry_delay : Q;
  progress : BotProgress.t Task;
  results : list (TaskResult.t Task Result);
  (** not a Python attribute: the calls and sleeps done so far *)
  trace : list (Event Task)
}.

(** The ways out of the retry loop of [_process_single_task]: the
    [return] from inside the loop, the loop running out with
    [last_error], and an exception that is not caught. *)
Inductive LoopExit (Task Result : Type) : Type :=
| Return (r : TaskResult.t Task Result)
| Exhausted (last_error : option string)
| Escaped (err : PyError).
Arguments Return {Task Result} r.
Arguments Exhausted {Task Result} last_error.
Arguments Escaped {Task Result} err.

Section Methods.
Context {Task Result : Type}.
Local Abbreviation Bot := (t Task Result).

Definition __init__ (bot_id : Z) (task_processor : Processor Task Result)
    (max_retries : Z) (retry_delay : Q) : Bot :=
  mk bot_id task_processor max_retries retry_delay
     (BotProgress.new bot_id) [] [].

Definition set_progress (p : BotProgress.t Task) (self : Bot) : Bot :=
  mk (bot_id self) (task_processor self) (max_retries self)
     (retry_delay self) p (results self) (trace self).

Definition update_progress (f : BotProgress.t Task -> BotProgress.t Task)
    (self : Bot) : Bot :=
  set_progress (f (progress self)) self.

(** [self.results.append(r)] *)
Definition append_result (r : TaskResult.t Task Result) (self : Bot) : Bot :=
  mk (bot_id self) (task_processor self) (max_retries self)
     (retry_delay self) (progress self) (results self ++ [r]) (trace self).

Definition emit (e : Event Task) (self : Bot) : Bot :=
  mk (bot_id self) (task_processor self) (max_retries self)
     (retry_delay self) (progress self) (results self) (trace self ++ [e]).

Definition is_call (e : Event Task) : bool :=
  match e with EvCall _ => true | EvSleep _ => false end.

Definition is_sleep (e : Event Task) : bool :=
  match e with EvCall _ => false | EvSleep _ => true end.

(** How many times the processor has been called in a trace. *)
Definition calls (tr : list (Event Task)) : nat :=
  List.length (filter is_call tr).

(** [self.task_processor(task)] *)
Definition call_processor (task : Task) (self : Bot)
  : Outcome Result * Bot :=
  (task_processor self (calls (trace self)) task, emit (EvCall task) self).

(** [time.sleep(self.retry_delay)]: a negative delay raises
    [ValueError] and nothing is slept. *)
Definition sleep (self : Bot) : option PyError * Bot :=
  if Qle_bool 0 (retry_delay self) then
    (None, emit (EvSleep (retry_delay self)) self)
  else (Some (ValueError "sleep length must be non-negative"), self).

(** The body of [for attempt in range(self.max_retries)], over the
    attempts still to come.  The [except] block catches what the
    processor raises; what [time.sleep] raises inside this block leaves
    the function. *)
Fixpoint attempts (task : Task) (rng : list Z) (last_error : option string)
    (self : Bot) : LoopExit Task Result * Bot :=
  match rng with
  | [] => (Exhausted last_error, self)
  | attempt :: rng' =>
      match call_processor task self with
      | (Returned result, self) =>
          let self := update_progress BotProgress.incr_tasks_completed self in
          (Return (TaskResult.mk (bot_id self) task true (Some result) None),
           self)
      | (Raised e, self) =>
          let last_error := Some e in
          if attempt <? max_retries self - 1 then
            match sleep self with
            | (Some err, self) => (Escaped err, self)
            | (None, self) => attempts task rng' last_error self
            end
          else attempts task rng' last_error self
      end
  end.

Definition _process_single_task (task : Task) (self : Bot)
  : (PyError + TaskResult.t Task Result) * Bot :=
  let self :=
    update_progress (BotProgress.set_current_task (Some task)) self in
  match attempts task (Py.range (max_retries self)) None self with
  | (Return r, self) => (inr r, self)
  | (Exhausted last_error, self) =>
      (* All retries failed *)
      let self := update_progress BotProgress.incr_tasks_failed self in
      let self :=
        update_progress (BotProgress.set_error_message last_error) self in
      (inr (TaskResult.mk (bot_id self) task false None last_error), self)
  | (Escaped err, self) => (inl err, self)
  end.

(** [for task in tasks: ...] of [process_tasks]; an exception that
    leaves [_process_single_task] ends the loop. *)
Fixpoint process_each (tasks : list Task) (self : Bot)
  : option PyError * Bot :=
  match tasks with
  | [] => (None, self)
  | task :: tasks' =>
      match _process_single_task task self with
      | (inr result, self) => process_each tasks' (append_result result self)
      | (inl err, self) => (Some err, self)
      end
  end.

(** [process_tasks]: an exception leaves the bot in state ACTIVE. *)
Definition process_tasks (tasks : list Task) (self : Bot)
  : (PyError + list (TaskResult.t Task Result)) * Bot :=
  let self := update_progress (BotProgress.set_state ACTIVE) self in
  match process_each tasks self with
  | (Some err, self) => (inl err, self)
  | (None, self) =>
      let self := update_progress (BotProgress.set_state COMPLETED) self in
      let self := update_progress (BotProgress.set_current_task None) self in
      (inr (results self), self)
  end.

(** [get_progress]: a copy of the progress, field by field. *)
Definition get_progress (self : Bot) : BotProgress.t Task :=
  BotProgress.mk
    (BotProgress.bot_id (progress self))
    (BotProgress.state (progress self))
    (BotProgress.tasks_completed (progress self))
    (BotProgress.tasks_failed (progress self))
    (BotProgress.current_task (progress self))
    (BotProgress.error_message (progress self)).

End Methods.

End Bot.

(** [as_completed]: the futures in the order in which they finish.
    [finish] is the instant at which each one is done; futures done at
    the same instant come in submission order. *)
Fixpoint insert_by {A : Type} (finish : A -> nat) (x : A) (l : list A)
  : list A :=
  match l with
  | [] => [x]
  | y :: l' =>
      if (finish y <=? finish x)%nat then y :: insert_by finish x l'
      else x :: l
  end.

Definition as_completed {A : Type} (finish : A -> nat) (futures : list A)
  : list A :=
  fold_left (fun done f => insert_by finish f done) futures [].

(** [str(n)] of an integer *)
Definition str_int (n : Z) : string :=
  DecimalString.NilZero.string_of_int (Z.to_int n).

(** [class BotManager] *)
Module BotManager.

(** The manager keeps no processor: [task_processor] is one callable
    shared by all the threads of a call of [execute], and what it does
    there is part of that call's [Run].  [__init__] makes managers with
    [num_bots > 0] only. *)
Record t (Task Result : Type) : Type := mk {
  num_bots : Z;
  max_retries : Z;
  retry_delay : Q;
  bots : list (Bot.t Task Result);
  all_results : list (TaskResult.t Task Result)
}.

(** What is not decided by the program in one call of [execute]: what
    the thread of each bot (by [bot_id]) observes of [task_processor],
    and the instant at which its future is done. *)
Record Run (Task Result : Type) : Type := mkRun {
  observed : Z -> Processor Task Result;
  finished : Z -> nat
}.

(** An entry of [failed_tasks] *)
Module FailedTask.
Record t (Task : Type) : Type := mk {
  task : Task;
  error : option string;
  bot_id : Z
}.
End FailedTask.

(** The dictionary returned by [execute], without [execution_time].
    Its [results] are the list [self.all_results] itself, here with the
    elements it has when [execute] returns.  Its [success_rate] is an
    integer or a float. *)
Module Report.
Record t (Task Result : Type) : Type := mk {
  total_tasks : Z;
  successful : Z;
  failed : Z;
  success_rate : Z + spec_float;
  results : list (TaskResult.t Task Result);
  bot_progress : list BotProgress.Dict.t;
  failed_tasks : list (FailedTask.t Task)
}.
End Report.

(** What [monitor_progress] does that is seen from outside: the calls
    of the callback, with the progress passed, and the sleeps. *)
Inductive MonitorEvent : Type :=
| EvReport (progress : list BotProgress.Dict.t)
| EvWait (interval : Q).

Section Methods.
Context {Task Result : Type} `{Py.Object Task}.
Local Abbreviation BotManager := (t Task Result).

Definition __init__ (num_bots max_retries : Z) (retry_delay : Q)
  : PyError + BotManager :=
  if num_bots <=? 0 then
    inl (ValueError
           (String.append "Number of bots must be greater than 0, got: "
                          (str_int num_bots)))
  else inr (mk num_bots max_retries retry_delay [] []).

Definition set_bots (bs : list (Bot.t Task Result)) (self : BotManager)
  : BotManager :=
  mk (num_bots self) (max_retries self) (retry_delay self) bs
     (all_results self).

Definition set_all_results (rs : list (TaskResult.t Task Result))
    (self : BotManager) : BotManager :=
  mk (num_bots self) (max_retries self) (retry_delay self) (bots self) rs.

(** One round of [for i in range(self.num_bots)] in [_divide_tasks]. *)
Definition divide_step (tasks : list Task) (batch_size remainder : Z)
    (acc : list (list Task) * Z) (i : Z) : list (list Task) * Z :=
  let (batches, start_idx) := acc in
  let current_batch_size := batch_size + (if i <? remainder then 1 else 0) in
  let end_idx := start_idx + current_batch_size in
  (batches ++ [Py.slice tasks start_idx end_idx], end_idx).

(** [_divide_tasks]: [//] and [%] round to the floor, as [/] and [mod]
    on [Z] do. *)
Definition _divide_tasks (tasks : list Task) (self : BotManager)
  : list (list Task) :=
  match tasks with
  | [] => map (fun _ => []) (Py.range (num_bots self))
  | _ :: _ =>
      let batch_size := Py.len tasks / num_bots self in
      let remainder := Py.len tasks mod num_bots self in
      fst (fold_left (divide_step tasks batch_size remainder)
                     (Py.range (num_bots self)) ([], 0))
  end.

(** [len(successful) / len(results) * 100 if results else 0]: the
    integer 0, or the float that the division of the two integers and
    then the product by 100 give, each rounded. *)
Definition rate (successful total : Z) : Z + spec_float :=
  if total =? 0 then inl 0
  else inr (Float.mul_int (Float.truediv successful total) 100).

Definition _compile_results (results : list (TaskResult.t Task Result))
    (self : BotManager) : Report.t Task Result :=
  let successful := filter (fun r => TaskResult.success r) results in
  let failed := filter (fun r => negb (TaskResult.success r)) results in
  Report.mk
    (Py.len results)
    (Py.len successful)
    (Py.len failed)
    (rate (Py.len successful) (Py.len results))
    results
    (map (fun bot => BotProgress.to_dict (Bot.get_progress bot)) (bots self))
    (map (fun r => FailedTask.mk (TaskResult.task r) (TaskResult.error r)
                                 (TaskResult.bot_id r))
         failed).

(** [get_progress] of the manager *)
Definition get_progress (self : BotManager) : list BotProgress.Dict.t :=
  map (fun bot => BotProgress.to_dict (Bot.get_progress bot)) (bots self).

(** The thread of one pair of [zip(self.bots, task_batches)]: a bot with
    an empty batch is not submitted and stays as it was made; the other
    bots run [process_tasks] and their future holds what it returns or
    raises. *)
Definition submit (job : Bot.t Task Result * list Task)
  : option (PyError + list (TaskResult.t Task Result)) * Bot.t Task Result :=
  let (bot, batch) := job in
  match batch with
  | [] => (None, bot)
  | _ :: _ =>
      let (outcome, bot) := Bot.process_tasks batch bot in
      (Some outcome, bot)
  end.

(** [future_to_bot], in submission order: the bot of each submitted
    future and the outcome of the future. *)
Definition future_to_bot
    (ran : list (option (PyError + list (TaskResult.t Task Result))
                 * Bot.t Task Result))
  : list (Bot.t Task Result * (PyError + list (TaskResult.t Task Result))) :=
  flat_map (fun r => match fst r with
                     | Some outcome => [(snd r, outcome)]
                     | None => []
                     end) ran.

(** The body of [for future in as_completed(future_to_bot)]: the
    results of a future are added to [all_results]; the exception of a
    future that raises is logged and its bot adds nothing. *)
Definition collect
    (f : Bot.t Task Result * (PyError + list (TaskResult.t Task Result)))
    (self : BotManager) : BotManager :=
  match snd f with
  | inr results => set_all_results (all_results self ++ results) self
  | inl _ => self
  end.

(** [execute], with the manager as the call leaves it. *)
Definition execute (run : Run Task Result) (tasks : list Task)
    (self : BotManager) : Report.t Task Result * BotManager :=
  match tasks with
  | [] => (_compile_results [] self, self)
  | _ :: _ =>
      let task_batches := _divide_tasks tasks self in
      let self :=
        set_bots
          (map (fun i => Bot.__init__ i (observed run i) (max_retries self)
                                      (retry_delay self))
               (Py.range (num_bots self)))
          self in
      let ran := map submit (combine (bots self) task_batches) in
      (* the bots of [self.bots] are the objects the threads worked on *)
      let self := set_bots (map snd ran) self in
      let done :=
        as_completed (fun f => finished run (Bot.bot_id (fst f)))
                     (future_to_bot ran) in
      let self := fold_left (fun self f => collect f self) done self in
      (_compile_results (all_results self) self, self)
  end.

(** [bot.progress.state == BotState.ACTIVE] *)
Definition is_active (bot : Bot.t Task Result) : bool :=
  match BotProgress.state (Bot.progress bot) with
  | ACTIVE => true
  | _ => false
  end.

(** [monitor_progress], called while no thread of [execute] runs, so
    that the bots do not change between two rounds.  [fuel] bounds the
    rounds of the [while] loop: the result is [None] when the loop is
    still running after [fuel] rounds, and otherwise the exception that
    has ended the call, if any, with the events of the call.  A
    callback is given by what it raises, if anything, on the progress
    it is passed; without a callback the progress is only logged.
    [time.sleep] raises [ValueError] for a negative interval. *)
Fixpoint monitor_progress (fuel : nat) (interval : Q)
    (callback : option (list BotProgress.Dict.t -> option PyError))
    (self : BotManager) : option (option PyError * list MonitorEvent) :=
  match fuel with
  | O => None
  | S fuel' =>
      if existsb is_active (bots self) then
        let progress := get_progress self in
        let (raised, reported) :=
          match callback with
          | Some callback => (callback progress, [EvReport progress])
          | None => (None, [])
          end in
        match raised with
        | Some err => Some (Some err, reported)
        | None =>
            if Qle_bool 0 interval then
              match monitor_progress fuel' interval callback self with
              | Some (err, events) =>
                  Some (err, reported ++ EvWait interval :: events)
              | None => None
              end
            else
              Some (Some (ValueError "sleep length must be non-negative"),
                    reported)
        end
      else Some (None, [])
  end.

End Methods.

End BotManager.

(** ** auth_manager.py and phoenix_bot.py *)

(** What a request of a [requests.Session] gives back: a response with
    its status code and the part of it the caller reads, or one of the
    exceptions the callers tell apart. *)
Inductive HttpOutcome (Payload : Type) : Type :=
| Response (status_code : Z) (payload : Payload)
| Timeout
| RequestException (msg : string)
| OtherException (msg : string).
Arguments Response {Payload} status_code payload.
Arguments Timeout {Payload}.
Arguments RequestException {Payload} msg.
Arguments OtherException {Payload} msg.

(** A dictionary from strings to strings: credentials, cookies, request
    parameters. *)
Definition StrDict : Type := list (string * string).

(** The network as the session of one bot observes it.  [post] is the
    login request and gives [dict(response.cookies)]; [get] is the k-th
    query of the session and gives [response.json()] ([None] where
    decoding raises); [session_id] is the digest that
    [_generate_session_id] takes of the user name and the clock. *)
Record Network (Data : Type) : Type := mkNetwork {
  post : string -> HttpOutcome StrDict;
  get : nat -> string -> StrDict -> HttpOutcome (option Data);
  session_id : string -> string
}.

(** The requests a bot sends. *)
Inductive NetEvent : Type :=
| EvPost (url : string)
| EvGet (url : string) (params : StrDict)
| EvClose.

(** [if not s] for an [Optional[str]] *)
Definition falsy_str (s : option string) : bool :=
  match s with
  | None => true
  | Some s => String.eqb s ""
  end.

(** [class AuthManager] ([cookie_cache] is never read or written). *)
Module AuthManager.

Section Methods.
Context {Data : Type}.

(** [_create_mock_cookie] *)
Definition _create_mock_cookie (net : Network Data) (username : string)
  : StrDict :=
  let session_id := session_id net username in
  [("session_id", session_id);
   ("auth_token", String.append "mock_token_" session_id);
   ("user", username)].

(** [get_cookie], with the requests it sends. *)
Definition get_cookie (net : Network Data) (credentials : StrDict)
  : option StrDict * list NetEvent :=
  let base_url :=
    match Py.get credentials "base_url" with
    | Some u => u
    | None => "https://phoenix.example.com"
    end in
  let username := Py.get credentials "username" in
  let password := Py.get credentials "password" in
  if falsy_str username || falsy_str password then (None, [])
  else
    let username := match username with Some u => u | None => "" end in
    let auth_url := String.append base_url "/auth/login" in
    (match post net auth_url with
     | Response status_code cookies =>
         if status_code =? 200 then
           match cookies with
           | _ :: _ =>
               Some (Py.set cookies "session_id" (session_id net username))
           | [] => Some (_create_mock_cookie net username)
           end
         else None
     | Timeout => None
     | RequestException _ => Some (_create_mock_cookie net username)
     | OtherException _ => None
     end,
     [EvPost auth_url]).

(** [validate_cookie]: a cookie that is [None] or empty is not valid,
    and a valid cookie has the key [session_id]. *)
Definition validate_cookie (cookie : option StrDict) : bool :=
  match cookie with
  | None | Some [] => false
  | Some ((_ :: _) as cookie) =>
      match Py.get cookie "session_id" with
      | Some _ => true
      | None => false
      end
  end.

(** [refresh_cookie]: the old cookie is not used. *)
Definition refresh_cookie (net : Network Data) (credentials : StrDict)
    (old_cookie : StrDict) : option StrDict * list NetEvent :=
  get_cookie net credentials.

End Methods.

End AuthManager.

(** The result of a batch: the dictionary with keys [results] and
    [failed]. *)
Module BatchResult.

(** An entry of [results], without its [timestamp]. *)
Record Extracted (Data : Type) : Type := mkExtracted {
  pri : string;
  data : Data;
  bot_id : Z
}.

Record t (Data : Type) : Type := mk {
  results : list (Extracted Data);
  failed : list string
}.

End BatchResult.

(** [class PhoenixBot] *)
Module PhoenixBot.

(** The dictionary returned by [get_session_info]. *)
Module SessionInfo.
Record t : Type := mk {
  batch_id : Z;
  authenticated : bool;
  has_cookie : bool;
  base_url : string
}.
End SessionInfo.

Record t (Data : Type) : Type := mk {
  credentials : StrDict;
  batch_id : Z;
  authenticated : bool;
  cookie : option StrDict;
  (** not Python attributes: the network of [self.session] and the
      requests sent through it so far *)
  net : Network Data;
  trace : list NetEvent
}.

Section Methods.
Context {Data : Type} `{Py.Object Data}.
Local Abbreviation PhoenixBot := (t Data).

Definition __init__ (net : Network Data) (credentials : StrDict)
    (batch_id : Z) : PhoenixBot :=
  mk credentials batch_id false None net [].

Definition emit (es : list NetEvent) (self : PhoenixBot) : PhoenixBot :=
  mk (credentials self) (batch_id self) (authenticated self) (cookie self)
     (net self) (trace self ++ es).

Definition set_cookie (c : option StrDict) (self : PhoenixBot) : PhoenixBot :=
  mk (credentials self) (batch_id self) (authenticated self) c
     (net self) (trace self).

Definition set_authenticated (b : bool) (self : PhoenixBot) : PhoenixBot :=
  mk (credentials self) (batch_id self) b (cookie self)
     (net self) (trace self).

Definition is_get (e : NetEvent) : bool :=
  match e with EvGet _ _ => true | _ => false end.

(** [authenticate]: [get_cookie] catches its own exceptions, so the
    [except] branch is not taken. *)
Definition authenticate (self : PhoenixBot) : bool * PhoenixBot :=
  let (c, es) := AuthManager.get_cookie (net self) (credentials self) in
  let self := emit es (set_cookie c self) in
  match c with
  | None | Some [] => (false, self)
  | Some (_ :: _) => (true, set_authenticated true self)
  end.

(** [_query_phoenix]: every exception gives [None]. *)
Definition _query_phoenix (pri : string) (query_template : option string)
    (self : PhoenixBot) : option Data * PhoenixBot :=
  let base_url :=
    match Py.get (credentials self) "base_url" with
    | Some u => u
    | None => "https://phoenix.example.com"
    end in
  let (query_url, params) :=
    match query_template with
    | Some template =>
        if String.eqb template "" then
          (String.append base_url "/api/data",
           [("pri", pri); ("format", "json")])
        else
          (String.append base_url "/query",
           [("template", template); ("pri", pri)])
    | None =>
        (String.append base_url "/api/data",
         [("pri", pri); ("format", "json")])
    end in
  let k := List.length (filter is_get (trace self)) in
  (match get (net self) k query_url params with
   | Response status_code body =>
       if status_code =? 200 then body else None
   | Timeout | RequestException _ | OtherException _ => None
   end,
   emit [EvGet query_url params] self).

(** [for pri in pri_batch: ...] of [extract_batch_data] *)
Fixpoint extract_each (pri_batch : list string)
    (query_template : option string)
    (results : list (BatchResult.Extracted Data)) (failed : list string)
    (self : PhoenixBot)
  : list (BatchResult.Extracted Data) * list string * PhoenixBot :=
  match pri_batch with
  | [] => (results, failed, self)
  | pri :: pri_batch' =>
      let (data, self) := _query_phoenix pri query_template self in
      match data with
      | Some d =>
          if Py.truthy d then
            extract_each pri_batch' query_template
              (results ++ [BatchResult.mkExtracted pri d (batch_id self)])
              failed self
          else
            extract_each pri_batch' query_template results (failed ++ [pri])
                         self
      | None =>
          extract_each pri_batch' query_template results (failed ++ [pri])
                       self
      end
  end.

Definition extract_batch_data (pri_batch : list string)
    (query_template : option string) (self : PhoenixBot)
  : BatchResult.t Data * PhoenixBot :=
  if negb (authenticated self) then (BatchResult.mk [] pri_batch, self)
  else
    match extract_each pri_batch query_template [] [] self with
    | (results, failed, self) => (BatchResult.mk results failed, self)
    end.

(** [cleanup]: closes the session and catches what closing raises. *)
Definition cleanup (self : PhoenixBot) : PhoenixBot := emit [EvClose] self.

(** [get_session_info] *)
Definition get_session_info (self : PhoenixBot) : SessionInfo.t :=
  SessionInfo.mk
    (batch_id self)
    (authenticated self)
    (match cookie self with Some _ => true | None => false end)
    (match Py.get (credentials self) "base_url" with
     | Some u => u
     | None => "N/A"
     end).

End Methods.

End PhoenixBot.

(** ** data_validator.py *)

(** A value of type [Any], as the dictionaries of results hold them and
    as JSON gives them: [None], booleans, integers, floats, strings,
    lists, and dictionaries with string keys.  A finite float is given
    by its exact value; [float('nan')] and the two infinities are
    values of their own.  A NaN equals nothing, itself included, while
    the containers test [is] before [==]: a NaN carries the identity of
    its object. *)
#[warnings="-register-all"]
Inductive PyVal : Type :=
| PNone
| PBool (b : bool)
| PInt (n : Z)
| PFloat (x : Q)
| PNaN (id : Z)
| PInf (negative : bool)
| PStr (s : string)
| PList (l : list PyVal)
| PDict (d : list (string * PyVal)).

(** The exceptions that an operation raises on a value of the wrong
    type, by class. *)
Inductive TypeFault : Type := TypeError | AttributeError.

Module Val.

(** [Dict[str, Any]] *)
Definition Dict : Type := list (string * PyVal).

(** [bool(v)] *)
Definition truthy (v : PyVal) : bool :=
  match v with
  | PNone => false
  | PBool b => b
  | PInt n => negb (n =? 0)
  | PFloat x => negb (Qeq_bool x 0)
  | PNaN _ | PInf _ => true
  | PStr s => negb (String.eqb s "")
  | PList l => match l with [] => false | _ :: _ => true end
  | PDict d => match d with [] => false | _ :: _ => true end
  end.

(** [isinstance(v, str)] *)
Definition is_str (v : PyVal) : bool :=
  match v with PStr _ => true | _ => false end.

(** What a number is worth: a finite value, a NaN, or an infinity. *)
Inductive Number : Type :=
| Finite (x : Q)
| NaN
| Infinite (negative : bool).

(** The value of a number; [bool] is a subclass of [int], so that
    [isinstance(v, (int, float))] holds when there is one. *)
Definition number (v : PyVal) : option Number :=
  match v with
  | PBool b => Some (Finite (if b then 1%Q else 0%Q))
  | PInt n => Some (Finite (inject_Z n))
  | PFloat x => Some (Finite x)
  | PNaN _ => Some NaN
  | PInf negative => Some (Infinite negative)
  | _ => None
  end.

(** [x <= 0] on numbers: every comparison with a NaN is false. *)
Definition le_zero (x : Number) : bool :=
  match x with
  | Finite q => Qle_bool q 0
  | NaN => false
  | Infinite negative => negative
  end.

(** [x < 0] on numbers *)
Definition lt_zero (x : Number) : bool :=
  match x with
  | Finite q => negb (Qle_bool 0 q)
  | NaN => false
  | Infinite negative => negative
  end.

(** [x == y] on numbers *)
Definition same_number (x y : Number) : bool :=
  match x, y with
  | Finite p, Finite q => Qeq_bool p q
  | Infinite a, Infinite b => Bool.eqb a b
  | _, _ => false
  end.

(** [hash(v)] does not raise. *)
Definition hashable (v : PyVal) : bool :=
  match v with PList _ | PDict _ => false | _ => true end.

(** [a is b or a == b] on hashable values, the test of [in] and of
    the keys of a set: numbers by their value, a NaN by its object. *)
Definition eqb (a b : PyVal) : bool :=
  match a, b with
  | PNone, PNone => true
  | PStr s, PStr t => String.eqb s t
  | PNaN i, PNaN j => i =? j
  | _, _ =>
      match number a, number b with
      | Some x, Some y => same_number x y
      | _, _ => false
      end
  end.

(** [key in d] *)
Definition mem (d : Dict) (key : string) : bool :=
  match Py.get d key with Some _ => true | None => false end.

(** [d.get(key)] *)
Definition get (d : Dict) (key : string) : PyVal :=
  match Py.get d key with Some v => v | None => PNone end.

(** [field in v]: a key of a dictionary, an element of a list, a
    substring of a string; the other values are no containers. *)
Definition contains (field : string) (v : PyVal) : TypeFault + bool :=
  match v with
  | PDict d => inr (mem d field)
  | PList l => inr (existsb (eqb (PStr field)) l)
  | PStr s =>
      inr (match String.index 0 field s with Some _ => true | None => false end)
  | PNone | PBool _ | PInt _ | PFloat _ | PNaN _ | PInf _ => inl TypeError
  end.

(** [s.add(key)] on a set, listed in the order in which its elements
    have come. *)
Definition add (key : PyVal) (s : list PyVal) : list PyVal :=
  if existsb (eqb key) s then s else s ++ [key].

(** Values of type [Any] as the data of a response, with [str(v)]
    given. *)
Definition object (py_str : PyVal -> string) : Py.Object PyVal :=
  {| Py.str := py_str; Py.truthy := truthy |}.

End Val.

(** [class DataValidator] *)
Module DataValidator.

(** An entry of [sample_details]. *)
Module SampleDetail.
Record t : Type := mk {
  pri : string;
  found : bool;
  data_size : option Z;
  has_all_fields : option bool
}.
End SampleDetail.

(** The dictionary returned by [_validate_samples]. *)
Module SampleReport.
Record t : Type := mk {
  total_samples : Z;
  found_samples : Z;
  missing_samples : list string;
  sample_details : list SampleDetail.t
}.
End SampleReport.

(** The dictionary returned by [validate]. *)
Module Report.
Record t : Type := mk {
  overall_valid : bool;
  total_count : Z;
  valid_count : Z;
  invalid_count : Z;
  issues : list string;
  sample_validation : option SampleReport.t
}.
End Report.

(** The dictionary returned by [check_completeness].  Python does not
    say in which order [list(s)] gives the elements of a set: the two
    lists are here in the order in which the elements have come. *)
Module Completeness.
Record t : Type := mk {
  expected_count : Z;
  actual_count : Z;
  missing_count : Z;
  extra_count : Z;
  missing_pris : list string;
  extra_pris : list PyVal;
  complete : bool
}.
End Completeness.

(** [for field in required_fields: if field not in ...: return]: the
    first field that is not there. *)
Fixpoint first_missing (contains : string -> TypeFault + bool)
    (required_fields : list string) : TypeFault + option string :=
  match required_fields with
  | [] => inr None
  | field :: required_fields' =>
      match contains field with
      | inl e => inl e
      | inr true => first_missing contains required_fields'
      | inr false => inr (Some field)
      end
  end.

Definition add_issue (issue : string) (report : Report.t) : Report.t :=
  Report.mk (Report.overall_valid report) (Report.total_count report)
            (Report.valid_count report) (Report.invalid_count report)
            (Report.issues report ++ [issue])
            (Report.sample_validation report).

Definition set_overall_valid (b : bool) (report : Report.t) : Report.t :=
  Report.mk b (Report.total_count report)
            (Report.valid_count report) (Report.invalid_count report)
            (Report.issues report) (Report.sample_validation report).

Definition set_total_count (n : Z) (report : Report.t) : Report.t :=
  Report.mk (Report.overall_valid report) n
            (Report.valid_count report) (Report.invalid_count report)
            (Report.issues report) (Report.sample_validation report).

Definition incr_valid_count (report : Report.t) : Report.t :=
  Report.mk (Report.overall_valid report) (Report.total_count report)
            (Report.valid_count report + 1) (Report.invalid_count report)
            (Report.issues report) (Report.sample_validation report).

Definition incr_invalid_count (report : Report.t) : Report.t :=
  Report.mk (Report.overall_valid report) (Report.total_count report)
            (Report.valid_count report) (Report.invalid_count report + 1)
            (Report.issues report) (Report.sample_validation report).

Definition set_sample_validation (s : option SampleReport.t)
    (report : Report.t) : Report.t :=
  Report.mk (Report.overall_valid report) (Report.total_count report)
            (Report.valid_count report) (Report.invalid_count report)
            (Report.issues report) s.

(** [_validate_structure], with the report as it leaves it. *)
Definition _validate_structure (results : Val.Dict) (report : Report.t)
  : bool * Report.t :=
  match first_missing (fun field => inr (Val.mem results field))
                      ["status"; "total_pris"; "results"] with
  | inr (Some field) =>
      (false,
       add_issue (String.append "Missing required field: " field) report)
  | inr None =>
      match Val.get results "results" with
      | PList _ => (true, report)
      | _ => (false, add_issue "Results field is not a list" report)
      end
  | inl _ => (false, report)
  end.

(** [_validate_result].  An entry that is no dictionary raises:
    [TypeError] from [in] when it is no container, [AttributeError]
    from [result.get] when it is a list or a string that holds the
    three fields. *)
Definition _validate_result (result : PyVal) : TypeFault + bool :=
  match first_missing (fun field => Val.contains field result)
                      ["pri"; "data"; "timestamp"] with
  | inl e => inl e
  | inr (Some _) => inr false
  | inr None =>
      match result with
      | PDict result =>
          let pri := Val.get result "pri" in
          if negb (Val.truthy pri) || negb (Val.is_str pri) then inr false
          else
            let data := Val.get result "data" in
            if negb (Val.truthy data) then inr false
            else
              let timestamp := Val.get result "timestamp" in
              match Val.number timestamp with
              | None => inr false
              | Some t => if Val.le_zero t then inr false else inr true
              end
      | _ => inl AttributeError
      end
  end.

(** [for result in result_list: ...] of [validate] *)
Fixpoint validate_each (result_list : list PyVal) (report : Report.t)
  : TypeFault + Report.t :=
  match result_list with
  | [] => inr report
  | result :: result_list' =>
      match _validate_result result with
      | inl e => inl e
      | inr true => validate_each result_list' (incr_valid_count report)
      | inr false => validate_each result_list' (incr_invalid_count report)
      end
  end.

(** [{r['pri']: r for r in results if 'pri' in r}], over the results
    still to come.  [r['pri']] raises [TypeError] on a list and on a
    string, and a key that is a list or a dictionary cannot be hashed.
    The samples looked up are strings, which no key of another type
    equals: of the keys, the dictionary of the model keeps the
    strings. *)
Fixpoint index_by_pri (results : list PyVal)
    (pri_to_result : list (string * Val.Dict))
  : TypeFault + list (string * Val.Dict) :=
  match results with
  | [] => inr pri_to_result
  | r :: results' =>
      match Val.contains "pri" r with
      | inl e => inl e
      | inr false => index_by_pri results' pri_to_result
      | inr true =>
          match r with
          | PDict d =>
              let key := Val.get d "pri" in
              if Val.hashable key then
                index_by_pri results'
                  (match key with
                   | PStr pri => Py.set pri_to_result pri d
                   | _ => pri_to_result
                   end)
              else inl TypeError
          | _ => inl TypeError
          end
      end
  end.

Section Samples.
(** [str(v)] *)
Variable py_str : PyVal -> string.

(** The body of [for sample_pri in sample_pris]. *)
Definition sample_step (pri_to_result : list (string * Val.Dict))
    (sample_report : SampleReport.t) (sample_pri : string)
  : SampleReport.t :=
  match Py.get pri_to_result sample_pri with
  | Some result =>
      let sample_detail :=
        SampleDetail.mk
          sample_pri true
          (Some (Z.of_nat
                   (String.length
                      (py_str (match Py.get result "data" with
                               | Some data => data
                               | None => PStr ""
                               end)))))
          (Some (forallb (Val.mem result)
                         ["pri"; "data"; "timestamp"; "bot_id"])) in
      SampleReport.mk
        (SampleReport.total_samples sample_report)
        (SampleReport.found_samples sample_report + 1)
        (SampleReport.missing_samples sample_report)
        (SampleReport.sample_details sample_report ++ [sample_detail])
  | None =>
      SampleReport.mk
        (SampleReport.total_samples sample_report)
        (SampleReport.found_samples sample_report)
        (SampleReport.missing_samples sample_report ++ [sample_pri])
        (SampleReport.sample_details sample_report
         ++ [SampleDetail.mk sample_pri false None None])
  end.

(** [_validate_samples] *)
Definition _validate_samples (results : list PyVal)
    (sample_pris : list string) : TypeFault + SampleReport.t :=
  let sample_report := SampleReport.mk (Py.len sample_pris) 0 [] [] in
  match index_by_pri results [] with
  | inl e => inl e
  | inr pri_to_result =>
      inr (fold_left (sample_step pri_to_result) sample_pris sample_report)
  end.

(** [validate] *)
Definition validate (results : Val.Dict) (sample_pris : option (list string))
  : TypeFault + Report.t :=
  let validation_report := Report.mk true 0 0 0 [] None in
  let (ok, validation_report) :=
    _validate_structure results validation_report in
  if negb ok then inr (set_overall_valid false validation_report)
  else
    let result_list :=
      match Py.get results "results" with
      | Some (PList l) => l
      | _ => []
      end in
    let validation_report :=
      set_total_count (Py.len result_list) validation_report in
    match validate_each result_list validation_report with
    | inl e => inl e
    | inr validation_report =>
        let sampled :=
          match sample_pris with
          | Some ((_ :: _) as sample_pris) =>
              match _validate_samples result_list sample_pris with
              | inl e => inl e
              | inr sample_report =>
                  inr (set_sample_validation (Some sample_report)
                                             validation_report)
              end
          | Some [] | None => inr validation_report
          end in
        match sampled with
        | inl e => inl e
        | inr validation_report =>
            if 0 <? Report.invalid_count validation_report then
              inr (add_issue
                     (String.append
                        (str_int (Report.invalid_count validation_report))
                        " invalid results found")
                     (set_overall_valid false validation_report))
            else inr validation_report
        end
    end.

End Samples.

(** [{r['pri'] for r in actual_results if 'pri' in r}], over the
    results still to come. *)
Fixpoint pri_set (actual_results : list PyVal) (actual_pris : list PyVal)
  : TypeFault + list PyVal :=
  match actual_results with
  | [] => inr actual_pris
  | r :: actual_results' =>
      match Val.contains "pri" r with
      | inl e => inl e
      | inr false => pri_set actual_results' actual_pris
      | inr true =>
          match r with
          | PDict d =>
              let key := Val.get d "pri" in
              if Val.hashable key then
                pri_set actual_results' (Val.add key actual_pris)
              else inl TypeError
          | _ => inl TypeError
          end
      end
  end.

(** [set(expected_pris)], listed in the order in which the PRIs have
    come. *)
Definition add_pri (pri : string) (s : list string) : list string :=
  if existsb (String.eqb pri) s then s else s ++ [pri].

(** [check_completeness] *)
Definition check_completeness (expected_pris : list string)
    (actual_results : list PyVal) : TypeFault + Completeness.t :=
  match pri_set actual_results [] with
  | inl e => inl e
  | inr actual_pris =>
      let expected_set :=
        fold_left (fun s pri => add_pri pri s) expected_pris [] in
      let missing_pris :=
        filter (fun pri => negb (existsb (Val.eqb (PStr pri)) actual_pris))
               expected_set in
      let extra_pris :=
        filter (fun key =>
                  negb (existsb (fun pri => Val.eqb key (PStr pri))
                                expected_set))
               actual_pris in
      inr (Completeness.mk
             (Py.len expected_pris) (Py.len actual_pris)
             (Py.len missing_pris) (Py.len extra_pris)
             missing_pris extra_pris
             (Py.len missing_pris =? 0))
  end.

End DataValidator.

(** ** bot_config.py *)

(** [@dataclass BotConfiguration].  A dataclass does not check the
    types of its fields: each field holds a value of type [Any]. *)
Module BotConfiguration.

(** What the construction of a configuration raises: the [ValueError]
    of a check that fails, or the [TypeError] of the comparison of a
    value that is no number with an integer. *)
Inductive Refused : Type :=
| Invalid (e : PyError)
| Mistyped (e : TypeFault).

Record t : Type := mk {
  num_bots : PyVal;
  max_retries : PyVal;
  retry_delay : PyVal;
  verbose : PyVal;
  monitor_interval : PyVal;
  task_processor_config : PyVal
}.

(** [v <= 0] *)
Definition le_zero (v : PyVal) : TypeFault + bool :=
  match Val.number v with
  | Some x => inr (Val.le_zero x)
  | None => inl TypeError
  end.

(** [v < 0] *)
Definition lt_zero (v : PyVal) : TypeFault + bool :=
  match Val.number v with
  | Some x => inr (Val.lt_zero x)
  | None => inl TypeError
  end.

(** [__post_init__], with the configuration as it leaves it. *)
Definition __post_init__ (self : t) : Refused + t :=
  match le_zero (num_bots self) with
  | inl e => inl (Mistyped e)
  | inr true => inl (Invalid (ValueError "num_bots must be greater than 0"))
  | inr false =>
  match lt_zero (max_retries self) with
  | inl e => inl (Mistyped e)
  | inr true => inl (Invalid (ValueError "max_retries must be non-negative"))
  | inr false =>
  match lt_zero (retry_delay self) with
  | inl e => inl (Mistyped e)
  | inr true => inl (Invalid (ValueError "retry_delay must be non-negative"))
  | inr false =>
  match le_zero (monitor_interval self) with
  | inl e => inl (Mistyped e)
  | inr true =>
      inl (Invalid (ValueError "monitor_interval must be greater than 0"))
  | inr false =>
      inr (match task_processor_config self with
           | PNone =>
               mk (num_bots self) (max_retries self) (retry_delay self)
                  (verbose self) (monitor_interval self) (PDict [])
           | _ => self
           end)
  end end end end.

(** [BotConfiguration(...)]: the fields are assigned, then
    [__post_init__] runs. *)
Definition __init__ (num_bots max_retries retry_delay verbose
                     monitor_interval task_processor_config : PyVal)
  : Refused + t :=
  __post_init__ (mk num_bots max_retries retry_delay verbose
                    monitor_interval task_processor_config).

(** [to_dict]: [asdict] copies the values, field by field. *)
Definition to_dict (self : t) : Val.Dict :=
  [("num_bots", num_bots self);
   ("max_retries", max_retries self);
   ("retry_delay", retry_delay self);
   ("verbose", verbose self);
   ("monitor_interval", monitor_interval self);
   ("task_processor_config", task_processor_config self)].

(** The argument of a field: the value of the dictionary if the key is
    there, the default of the field if not. *)
Definition argument (config_dict : Val.Dict) (field : string)
    (default : PyVal) : PyVal :=
  match Py.get config_dict field with
  | Some v => v
  | None => default
  end.

(** [from_dict]: the keys that are no fields are left out. *)
Definition from_dict (config_dict : Val.Dict) : Refused + t :=
  __init__ (argument config_dict "num_bots" (PInt 4))
           (argument config_dict "max_retries" (PInt 3))
           (argument config_dict "retry_delay" (PFloat 1))
           (argument config_dict "verbose" (PBool false))
           (argument config_dict "monitor_interval" (PFloat 1))
           (argument config_dict "task_processor_config" PNone).

End BotConfiguration.

(** ** bot_conductor.py *)

(** [class BotConductor] (its [validator] and [results_lock] are not
    used by the functions below). *)
Module BotConductor.

Record t : Type := mk {
  max_workers : Z;
  batch_size : Z
}.

(** What is not decided by the program in one call of [extract_data]:
    the network that the bot of each batch (by [batch_idx]) observes,
    and the instant at which the future of the batch is done. *)
Record Run (Data : Type) : Type := mkRun {
  observed : Z -> Network Data;
  finished : Z -> nat
}.

(** The dictionary returned by [extract_data]: the early one, with keys
    [status], [message], [results] and [failed], or the summary. *)
Module Report.
Inductive t (Data : Type) : Type :=
| Early (status message : string)
        (results : list (BatchResult.Extracted Data)) (failed : list string)
| Summary (status : string) (total_pris successful failed : Z)
          (results : list (BatchResult.Extracted Data))
          (failed_pris : list string).
Arguments Early {Data} status message results failed.
Arguments Summary {Data} status total_pris successful failed results
  failed_pris.
End Report.

Definition __init__ (max_workers batch_size : Z) : t :=
  mk max_workers batch_size.

(** The dictionary returned by [get_statistics].  [failed_extractions]
    is whatever the key [failed] holds: a count in a summary, the list
    of failed PRIs in the early dictionary. *)
Module Stats.
Record t : Type := mk {
  total_pris_processed : Z;
  successful_extractions : Z;
  failed_extractions : Z + list string;
  success_rate : Q
}.
End Stats.

(** [divide_pris]: [range] raises [ValueError] when [batch_size] is 0. *)
Definition divide_pris (pri_list : list string) (self : t)
  : PyError + list (list string) :=
  match pri_list with
  | [] => inr []
  | _ :: _ =>
      match Py.range3 0 (Py.len pri_list) (batch_size self) with
      | inl e => inl e
      | inr starts =>
          inr (fold_left
                 (fun batches i =>
                    let batch := Py.slice pri_list i (i + batch_size self) in
                    batches ++ [batch])
                 starts [])
      end
  end.

Section Methods.
Context {Data : Type} `{Py.Object Data}.

(** [_process_batch]: the methods of the bot catch their own
    exceptions, so the [except] branch is not taken; [finally] runs
    [cleanup] on every way out.  The bot is returned with the result
    for the requests it has sent. *)
Definition _process_batch (net : Network Data) (batch : list string)
    (batch_idx : Z) (phoenix_credentials : StrDict)
    (query_template : option string)
  : BatchResult.t Data * PhoenixBot.t Data :=
  let bot := PhoenixBot.__init__ net phoenix_credentials batch_idx in
  let (ok, bot) := PhoenixBot.authenticate bot in
  if negb ok then
    (BatchResult.mk [] batch, PhoenixBot.cleanup bot)
  else
    let (batch_results, bot) :=
      PhoenixBot.extract_batch_data batch query_template bot in
    (batch_results, PhoenixBot.cleanup bot).

(** [enumerate(batches)], from index [k]. *)
Fixpoint enumerate_from {A : Type} (k : Z) (l : list A) : list (Z * A) :=
  match l with
  | [] => []
  | x :: l' => (k, x) :: enumerate_from (k + 1) l'
  end.

(** [extract_data], with the bots it has created.  [ThreadPoolExecutor]
    raises [ValueError] for [max_workers <= 0]; no future raises, so the
    [except] branch of the collecting loop is not taken. *)
Definition extract_data (run : Run Data) (pri_list : list string)
    (phoenix_credentials : StrDict) (query_template : option string)
    (self : t)
  : PyError + (Report.t Data * list (PhoenixBot.t Data)) :=
  match divide_pris pri_list self with
  | inl e => inl e
  | inr [] => inr (Report.Early "error" "No PRIs to process" [] [], [])
  | inr ((_ :: _) as batches) =>
      if max_workers self <=? 0 then
        inl (ValueError "max_workers must be greater than 0")
      else
        let futures :=
          map (fun job =>
                 (fst job,
                  _process_batch (observed run (fst job)) (snd job) (fst job)
                                 phoenix_credentials query_template))
              (enumerate_from 0 batches) in
        let done := as_completed (fun f => finished run (fst f)) futures in
        let (all_results, failed_pris) :=
          fold_left
            (fun acc f =>
               let batch_results := fst (snd f) in
               (fst acc ++ BatchResult.results batch_results,
                snd acc ++ BatchResult.failed batch_results))
            done ([], []) in
        inr (Report.Summary "completed" (Py.len pri_list)
                            (Py.len all_results) (Py.len failed_pris)
                            all_results failed_pris,
             map (fun f => snd (snd f)) futures)
  end.


End Methods.

(** [validate_results]: the report of the validator, which is logged
    and returned. *)
Definition validate_results (py_str : PyVal -> string) (results : Val.Dict)
    (sample_pris : option (list string)) (self : t)
  : TypeFault + DataValidator.Report.t :=
  DataValidator.validate py_str results sample_pris.

(** The dictionaries of [extract_data] as Python holds them, when the
    data are values of type [Any]: a [Report.t] without its types, each
    entry of [results] with the [timestamp] that [clock] gives it. *)
Definition entry_dict (clock : BatchResult.Extracted PyVal -> Q)
    (x : BatchResult.Extracted PyVal) : PyVal :=
  PDict [("pri", PStr (BatchResult.pri x));
         ("data", BatchResult.data x);
         ("timestamp", PFloat (clock x));
         ("bot_id", PInt (BatchResult.bot_id x))].

Definition as_dict (clock : BatchResult.Extracted PyVal -> Q)
    (report : Report.t PyVal) : Val.Dict :=
  match report with
  | Report.Early status message results failed =>
      [("status", PStr status);
       ("message", PStr message);
       ("results", PList (map (entry_dict clock) results));
       ("failed", PList (map PStr failed))]
  | Report.Summary status total_pris successful failed results failed_pris =>
      [("status", PStr status);
       ("total_pris", PInt total_pris);
       ("successful", PInt successful);
       ("failed", PInt failed);
       ("results", PList (map (entry_dict clock) results));
       ("failed_pris", PList (map PStr failed_pris))]
  end.

End BotConductor.

(** ** Concrete inputs

    The processors are those of [test_bot_manager.py]; the credentials
    and the batch are those of [tests/test_bot_conductor.py]. *)

Module Examples.

(** Python integers as tasks. *)
#[export] Instance int_object : Py.Object Z := {|
  Py.str := str_int;
  Py.truthy := fun n => negb (n =? 0)
|}.

(** [simple_processor] *)
Definition simple_processor : Processor Z Z :=
  fun _ task => Returned (task * 2).

(** [failing_processor] *)
Definition failing_processor : Processor Z Z :=
  fun _ _ => Raised "Test failure".

(** [sometimes_failing_processor] *)
Definition sometimes_failing_processor : Processor Z Z :=
  fun _ task =>
    if task mod 5 =? 0 then Raised "Divisible by 5" else Returned (task * 2).

(** All threads see [sometimes_failing_processor]; the bots with the
    larger identifiers finish first. *)
Definition some_fail : BotManager.Run Z Z :=
  BotManager.mkRun (fun _ => sometimes_failing_processor)
                   (fun i => Z.to_nat (10 - i)).

(** All threads see [simple_processor] and finish in submission
    order. *)
Definition all_succeed : BotManager.Run Z Z :=
  BotManager.mkRun (fun _ => simple_processor) (fun i => Z.to_nat i).

(** [BotManager(num_bots=4, max_retries=1, retry_delay=0.01)] *)
Definition four_bots : BotManager.t Z Z := BotManager.mk 4 1 (1 # 100) [] [].

(** [BotManager(num_bots=2, max_retries=1, retry_delay=0.01)] *)
Definition two_bots : BotManager.t Z Z := BotManager.mk 2 1 (1 # 100) [] [].

(** [list(range(1, 11))] *)
Definition ten_tasks : list Z := [1; 2; 3; 4; 5; 6; 7; 8; 9; 10].

Definition credentials : StrDict :=
  [("base_url", "http://test.com"); ("username", "test");
   ("password", "pass")].

(** A network that refuses the login with status 401 and knows no
    PRI. *)
Definition refusing : Network Z :=
  mkNetwork (fun _ => Response 401 [])
            (fun _ _ _ => Response 404 None)
            (fun _ => "0000000000000000").

Definition five_pris : list string :=
  ["PRI000"; "PRI001"; "PRI002"; "PRI003"; "PRI004"].

(** A processor that raises on the first two calls of its thread and
    returns afterwards. *)
Definition recovering_processor : Processor Z Z :=
  fun k task => if (k <? 2)%nat then Raised "Not yet" else Returned (task * 2).

(** A network that accepts the login with the cookies of
    [test_get_cookie_success] and knows every PRI but PRI003. *)
Definition answering : Network Z :=
  mkNetwork
    (fun _ => Response 200 [("auth_token", "test_token");
                            ("session", "test_session")])
    (fun _ _ params =>
       match Py.get params "pri" with
       | Some pri =>
           if String.eqb pri "PRI003" then Response 404 None
           else Response 200 (Some 1)
       | None => Response 400 None
       end)
    (fun _ => "0123456789abcdef").

(** A network on which every request raises the RequestException of
    [test_get_cookie_request_exception]. *)
Definition unreachable : Network Z :=
  mkNetwork (fun _ => RequestException "Connection error")
            (fun _ _ _ => RequestException "Connection error")
            (fun _ => "0123456789abcdef").

(** Every bot sees [answering]; the batches with the larger indices
    finish first. *)
Definition last_first : BotConductor.Run Z :=
  BotConductor.mkRun (fun _ => answering) (fun i => Z.to_nat (10 - i)).

(** All threads see [failing_processor]. *)
Definition all_fail : BotManager.Run Z Z :=
  BotManager.mkRun (fun _ => failing_processor) (fun _ => 0%nat).

(** [BotManager(num_bots=1, max_retries=2, retry_delay=-1)] *)
Definition hasty_bot : BotManager.t Z Z := BotManager.mk 1 2 (-1 # 1) [] [].

(** [BotManager(num_bots=2, max_retries=0, retry_delay=0.01)] *)
Definition no_retries : BotManager.t Z Z := BotManager.mk 2 0 (1 # 100) [] [].

(** [str(v)] on the values of the examples: strings, and dictionaries
    of one field whose value is a string. *)
Definition str_of (v : PyVal) : string :=
  match v with
  | PStr s => s
  | PDict [(k, PStr s)] =>
      String.append "{'"
        (String.append k (String.append "': '" (String.append s "'}")))
  | _ => ""
  end.

(** An entry of the results of the tests of the validator. *)
Definition entry (pri value : string) (timestamp : Q) : PyVal :=
  PDict [("pri", PStr pri);
         ("data", PDict [("field", PStr value)]);
         ("timestamp", PFloat timestamp)].

(** The results of [test_validate_with_missing_samples]. *)
Definition two_entries : list PyVal :=
  [entry "PRI001" "value1" 123456; entry "PRI002" "value2" 123457].

Definition two_results : Val.Dict :=
  [("status", PStr "completed"); ("total_pris", PInt 2);
   ("results", PList two_entries)].

(** The results of [test_validate_result_missing_fields]: the second
    entry has no data. *)
Definition one_without_data : Val.Dict :=
  [("status", PStr "completed"); ("total_pris", PInt 2);
   ("results",
    PList [entry "PRI001" "value1" 123456;
           PDict [("pri", PStr "PRI002"); ("timestamp", PFloat 123457)]])].

(** The results of [test_validate_missing_required_field]. *)
Definition no_status : Val.Dict :=
  [("total_pris", PInt 1); ("results", PList [])].

(** Results with an entry whose PRI is a list. *)
Definition listed_pri : Val.Dict :=
  [("status", PStr "completed"); ("total_pris", PInt 1);
   ("results",
    PList [PDict [("pri", PList [PStr "PRI001"]);
                  ("data", PDict [("field", PStr "value1")]);
                  ("timestamp", PFloat 123456)]])].

(** A network that accepts the login and answers every query with a
    dictionary of one field. *)
Definition answering_any : Network PyVal :=
  mkNetwork
    (fun _ => Response 200 [("auth_token", "test_token")])
    (fun _ _ _ => Response 200 (Some (PDict [("field", PStr "value1")])))
    (fun _ => "0123456789abcdef").

Definition in_order : BotConductor.Run PyVal :=
  BotConductor.mkRun (fun _ => answering_any) (fun i => Z.to_nat i).

End Examples.

(** ** Vocabulary of the properties *)

Module Spec.

(** Where slice [i] starts when [n] tasks go to [w] bots: [i] shares of
    [n / w] tasks and one more task for each bot before [i] among the
    first [n mod w]. *)
Definition offset (n w i : Z) : Z := i * (n / w) + Z.min i (n mod w).

(** The size of slice [i]. *)
Definition share (n w i : Z) : Z := n / w + (if i <? n mod w then 1 else 0).

(** The number of chunks of [b] items that [l] items fill: [l / b],
    rounded up. *)
Definition ceil_div (l b : Z) : Z := (l + b - 1) / b.

(** The sum of a list of integers. *)
Definition sum_Z (l : list Z) : Z := fold_right Z.add 0 l.

Section Engine.
Context {Task Result : Type}.
Implicit Types (tasks : list Task) (task : Task).
Implicit Types (self : Bot.t Task Result).

(** Slice [i] of the task list. *)
Definition chunk tasks (w i : Z) : list Task :=
  Py.slice tasks (offset (Py.len tasks) w i) (offset (Py.len tasks) w (i + 1)).

(** The tasks a bot has accounted for. *)
Definition handled self : Z :=
  BotProgress.tasks_completed (Bot.progress self)
  + BotProgress.tasks_failed (Bot.progress self).

(** The attributes that processing never assigns. *)
Definition same_setup self self' : Prop :=
  Bot.bot_id self' = Bot.bot_id self /\
  Bot.task_processor self' = Bot.task_processor self /\
  Bot.max_retries self' = Bot.max_retries self /\
  Bot.retry_delay self' = Bot.retry_delay self.

(** The events of [n] failed attempts in a row: a call each, and a
    sleep between two calls. *)
Fixpoint retry_events task (delay : Q) (n : nat) : list (Event Task) :=
  match n with
  | O => []
  | S n' =>
      EvCall task ::
      match n' with
      | O => []
      | S _ => EvSleep delay :: retry_events task delay n'
      end
  end.

(** How many times a bot has slept in a trace. *)
Definition sleeps (tr : list (Event Task)) : nat :=
  List.length (filter (@Bot.is_sleep Task) tr).

End Engine.

Section Pool.
Context {Task Result : Type}.
Implicit Types (self : BotManager.t Task Result) (tasks : list Task).
Implicit Types (run : BotManager.Run Task Result).

(** The bot that [execute] makes for index [i]. *)
Definition fresh run self (i : Z) : Bot.t Task Result :=
  Bot.__init__ i (BotManager.observed run i) (BotManager.max_retries self)
               (BotManager.retry_delay self).

(** The threads of a call of [execute]: for each index, the outcome of
    its future if it is submitted, and the bot as its thread leaves
    it. *)
Definition threads run tasks self
  : list (option (PyError + list (TaskResult.t Task Result))
          * Bot.t Task Result) :=
  map (fun i =>
         BotManager.submit
           (fresh run self i,
            chunk tasks (BotManager.num_bots self) i))
      (Py.range (BotManager.num_bots self)).

(** The results that a future adds to [all_results]. *)
Definition collected
    (f : Bot.t Task Result * (PyError + list (TaskResult.t Task Result)))
  : list (TaskResult.t Task Result) :=
  match snd f with
  | inr results => results
  | inl _ => []
  end.

(** The bots that a call of [execute] makes, seen from the manager that
    the call leaves: an empty task list makes none, and leaves
    [self.bots] as the call has found it. *)
Definition workers tasks self : list (Bot.t Task Result) :=
  match tasks with
  | [] => []
  | _ :: _ => BotManager.bots self
  end.

End Pool.

(** Chunk [k] of a list cut into chunks of [b] items. *)
Definition batch_at (pri_list : list string) (b k : Z) : list string :=
  Py.slice pri_list (k * b) (k * b + b).

End Spec.

(** ** Vocabulary of the further properties *)

Module Tally.

Section Engine.
Context {Task Result : Type}.

(** How many results are successes, and how many are failures. *)
Definition successes (results : list (TaskResult.t Task Result)) : Z :=
  Py.len (filter (fun r => TaskResult.success r) results).

Definition failures (results : list (TaskResult.t Task Result)) : Z :=
  Py.len (filter (fun r => negb (TaskResult.success r)) results).

(** The result of a task that is given no attempt. *)
Definition given_up (bot_id : Z) (task : Task) : TaskResult.t Task Result :=
  TaskResult.mk bot_id task false None None.

(** The results that a bot has made. *)
Definition made_by (i : Z) (results : list (TaskResult.t Task Result))
  : list (TaskResult.t Task Result) :=
  filter (fun r => TaskResult.bot_id r =? i) results.

End Engine.

(** A result that is a dictionary. *)
Definition is_record (r : PyVal) : bool :=
  match r with PDict _ => true | _ => false end.

(** A result that is a dictionary whose [pri], if it has one, can be
    hashed. *)
Definition keyed (r : PyVal) : bool :=
  match r with
  | PDict d => Val.hashable (Val.get d "pri")
  | _ => false
  end.

(** A result that is a dictionary with this string as [pri]. *)
Definition has_pri (pri : string) (r : PyVal) : bool :=
  match r with
  | PDict d =>
      match Py.get d "pri" with
      | Some (PStr s) => String.eqb s pri
      | _ => false
      end
  | _ => false
  end.

(** The results that [_validate_result] accepts. *)
Definition accepted (r : PyVal) : bool :=
  match DataValidator._validate_result r with
  | inr true => true
  | _ => false
  end.

(** The elements of a list that a mask keeps, in their order. *)
Fixpoint pick {A : Type} (mask : list bool) (l : list A) : list A :=
  match mask, l with
  | b :: mask', x :: l' => if b then x :: pick mask' l' else pick mask' l'
  | _, _ => []
  end.

(** The results that carry the index of a batch as bot_id. *)
Definition of_batch {Data : Type} (k : Z)
    (results : list (BatchResult.Extracted Data))
  : list (BatchResult.Extracted Data) :=
  filter (fun x => BatchResult.bot_id x =? k) results.

(** The PRI that a query asks for, and the address it is sent to. *)
Definition queried (e : NetEvent) : option string :=
  match e with
  | EvGet _ params => Py.get params "pri"
  | _ => None
  end.

Definition url_of (e : NetEvent) : option string :=
  match e with
  | EvGet url _ | EvPost url => Some url
  | EvClose => None
  end.

(** The address of the queries of a bot: a template that is the empty
    string counts as no template. *)
Definition endpoint (credentials : StrDict) (query_template : option string)
  : string :=
  String.append
    (match Py.get credentials "base_url" with
     | Some u => u
     | None => "https://phoenix.example.com"
     end)
    (match query_template with
     | Some template =>
         if String.eqb template "" then "/api/data" else "/query"
     | None => "/api/data"
     end).

(** A result that is no container: [None], a boolean or a number. *)
Definition is_scalar (r : PyVal) : bool :=
  match r with
  | PNone | PBool _ | PInt _ | PFloat _ | PNaN _ | PInf _ => true
  | _ => false
  end.

(** The address to which [get_cookie] posts the login request. *)
Definition login_url (credentials : StrDict) : string :=
  String.append
    (match Py.get credentials "base_url" with
     | Some u => u
     | None => "https://phoenix.example.com"
     end)
    "/auth/login".

(** A number above 0: a finite one, or the positive infinity. *)
Definition above_zero (x : Val.Number) : Prop :=
  match x with
  | Val.Finite q => (0 < q)%Q
  | Val.NaN => False
  | Val.Infinite negative => negative = false
  end.

(** A number that is 0 or above it. *)
Definition zero_or_above (x : Val.Number) : Prop :=
  match x with
  | Val.Finite q => (0 <= q)%Q
  | Val.NaN => False
  | Val.Infinite negative => negative = false
  end.

End Tally.

(** * Properties *)

(** ** Lists, slices and ranges *)

Section PyFacts.
Context {A : Type}.

Lemma firstn_add_skipn (a b : nat) (l : list A) :
  firstn (a + b) l = firstn a l ++ firstn b (skipn a l).
Proof.
  revert l; induction a as [|a IH]; intros l; [reflexivity|].
  destruct l as [|x l]; simpl.
  - now rewrite firstn_nil.
  - now rewrite IH.
Qed.

Lemma len_nonneg (l : list A) : 0 <= Py.len l.
Proof. unfold Py.len; lia. Qed.

Lemma len_app (l1 l2 : list A) : Py.len (l1 ++ l2) = Py.len l1 + Py.len l2.
Proof. unfold Py.len; rewrite length_app; lia. Qed.

Lemma clamp_within (n i : Z) : 0 <= i <= n -> Py.clamp n i = i.
Proof.
  intros Hi; unfold Py.clamp.
  destruct (Z.ltb_spec i 0); lia.
Qed.

Lemma clamp_beyond (n i : Z) : 0 <= n <= i -> Py.clamp n i = n.
Proof.
  intros Hi; unfold Py.clamp.
  destruct (Z.ltb_spec i 0); lia.
Qed.

(** Inside the list, a slice is a [firstn] of a [skipn]. *)
Lemma slice_within (l : list A) (i j : Z) :
  0 <= i <= j -> j <= Py.len l ->
  Py.slice l i j = firstn (Z.to_nat (j - i)) (skipn (Z.to_nat i) l).
Proof.
  intros Hij Hj; unfold Py.slice.
  rewrite !clamp_within by lia; reflexivity.
Qed.

(** A slice that starts inside the list and ends beyond it stops at the
    end of the list. *)
Lemma slice_to_end (l : list A) (i j : Z) :
  0 <= i <= Py.len l -> Py.len l <= j ->
  Py.slice l i j = skipn (Z.to_nat i) l.
Proof.
  intros Hi Hj; unfold Py.slice.
  rewrite (@clamp_within (Py.len l) i) by lia.
  rewrite clamp_beyond by (pose proof (len_nonneg l); lia).
  apply firstn_all2.
  rewrite length_skipn; unfold Py.len in *; lia.
Qed.

Lemma len_slice_within (l : list A) (i j : Z) :
  0 <= i <= j -> j <= Py.len l -> Py.len (Py.slice l i j) = j - i.
Proof.
  intros Hij Hj; rewrite slice_within by assumption.
  unfold Py.len in *.
  rewrite length_firstn, length_skipn; lia.
Qed.

(** Consecutive slices join. *)
Lemma firstn_slice_join (l : list A) (i j : Z) :
  0 <= i <= j -> j <= Py.len l ->
  firstn (Z.to_nat i) l ++ Py.slice l i j = firstn (Z.to_nat j) l.
Proof.
  intros Hij Hj; rewrite slice_within by assumption.
  rewrite <- firstn_add_skipn; f_equal; lia.
Qed.

End PyFacts.

Lemma range_S (n : nat) :
  Py.range (Z.of_nat (S n)) = Py.range (Z.of_nat n) ++ [Z.of_nat n].
Proof.
  unfold Py.range.
  rewrite !Nat2Z.id, seq_S, map_app; reflexivity.
Qed.

Lemma len_range (n : Z) : 0 <= n -> Py.len (Py.range n) = n.
Proof.
  intros Hn; unfold Py.len, Py.range.
  rewrite length_map, length_seq; lia.
Qed.

Lemma nth_error_range (n i : Z) :
  0 <= i < n -> nth_error (Py.range n) (Z.to_nat i) = Some i.
Proof.
  intros Hi; unfold Py.range.
  rewrite nth_error_map, nth_error_seq.
  destruct (Nat.ltb_spec (Z.to_nat i) (Z.to_nat n)); [|lia].
  simpl; f_equal; lia.
Qed.

(** ** The partition of the manager *)

Module DivideTasks.

Import Spec.

Lemma offset_succ (n w i : Z) :
  0 <= i -> offset n w (i + 1) = offset n w i + share n w i.
Proof.
  intros Hi; unfold offset, share.
  destruct (Z.ltb_spec i (n mod w)); lia.
Qed.

Lemma offset_bounds (n w i : Z) :
  0 <= n -> 0 < w -> 0 <= i <= w -> 0 <= offset n w i <= n.
Proof.
  intros Hn Hw Hi; unfold offset.
  pose proof (Z.div_mod n w ltac:(lia)) as Hdm.
  pose proof (Z.mod_pos_bound n w Hw) as Hm.
  assert (0 <= n / w) by (apply Z.div_pos; lia).
  nia.
Qed.

Lemma offset_all (n w : Z) : 0 < w -> offset n w w = n.
Proof.
  intros Hw; unfold offset.
  pose proof (Z.div_mod n w ltac:(lia)) as Hdm.
  pose proof (Z.mod_pos_bound n w Hw) as Hm.
  lia.
Qed.

Lemma share_nonneg (n w i : Z) : 0 <= n -> 0 < w -> 0 <= share n w i.
Proof.
  intros Hn Hw; unfold share.
  assert (0 <= n / w) by (apply Z.div_pos; lia).
  destruct (i <? n mod w); lia.
Qed.

Section Facts.
Context {Task Result : Type}.
Implicit Types (tasks : list Task) (self : BotManager.t Task Result).

(** The loop of [_divide_tasks], after its first [k] rounds. *)
Lemma divide_loop tasks (w : Z) (k : nat) :
  0 < w ->
  fold_left
    (BotManager.divide_step tasks (Py.len tasks / w) (Py.len tasks mod w))
    (Py.range (Z.of_nat k)) ([], 0)
  = (map (chunk tasks w) (Py.range (Z.of_nat k)),
     offset (Py.len tasks) w (Z.of_nat k)).
Proof.
  intros Hw; induction k as [|k IH].
  - pose proof (Z.mod_pos_bound (Py.len tasks) w Hw).
    simpl; unfold offset; f_equal; lia.
  - rewrite range_S, fold_left_app, IH, map_app.
    cbn [fold_left map]; unfold BotManager.divide_step, chunk.
    rewrite Nat2Z.inj_succ, <- Z.add_1_r.
    rewrite offset_succ by lia; reflexivity.
Qed.

(** [_divide_tasks] gives the slices [chunk 0 .. chunk (w-1)]. *)
Lemma divide_tasks_chunks tasks self :
  0 < BotManager.num_bots self ->
  BotManager._divide_tasks tasks self
  = map (chunk tasks (BotManager.num_bots self))
        (Py.range (BotManager.num_bots self)).
Proof.
  intros Hw; unfold BotManager._divide_tasks.
  destruct tasks as [|t tasks].
  - apply map_ext; intros i; unfold chunk, Py.slice.
    now rewrite skipn_nil, firstn_nil.
  - rewrite <- (Z2Nat.id (BotManager.num_bots self)) at 3 4 by lia.
    rewrite divide_loop by lia; simpl.
    now rewrite Z2Nat.id by lia.
Qed.

Lemma len_chunk tasks (w i : Z) :
  0 < w -> 0 <= i < w ->
  Py.len (chunk tasks w i) = share (Py.len tasks) w i.
Proof.
  intros Hw Hi; unfold chunk.
  pose proof (len_nonneg tasks) as Hn.
  pose proof (offset_bounds (i := i) Hn Hw ltac:(lia)).
  pose proof (offset_bounds (i := i + 1) Hn Hw ltac:(lia)).
  pose proof (share_nonneg i Hn Hw).
  rewrite offset_succ in * by lia.
  rewrite len_slice_within; lia.
Qed.

(** The first [k] slices are the first [offset k] tasks. *)
Lemma concat_chunks tasks (w : Z) (k : nat) :
  0 < w -> Z.of_nat k <= w ->
  concat (map (chunk tasks w) (Py.range (Z.of_nat k)))
  = firstn (Z.to_nat (offset (Py.len tasks) w (Z.of_nat k))) tasks.
Proof.
  intros Hw; induction k as [|k IH]; intros Hk.
  - simpl; unfold offset.
    replace (0 * _ + Z.min 0 _) with 0; [reflexivity|].
    pose proof (Z.mod_pos_bound (Py.len tasks) w Hw); lia.
  - rewrite range_S, map_app, concat_app, IH by lia.
    cbn [map concat]; rewrite app_nil_r; unfold chunk.
    pose proof (len_nonneg tasks) as Hn.
    pose proof (offset_bounds (i := Z.of_nat k) Hn Hw ltac:(lia)).
    pose proof (offset_bounds (i := Z.of_nat k + 1) Hn Hw ltac:(lia)).
    pose proof (share_nonneg (Z.of_nat k) Hn Hw).
    rewrite Nat2Z.inj_succ, <- Z.add_1_r.
    apply firstn_slice_join; [|lia].
    rewrite offset_succ in * by lia; lia.
Qed.

Lemma concat_divide_tasks tasks self :
  0 < BotManager.num_bots self ->
  concat (BotManager._divide_tasks tasks self) = tasks.
Proof.
  intros Hw; rewrite divide_tasks_chunks by assumption.
  rewrite <- (Z2Nat.id (BotManager.num_bots self)) at 2 by lia.
  rewrite concat_chunks by lia.
  rewrite Z2Nat.id, offset_all by lia.
  unfold Py.len; rewrite Nat2Z.id; apply firstn_all.
Qed.

Lemma len_divide_tasks tasks self :
  0 < BotManager.num_bots self ->
  Py.len (BotManager._divide_tasks tasks self) = BotManager.num_bots self.
Proof.
  intros Hw; rewrite divide_tasks_chunks by assumption.
  unfold Py.len; rewrite length_map.
  apply len_range; lia.
Qed.

(** C1. For a task list of length N and W > 0 bots, [_divide_tasks]
    returns exactly W slices whose concatenation is the task list;
    slice i is the part of the list from [offset i] up to
    [offset (i + 1)], so the slices are contiguous, do not overlap and
    keep the original order; and slice i has N div W + 1 tasks when
    i < N mod W and N div W tasks otherwise. *)
Theorem divide_tasks_partition tasks self :
  0 < BotManager.num_bots self ->
  let N := Py.len tasks in
  let W := BotManager.num_bots self in
  let batches := BotManager._divide_tasks tasks self in
  Py.len batches = W /\
  concat batches = tasks /\
  forall i, 0 <= i < W ->
    exists batch,
      nth_error batches (Z.to_nat i) = Some batch /\
      batch = Py.slice tasks (offset N W i) (offset N W (i + 1)) /\
      0 <= offset N W i <= offset N W (i + 1) /\
      offset N W (i + 1) <= N /\
      Py.len batch = N / W + (if i <? N mod W then 1 else 0).
Proof.
  intros Hw; cbv zeta.
  split; [apply len_divide_tasks; assumption|].
  split; [apply concat_divide_tasks; assumption|].
  intros i Hi.
  exists (chunk tasks (BotManager.num_bots self) i).
  pose proof (len_nonneg tasks) as Hn.
  pose proof (offset_bounds (i := i) Hn Hw ltac:(lia)).
  pose proof (offset_bounds (i := i + 1) Hn Hw ltac:(lia)).
  pose proof (share_nonneg i Hn Hw).
  pose proof (@offset_succ (Py.len tasks) (BotManager.num_bots self) i
                ltac:(lia)).
  split.
  - rewrite divide_tasks_chunks by assumption.
    rewrite nth_error_map.
    now rewrite nth_error_range by lia.
  - repeat split; try lia.
    apply len_chunk; assumption.
Qed.

End Facts.

End DivideTasks.

(** ** One bot *)

Module BotFacts.

Import Spec.

Section Facts.
Context {Task Result : Type}.
Implicit Types (self : Bot.t Task Result) (task : Task).

Lemma same_setup_refl self : same_setup self self.
Proof. repeat split. Qed.

Lemma same_setup_trans self1 self2 self3 :
  same_setup self1 self2 -> same_setup self2 self3 -> same_setup self1 self3.
Proof.
  unfold same_setup; intros (?&?&?&?) (?&?&?&?); repeat split; congruence.
Qed.

Lemma calls_app (tr1 tr2 : list (Event Task)) :
  Bot.calls (tr1 ++ tr2) = (Bot.calls tr1 + Bot.calls tr2)%nat.
Proof. unfold Bot.calls; now rewrite filter_app, length_app. Qed.

Lemma calls_retry_events task delay n :
  Bot.calls (retry_events task delay n) = n.
Proof.
  induction n as [|[|n] IH]; try reflexivity.
  change (Bot.calls (retry_events task delay (S (S n))))
    with (S (Bot.calls (retry_events task delay (S n)))).
  now rewrite IH.
Qed.

Lemma sleeps_retry_events task delay n :
  sleeps (retry_events task delay n) = (n - 1)%nat.
Proof.
  induction n as [|[|n] IH]; try reflexivity.
  change (sleeps (retry_events task delay (S (S n))))
    with (S (sleeps (retry_events task delay (S n)))).
  rewrite IH; lia.
Qed.

(** Every sleep of the retries lasts [delay]. *)
Lemma retry_events_delay task delay n d :
  In (EvSleep d) (retry_events task delay n) -> d = delay.
Proof.
  induction n as [|[|n] IH]; simpl.
  - intros [].
  - intros [Hc|[]]; discriminate.
  - intros [Hc|[Hs|Hin]]; [discriminate|congruence|].
    apply IH; exact Hin.
Qed.

(** A delay that is not negative is slept. *)
Lemma sleep_ok self :
  (0 <= Bot.retry_delay self)%Q ->
  Bot.sleep self = (None, Bot.emit (EvSleep (Bot.retry_delay self)) self).
Proof.
  intros Hdelay; unfold Bot.sleep.
  now rewrite (proj2 (Qle_bool_iff 0 (Bot.retry_delay self)) Hdelay).
Qed.

(** The loop of [_process_single_task] on the attempts
    [a, a+1, ..., a+n-1], the last ones of [max_retries], when every
    call raises. *)
Lemma attempts_all_raise task (msg : nat -> string) (n : nat) :
  forall (a : Z) last_error self,
    (0 <= Bot.retry_delay self)%Q ->
    (forall k, Bot.task_processor self k task = Raised (msg k)) ->
    a + Z.of_nat n = Bot.max_retries self ->
    exists self',
      Bot.attempts task (map (fun k => a + Z.of_nat k) (seq 0 n))
                   last_error self
      = (Bot.Exhausted
           (match n with
            | O => last_error
            | S n' => Some (msg (Bot.calls (Bot.trace self) + n')%nat)
            end), self') /\
      same_setup self self' /\
      Bot.progress self' = Bot.progress self /\
      Bot.results self' = Bot.results self /\
      Bot.trace self'
      = Bot.trace self ++ retry_events task (Bot.retry_delay self) n.
Proof.
  induction n as [|n IH]; intros a last_error self Hdelay Hfail Hmax.
  - exists self; simpl; rewrite app_nil_r.
    repeat split.
  - rewrite <- cons_seq, <- seq_shift; cbn [map]; rewrite map_map.
    cbn [Bot.attempts]; unfold Bot.call_processor; rewrite Hfail.
    set (self1 := Bot.emit (EvCall task) self).
    assert (Hnext : exists self2,
      (if a + Z.of_nat 0 <? Bot.max_retries self1 - 1
       then match Bot.sleep self1 with
            | (Some err, self0) => (Bot.Escaped err, self0)
            | (None, self0) =>
                Bot.attempts task
                  (map (fun x => a + Z.of_nat (S x)) (seq 0 n))
                  (Some (msg (Bot.calls (Bot.trace self)))) self0
            end
       else Bot.attempts task
              (map (fun x => a + Z.of_nat (S x)) (seq 0 n))
              (Some (msg (Bot.calls (Bot.trace self)))) self1)
      = Bot.attempts task (map (fun x => a + Z.of_nat (S x)) (seq 0 n))
                     (Some (msg (Bot.calls (Bot.trace self)))) self2 /\
      same_setup self self2 /\
      Bot.progress self2 = Bot.progress self /\
      Bot.results self2 = Bot.results self /\
      Bot.trace self2
      = Bot.trace self ++
        EvCall task ::
        match n with
        | O => []
        | S _ => [EvSleep (Bot.retry_delay self)]
        end).
    { change (Bot.max_retries self1) with (Bot.max_retries self).
      destruct (Z.ltb_spec (a + Z.of_nat 0) (Bot.max_retries self - 1)).
      - rewrite sleep_ok by exact Hdelay.
        eexists; split; [reflexivity|].
        destruct n; [lia|].
        subst self1; cbn; rewrite <- app_assoc; repeat split.
      - exists self1; split; [reflexivity|].
        destruct n; [|lia].
        subst self1; cbn; repeat split. }
    destruct Hnext as (self2 & -> & Hsetup & Hprog & Hres & Htr).
    destruct (IH (a + 1) (Some (msg (Bot.calls (Bot.trace self)))) self2)
      as (self' & Hrun & Hsetup' & Hprog' & Hres' & Htr').
    { destruct Hsetup as (_ & _ & _ & ->); exact Hdelay. }
    { intros k; destruct Hsetup as (_ & -> & _); apply Hfail. }
    { destruct Hsetup as (_ & _ & -> & _); lia. }
    exists self'; split; [|split; [|split; [|split]]].
    + erewrite map_ext; [rewrite Hrun|intros k; lia].
      f_equal; f_equal.
      destruct n as [|n]; [f_equal; f_equal; lia|].
      rewrite Htr, calls_app; cbn; f_equal; f_equal; lia.
    + eapply same_setup_trans; eassumption.
    + congruence.
    + congruence.
    + rewrite Htr', Htr.
      destruct Hsetup as (_ & _ & _ & ->).
      destruct n; cbn; rewrite <- app_assoc; reflexivity.
Qed.

Lemma range_from_zero (n : Z) :
  Py.range n = map (fun k => 0 + Z.of_nat k) (seq 0 (Z.to_nat n)).
Proof. unfold Py.range; apply map_ext; intros k; lia. Qed.

(** Without retries to make, the loop of [_process_single_task] does
    not start: the processor is not called. *)
Lemma no_attempt_without_retries task self :
  Bot.max_retries self <= 0 ->
  let ret := Bot._process_single_task task self in
  Bot.trace (snd ret) = Bot.trace self /\
  fst ret = inr (TaskResult.mk (Bot.bot_id self) task false None None) /\
  BotProgress.tasks_failed (Bot.progress (snd ret))
  = BotProgress.tasks_failed (Bot.progress self) + 1.
Proof.
  intros Hmax; cbv zeta; unfold Bot._process_single_task, Py.range.
  cbn [Bot.max_retries Bot.update_progress Bot.set_progress].
  replace (Z.to_nat (Bot.max_retries self)) with O by lia.
  repeat split.
Qed.

(** C3. When every call of the processor on the task raises, a bot with
    max_retries >= 0 and retry_delay >= 0 calls the processor exactly
    max_retries times while it processes the task; the events it adds
    to its trace are these calls with one sleep between two consecutive
    calls, so max_retries - 1 sleeps when max_retries >= 1, each of
    retry_delay; and it returns a TaskResult that has success = false
    and carries the message of the last call. *)
Theorem failing_task_retry_count task (msg : nat -> string) self :
  0 <= Bot.max_retries self ->
  (0 <= Bot.retry_delay self)%Q ->
  (forall k, Bot.task_processor self k task = Raised (msg k)) ->
  let ret := Bot._process_single_task task self in
  let new :=
    retry_events task (Bot.retry_delay self)
                 (Z.to_nat (Bot.max_retries self)) in
  Bot.trace (snd ret) = Bot.trace self ++ new /\
  Z.of_nat (Bot.calls new) = Bot.max_retries self /\
  (1 <= Bot.max_retries self ->
   Z.of_nat (sleeps new) = Bot.max_retries self - 1) /\
  (forall d, In (EvSleep d) new -> d = Bot.retry_delay self) /\
  exists r,
    fst ret = inr r /\
    TaskResult.task r = task /\
    TaskResult.success r = false /\
    (1 <= Bot.max_retries self ->
     TaskResult.error r
     = Some (msg (Bot.calls (Bot.trace self)
                  + (Z.to_nat (Bot.max_retries self) - 1))%nat)).
Proof.
  intros Hmax Hdelay Hfail; cbv zeta.
  unfold Bot._process_single_task.
  set (self0 := Bot.update_progress _ self).
  destruct (@attempts_all_raise task msg (Z.to_nat (Bot.max_retries self))
              0 None self0)
    as (self' & Hrun & Hsetup & Hprog & Hres & Htr).
  { exact Hdelay. }
  { exact Hfail. }
  { subst self0; cbn; lia. }
  change (Bot.max_retries self0) with (Bot.max_retries self).
  rewrite range_from_zero, Hrun; cbn [fst snd].
  split; [exact Htr|].
  split; [rewrite calls_retry_events; lia|].
  split; [intros H1; rewrite sleeps_retry_events; lia|].
  split; [intros d; apply retry_events_delay|].
  eexists; split; [reflexivity|].
  split; [reflexivity|].
  split; [reflexivity|].
  intros H1; cbn.
  destruct (Z.to_nat (Bot.max_retries self)) as [|n'] eqn:En; [lia|].
  f_equal; f_equal; unfold Bot.calls; lia.
Qed.

(** The loop of [_process_single_task], whatever the calls give: a task
    is counted as completed exactly when the loop returns from inside,
    and no exception leaves the loop when the delay is not negative. *)
Lemma attempts_accounting task (rng : list Z) :
  forall last_error self,
    (0 <= Bot.retry_delay self)%Q ->
    let ret := Bot.attempts task rng last_error self in
    same_setup self (snd ret) /\
    Bot.results (snd ret) = Bot.results self /\
    BotProgress.bot_id (Bot.progress (snd ret))
    = BotProgress.bot_id (Bot.progress self) /\
    match fst ret with
    | Bot.Return r =>
        TaskResult.task r = task /\
        TaskResult.bot_id r = Bot.bot_id self /\
        handled (snd ret) = handled self + 1
    | Bot.Exhausted _ => handled (snd ret) = handled self
    | Bot.Escaped _ => False
    end.
Proof.
  induction rng as [|attempt rng IH]; intros last_error self Hdelay;
    cbv zeta.
  - cbn; repeat split.
  - cbn [Bot.attempts]; unfold Bot.call_processor.
    destruct (Bot.task_processor self (Bot.calls (Bot.trace self)) task)
      as [result|e].
    + cbn; unfold handled; cbn; repeat split; lia.
    + assert (Hnext : exists self1,
        (if attempt <? Bot.max_retries (Bot.emit (EvCall task) self) - 1
         then match Bot.sleep (Bot.emit (EvCall task) self) with
              | (Some err, self0) => (Bot.Escaped err, self0)
              | (None, self0) => Bot.attempts task rng (Some e) self0
              end
         else Bot.attempts task rng (Some e) (Bot.emit (EvCall task) self))
        = Bot.attempts task rng (Some e) self1 /\
        same_setup self self1 /\
        Bot.results self1 = Bot.results self /\
        Bot.progress self1 = Bot.progress self).
      { destruct (attempt <? _).
        - rewrite sleep_ok by exact Hdelay.
          eexists; split; [reflexivity|repeat split].
        - eexists; split; [reflexivity|repeat split]. }
      destruct Hnext as (self1 & -> & Hsetup & Hres & Hprog).
      specialize (IH (Some e) self1); cbv zeta in IH.
      destruct IH as (Hsetup' & Hres' & Hid' & Hcount).
      { destruct Hsetup as (_ & _ & _ & ->); exact Hdelay. }
      split; [eapply same_setup_trans; eassumption|].
      split; [congruence|].
      split; [congruence|].
      destruct Hsetup as (Hid & _).
      unfold handled in *; rewrite Hprog, Hid in Hcount; exact Hcount.
Qed.

(** Processing one task accounts for one task and makes one result. *)
Lemma single_task_accounting task self :
  (0 <= Bot.retry_delay self)%Q ->
  let ret := Bot._process_single_task task self in
  same_setup self (snd ret) /\
  Bot.results (snd ret) = Bot.results self /\
  BotProgress.bot_id (Bot.progress (snd ret))
  = BotProgress.bot_id (Bot.progress self) /\
  handled (snd ret) = handled self + 1 /\
  exists r,
    fst ret = inr r /\
    TaskResult.task r = task /\
    TaskResult.bot_id r = Bot.bot_id self.
Proof.
  intros Hdelay; cbv zeta; unfold Bot._process_single_task.
  set (self0 := Bot.update_progress _ self).
  pose proof (@attempts_accounting task
                (Py.range (Bot.max_retries self0)) None self0 Hdelay)
    as Hloop.
  cbv zeta in Hloop.
  destruct (Bot.attempts task (Py.range (Bot.max_retries self0)) None self0)
    as [[r|last_error|err] self'].
  - cbn [fst snd] in *.
    destruct Hloop as (Hsetup & Hres & Hid & Htask & Hbot & Hcount).
    repeat split; try apply Hsetup; try assumption.
    exists r; repeat split; assumption.
  - cbn [fst snd] in *.
    destruct Hloop as (Hsetup & Hres & Hid & Hcount).
    destruct Hsetup as (Hbid & Hproc & Hmax & Hdelay').
    unfold same_setup, handled in *; cbn in *.
    repeat split; try assumption; try lia.
    eexists; repeat split; assumption.
  - cbn [fst snd] in Hloop; destruct Hloop as (_ & _ & _ & []).
Qed.

(** The loop of [process_tasks]: one result for each task, in the order
    of the tasks, as many tasks accounted for, and no exception. *)
Lemma process_each_accounting (tasks : list Task) :
  forall self,
    (0 <= Bot.retry_delay self)%Q ->
    let ret := Bot.process_each tasks self in
    fst ret = None /\
    same_setup self (snd ret) /\
    BotProgress.bot_id (Bot.progress (snd ret))
    = BotProgress.bot_id (Bot.progress self) /\
    handled (snd ret) = handled self + Py.len tasks /\
    exists new,
      Bot.results (snd ret) = Bot.results self ++ new /\
      map (@TaskResult.task Task Result) new = tasks /\
      Forall (fun r => TaskResult.bot_id r = Bot.bot_id self) new.
Proof.
  induction tasks as [|task tasks IH]; intros self Hdelay; cbv zeta.
  - cbn; split; [reflexivity|].
    split; [apply same_setup_refl|].
    split; [reflexivity|].
    split; [lia|].
    exists []; rewrite app_nil_r; repeat split; constructor.
  - cbn [Bot.process_each].
    pose proof (single_task_accounting task self Hdelay) as Hone.
    cbv zeta in Hone.
    destruct (Bot._process_single_task task self) as [outcome self1].
    cbn [fst snd] in Hone.
    destruct Hone as (Hsetup & Hres & Hid & Hcount & r & -> & Htask & Hbot).
    specialize (IH (Bot.append_result r self1)); cbv zeta in IH.
    destruct IH
      as (Hnone & Hsetup' & Hid' & Hcount' & new & Hnew & Hmap & Hall).
    { cbn; destruct Hsetup as (_ & _ & _ & ->); exact Hdelay. }
    split; [exact Hnone|].
    split; [eapply same_setup_trans; [exact Hsetup|exact Hsetup']|].
    split; [cbn in Hid'; congruence|].
    split.
    { rewrite Hcount'; unfold handled in *; cbn in *.
      unfold Py.len; cbn [List.length]; lia. }
    exists (r :: new); split; [|split].
    + rewrite Hnew; cbn; rewrite Hres, <- app_assoc; reflexivity.
    + cbn; congruence.
    + constructor; [exact Hbot|].
      destruct Hsetup as (Hbid & _).
      cbn in Hall; rewrite Hbid in Hall; exact Hall.
Qed.

(** [process_tasks] on a bot whose delay is not negative: it returns
    the results of the bot, ends in state COMPLETED, and has accounted
    for its whole slice. *)
Lemma process_tasks_accounting (tasks : list Task) self :
  (0 <= Bot.retry_delay self)%Q ->
  let ret := Bot.process_tasks tasks self in
  fst ret = inr (Bot.results (snd ret)) /\
  Bot.bot_id (snd ret) = Bot.bot_id self /\
  BotProgress.bot_id (Bot.progress (snd ret))
  = BotProgress.bot_id (Bot.progress self) /\
  BotProgress.state (Bot.progress (snd ret)) = COMPLETED /\
  BotProgress.current_task (Bot.progress (snd ret)) = None /\
  handled (snd ret) = handled self + Py.len tasks /\
  exists new,
    Bot.results (snd ret) = Bot.results self ++ new /\
    map (@TaskResult.task Task Result) new = tasks /\
    Forall (fun r => TaskResult.bot_id r = Bot.bot_id self) new.
Proof.
  intros Hdelay; cbv zeta; unfold Bot.process_tasks.
  set (self0 := Bot.update_progress (BotProgress.set_state ACTIVE) self).
  pose proof (@process_each_accounting tasks self0 Hdelay) as Hloop.
  cbv zeta in Hloop.
  destruct (Bot.process_each tasks self0) as [fault self1].
  cbn [fst snd] in Hloop.
  destruct Hloop
    as (-> & Hsetup & Hid & Hcount & new & Hnew & Hmap & Hall).
  destruct Hsetup as (Hbid & _); cbn [fst snd].
  split; [reflexivity|].
  split; [exact Hbid|].
  split; [cbn in *; exact Hid|].
  split; [reflexivity|].
  split; [reflexivity|].
  split; [unfold handled in *; cbn in *; exact Hcount|].
  exists new; repeat split; assumption.
Qed.

End Facts.

End BotFacts.

(** ** Futures and sums *)

Section Completion.
Context {A : Type} (finish : A -> nat).

Lemma insert_by_perm (x : A) (l : list A) :
  Permutation (insert_by finish x l) (x :: l).
Proof.
  induction l as [|y l IH]; cbn; [reflexivity|].
  destruct (finish y <=? finish x)%nat; [|reflexivity].
  rewrite IH; apply perm_swap.
Qed.

Lemma collect_perm (futures done : list A) :
  Permutation
    (fold_left (fun done f => insert_by finish f done) futures done)
    (done ++ futures).
Proof.
  revert done; induction futures as [|f futures IH]; intros done; cbn.
  - now rewrite app_nil_r.
  - rewrite IH, insert_by_perm; cbn.
    apply Permutation_middle.
Qed.

(** [as_completed] yields every future once. *)
Lemma as_completed_perm (futures : list A) :
  Permutation (as_completed finish futures) futures.
Proof. unfold as_completed; now rewrite collect_perm. Qed.

End Completion.

Lemma combine_map_map {A B C : Type} (f : A -> B) (g : A -> C) (l : list A) :
  combine (map f l) (map g l) = map (fun x => (f x, g x)) l.
Proof. induction l as [|x l IH]; cbn; [reflexivity|now rewrite IH]. Qed.

Lemma len_concat_map {A B : Type} (g : A -> list B) (l : list A) :
  Py.len (concat (map g l)) = Spec.sum_Z (map (fun x => Py.len (g x)) l).
Proof.
  induction l as [|x l IH]; cbn; [reflexivity|].
  rewrite len_app, IH; reflexivity.
Qed.

(** ** The success rate as a float *)

Module FloatFacts.

(** The number of binary digits of a mantissa is its size. *)
Lemma digits2_size (p : positive) : digits2_pos p = Pos.size p.
Proof. induction p; cbn; congruence. Qed.

(** A mantissa of [d] digits is at least [2 ^ (d - 1)]. *)
Lemma digits_bound (m : positive) : 2 ^ (Zdigits2 (Zpos m) - 1) <= Zpos m.
Proof.
  cbn [Zdigits2]; rewrite digits2_size.
  pose proof (Pos.size_le m) as H.
  apply Pos2Z.pos_le_pos in H.
  rewrite Pos2Z.inj_pow in H.
  replace (Zpos (Pos.size m)) with (1 + (Zpos (Pos.size m) - 1)) in H by lia.
  rewrite Z.pow_add_r in H by lia.
  change (2 ^ 1) with 2 in H; lia.
Qed.

(** A number that is at most [2 ^ B] has at most [B + 1] digits. *)
Lemma digits_le (m B : Z) : 0 <= m <= 2 ^ B -> 0 <= B -> Zdigits2 m <= B + 1.
Proof.
  intros Hm HB.
  destruct m as [|m|m]; [cbn; lia| |lia].
  pose proof (digits_bound m) as Hd.
  assert (Hpos : 0 < Zdigits2 (Zpos m)) by reflexivity.
  assert (Hle : 2 ^ (Zdigits2 (Zpos m) - 1) <= 2 ^ B) by lia.
  apply Z.pow_le_mono_r_iff in Hle; lia.
Qed.

(** A shift keeps a mantissa that is not negative so. *)
Lemma shifted_nonneg k a b :
  0 <= k -> 0 <= shr_m a -> Float.shifted k a b -> 0 <= shr_m b.
Proof.
  intros Hk Ha (Hb & _); rewrite Hb.
  apply Z.div_pos; [exact Ha|apply Z.pow_pos_nonneg; lia].
Qed.

(** Shifts add up. *)
Lemma shifted_trans j k a b c :
  0 <= j -> 0 <= k -> 0 <= shr_m a ->
  Float.shifted j a b -> Float.shifted k b c -> Float.shifted (j + k) a c.
Proof.
  intros Hj Hk Ha (Hb1 & Hb2) (Hc1 & Hc2); unfold Float.shifted.
  rewrite Z.pow_add_r by lia.
  assert (Hpj : 0 < 2 ^ j) by (apply Z.pow_pos_nonneg; lia).
  assert (Hpk : 0 < 2 ^ k) by (apply Z.pow_pos_nonneg; lia).
  split.
  - rewrite Hc1, Hb1, Z.div_div by lia; reflexivity.
  - rewrite Hc2, Hb2, Hb1, Z.rem_mul_r by lia.
    pose proof (Z.mod_pos_bound (shr_m a) (2 ^ j) Hpj).
    pose proof (Z.mod_pos_bound (shr_m a / 2 ^ j) (2 ^ k) Hpk).
    rewrite <- orb_assoc; f_equal.
    destruct (Z.eqb_spec (shr_m a mod 2 ^ j) 0),
      (Z.eqb_spec ((shr_m a / 2 ^ j) mod 2 ^ k) 0),
      (Z.eqb_spec (shr_m a mod 2 ^ j
                   + 2 ^ j * ((shr_m a / 2 ^ j) mod 2 ^ k)) 0);
      cbn; try reflexivity; nia.
Qed.

(** [shr_1] is one shift. *)
Lemma shr_1_shifted a : 0 <= shr_m a -> Float.shifted 1 a (shr_1 a).
Proof.
  destruct a as [m r s]; cbn [shr_m]; intros Hm; unfold Float.shifted.
  cbn [shr_m]; change (2 ^ 1) with 2.
  rewrite <- Z.div2_div, Zmod_odd.
  destruct m as [|[p|p|]|p]; try lia; unfold Float.inexact; cbn;
    destruct r, s; split; reflexivity.
Qed.

(** [iter_pos shr_1 n] is [n] shifts. *)
Lemma iter_pos_shifted (n : positive) :
  forall a, 0 <= shr_m a -> Float.shifted (Zpos n) a (iter_pos shr_1 n a).
Proof.
  induction n as [n IH|n IH|]; intros a Ha; cbn [iter_pos].
  - pose proof (@shr_1_shifted a Ha) as H1.
    pose proof (@shifted_nonneg 1 _ _ ltac:(lia) Ha H1) as Ha1.
    pose proof (IH _ Ha1) as H2.
    pose proof (@shifted_nonneg (Zpos n) _ _ ltac:(lia) Ha1 H2) as Ha2.
    pose proof (IH _ Ha2) as H3.
    replace (Zpos n~1) with (1 + Zpos n + Zpos n) by lia.
    pose proof (@shifted_trans 1 (Zpos n) _ _ _ ltac:(lia) ltac:(lia) Ha H1 H2)
      as H12.
    exact (@shifted_trans (1 + Zpos n) (Zpos n) _ _ _ ltac:(lia) ltac:(lia)
             Ha H12 H3).
  - pose proof (IH _ Ha) as H2.
    pose proof (@shifted_nonneg (Zpos n) _ _ ltac:(lia) Ha H2) as Ha2.
    pose proof (IH _ Ha2) as H3.
    replace (Zpos n~0) with (Zpos n + Zpos n) by lia.
    exact (@shifted_trans (Zpos n) (Zpos n) _ _ _ ltac:(lia) ltac:(lia)
             Ha H2 H3).
  - apply shr_1_shifted; exact Ha.
Qed.

(** The exponent of a binary64 number of magnitude [x]. *)
Lemma fexp_eq (x : Z) : fexp 53 1024 x = Z.max (x - 53) (-1074).
Proof. reflexivity. Qed.

(** [shr_fexp] shifts a mantissa to its exponent, if that is above
    the exponent given. *)
Lemma shr_fexp_spec (m e : Z) (l : location) :
  0 <= m ->
  let n := Z.max 0 (fexp 53 1024 (Zdigits2 m + e) - e) in
  snd (shr_fexp 53 1024 m e l) = e + n /\
  0 <= shr_m (fst (shr_fexp 53 1024 m e l)) /\
  shr_m (fst (shr_fexp 53 1024 m e l)) = m / 2 ^ n /\
  Float.inexact (fst (shr_fexp 53 1024 m e l))
  = negb (Float.is_exact l) || negb (m mod 2 ^ n =? 0).
Proof.
  intros Hm; cbv zeta; unfold shr_fexp, shr.
  assert (Hl : shr_m (shr_record_of_loc m l) = m /\
               Float.inexact (shr_record_of_loc m l) = negb (Float.is_exact l))
    by (destruct l as [|[| |]]; split; reflexivity).
  destruct Hl as (Hl1 & Hl2).
  destruct (fexp 53 1024 (Zdigits2 m + e) - e) as [|p|p] eqn:En; cbn [fst snd].
  - rewrite Hl1, Hl2; cbn; rewrite Z.div_1_r, Z.mod_1_r.
    repeat split; try lia. now rewrite orb_false_r.
  - replace (Z.max 0 (Zpos p)) with (Zpos p) by lia.
    pose proof (@iter_pos_shifted p (shr_record_of_loc m l)) as Hs.
    rewrite Hl1 in Hs; specialize (Hs Hm).
    pose proof (@shifted_nonneg (Zpos p) _ _ ltac:(lia) ltac:(rewrite Hl1; exact Hm) Hs).
    destruct Hs as (Hs1 & Hs2); rewrite Hl1 in Hs1; rewrite Hl1, Hl2 in Hs2.
    repeat split; try lia; assumption.
  - replace (Z.max 0 (Zneg p)) with 0 by lia.
    rewrite Hl1, Hl2; cbn; rewrite Z.div_1_r, Z.mod_1_r.
    repeat split; try lia. now rewrite orb_false_r.
Qed.

(** Rounding to the nearest float adds at most 1 to the mantissa, and
    nothing where no bit has been dropped. *)
Lemma round_spec (mrs : shr_record) :
  let r := round_nearest_even (shr_m mrs) (loc_of_shr_record mrs) in
  shr_m mrs <= r <= shr_m mrs + 1 /\ (Float.inexact mrs = false -> r = shr_m mrs).
Proof.
  destruct mrs as [m [|] [|]]; unfold Float.inexact; cbn;
    try destruct (Z.even m); split; try lia; try discriminate; auto.
Qed.

(** A mantissa under a bound [K * 2 ^ (- e)] stays under the bound
    of its new exponent when it is shifted, and reaches it only if it
    was at the bound and no bit 1 is dropped. *)
Lemma shift_le (m e n K : Z) :
  0 <= m -> e <= 0 -> 0 < K <= 2 ^ 52 ->
  m <= K * 2 ^ (- e) ->
  n = Z.max 0 (fexp 53 1024 (Zdigits2 m + e) - e) ->
  e + n <= 0 /\ 0 <= n /\
  m / 2 ^ n <= K * 2 ^ (- (e + n)) /\
  (m / 2 ^ n = K * 2 ^ (- (e + n)) -> m = K * 2 ^ (- e) /\ m mod 2 ^ n = 0).
Proof.
  intros Hm He HK Hle Hn.
  assert (Hpe : 0 < 2 ^ (- e)) by (apply Z.pow_pos_nonneg; lia).
  assert (Hd : Zdigits2 m <= 52 - e + 1).
  { apply digits_le; [|lia].
    replace (52 - e) with (52 + - e) by lia.
    rewrite Z.pow_add_r by lia; nia. }
  rewrite fexp_eq in Hn.
  assert (Hen : e + n <= 0) by lia.
  assert (Hn0 : 0 <= n) by lia.
  assert (Hpn : 0 < 2 ^ n) by (apply Z.pow_pos_nonneg; lia).
  assert (Hsplit : 2 ^ (- e) = 2 ^ n * 2 ^ (- (e + n))).
  { rewrite <- Z.pow_add_r by lia; f_equal; lia. }
  assert (HpE : 0 < 2 ^ (- (e + n))) by (apply Z.pow_pos_nonneg; lia).
  split; [exact Hen|]; split; [exact Hn0|]; split.
  - apply Z.div_le_upper_bound; [exact Hpn|].
    rewrite Hsplit in Hle; lia.
  - intros Heq.
    pose proof (Z.div_mod m (2 ^ n) ltac:(lia)) as Hdm.
    pose proof (Z.mod_pos_bound m (2 ^ n) Hpn) as Hr.
    rewrite Heq in Hdm; rewrite Hsplit in Hle |- *; lia.
Qed.

(** Rounding keeps a result that is at most [K] at most [K], for an
    integer [K] of at most 53 bits. *)
Lemma binary_round_aux_le (sx : bool) (mx ex : Z) (lx : location) (K : Z) :
  0 <= mx -> ex <= 0 -> 0 < K <= 2 ^ 52 ->
  mx <= K * 2 ^ (- ex) ->
  (Float.is_exact lx = false -> mx < K * 2 ^ (- ex)) ->
  binary_round_aux 53 1024 sx mx ex lx = S754_zero sx \/
  exists m e,
    binary_round_aux 53 1024 sx mx ex lx = S754_finite sx m e /\
    e <= 0 /\ Zpos m <= K * 2 ^ (- e).
Proof.
  intros Hmx Hex HK Hle Hstrict; unfold binary_round_aux.
  pose proof (@shr_fexp_spec mx ex lx Hmx) as H1; cbv zeta in H1.
  destruct (shr_fexp 53 1024 mx ex lx) as [mrs1 e1]; cbn [fst snd] in H1.
  destruct H1 as (He1 & Hm1pos & Hm1 & Hi1).
  destruct (@shift_le mx ex _ K Hmx Hex HK Hle eq_refl)
    as (He1le & Hn1 & Hm1le & Hm1eq).
  rewrite <- He1 in He1le.
  rewrite <- He1, <- Hm1 in Hm1le, Hm1eq.
  destruct (round_spec mrs1) as (Hr & Hrex).
  set (m2 := round_nearest_even (shr_m mrs1) (loc_of_shr_record mrs1)) in *.
  assert (Hm2le : m2 <= K * 2 ^ (- e1)).
  { destruct (Z.eq_dec (shr_m mrs1) (K * 2 ^ (- e1))) as [Heq|Hne]; [|lia].
    destruct (Hm1eq Heq) as (Hmxeq & Hmod).
    rewrite Hrex; [lia|].
    rewrite Hi1, Hmod; cbn.
    destruct (Float.is_exact lx); [reflexivity|].
    specialize (Hstrict eq_refl); lia. }
  assert (Hm2pos : 0 <= m2) by lia.
  pose proof (@shr_fexp_spec m2 e1 loc_Exact Hm2pos) as H2; cbv zeta in H2.
  destruct (shr_fexp 53 1024 m2 e1 loc_Exact) as [mrs2 e2]; cbn [fst snd] in H2.
  destruct H2 as (He2 & Hm3pos & Hm3 & _).
  destruct (@shift_le m2 e1 _ K Hm2pos He1le HK Hm2le eq_refl)
    as (He2le & _ & Hm3le & _).
  rewrite <- He2 in He2le.
  rewrite <- He2, <- Hm3 in Hm3le.
  destruct (shr_m mrs2) as [|m|m]; [now left| |lia].
  right; exists m, e2.
  destruct (Z.leb_spec e2 (1024 - 53)); [|lia].
  repeat split; [lia|exact Hm3le].
Qed.

(** A division is exact when its remainder is 0. *)
Lemma new_location_exact (t r : Z) : Float.is_exact (new_location t r) = (r =? 0).
Proof.
  unfold new_location, new_location_even, new_location_odd.
  destruct (Z.even t), (r =? 0); reflexivity.
Qed.

(** The integer quotient of the mantissas of a part and of the
    whole. *)
Lemma div_core_le (s t : positive) :
  Zpos s <= Zpos t ->
  let '(q, e, l) := SFdiv_core_binary 53 1024 (Zpos s) 0 (Zpos t) 0 in
  0 <= q /\ e <= 0 /\ q <= 1 * 2 ^ (- e) /\
  (Float.is_exact l = false -> q < 1 * 2 ^ (- e)).
Proof.
  intros Hst; unfold SFdiv_core_binary.
  remember (Z.min (fexp 53 1024 (Zdigits2 (Zpos s) + 0 - (Zdigits2 (Zpos t) + 0)))
                  (0 - 0)) as e eqn:Ee.
  assert (He : e <= 0) by lia.
  remember (match 0 - 0 - e with
            | Z0 => Zpos s
            | Zpos _ => Z.shiftl (Zpos s) (0 - 0 - e)
            | Zneg _ => 0
            end) as m' eqn:Em.
  assert (Hm' : m' = Zpos s * 2 ^ (- e)).
  { rewrite Em; replace (0 - 0 - e) with (- e) by lia.
    destruct (- e) as [|p|p] eqn:Ep; [cbn; lia| |lia].
    apply Z.shiftl_mul_pow2; lia. }
  assert (Hp : 0 < 2 ^ (- e)) by (apply Z.pow_pos_nonneg; lia).
  pose proof (Z.div_eucl_eq m' (Zpos t) ltac:(lia)) as Heq.
  pose proof (Z.mod_pos_bound m' (Zpos t) ltac:(lia)) as Hr.
  unfold Z.modulo in Hr.
  destruct (Z.div_eucl m' (Zpos t)) as [q r].
  rewrite new_location_exact.
  split; [nia|]; split; [exact He|]; split; [nia|].
  intros Hr0; apply Z.eqb_neq in Hr0; nia.
Qed.

(** The quotient of a part by the whole is a float that is at most 1. *)
Lemma truediv_le (s t : Z) :
  0 <= s <= t -> 0 < t ->
  Float.truediv s t = S754_zero false \/
  exists m e,
    Float.truediv s t = S754_finite false m e /\
    e <= 0 /\ Zpos m <= 1 * 2 ^ (- e).
Proof.
  intros Hs Ht; unfold Float.truediv.
  destruct t as [|t|t]; try lia.
  destruct s as [|s|s]; try lia; [now left|].
  cbn [Float.of_int SFdiv xorb]; unfold Float.prec, Float.emax.
  pose proof (@div_core_le s t ltac:(lia)) as Hcore.
  destruct (SFdiv_core_binary 53 1024 (Zpos s) 0 (Zpos t) 0) as [[q e] l].
  destruct Hcore as (Hq & He & Hle & Hstrict).
  apply binary_round_aux_le; try assumption; lia.
Qed.

(** The product by 100 of a float that is at most 1 is a float that is
    at most 100. *)
Lemma mul_int_le (x : spec_float) :
  (x = S754_zero false \/
   exists m e, x = S754_finite false m e /\ e <= 0 /\ Zpos m <= 1 * 2 ^ (- e)) ->
  Float.mul_int x 100 = S754_zero false \/
  exists m e,
    Float.mul_int x 100 = S754_finite false m e /\
    e <= 0 /\ Zpos m <= 100 * 2 ^ (- e).
Proof.
  intros [->|(m & e & -> & He & Hm)]; [now left|].
  unfold Float.mul_int; cbn [Float.of_int SFmul xorb].
  unfold Float.prec, Float.emax.
  rewrite Z.add_0_r, Pos2Z.inj_mul.
  apply binary_round_aux_le; [lia|exact He|cbn; lia|lia|discriminate].
Qed.

(** The value of a float that is at most [K]. *)
Lemma value_le (x : spec_float) (K : Z) :
  0 < K ->
  (x = S754_zero false \/
   exists m e, x = S754_finite false m e /\ e <= 0 /\ Zpos m <= K * 2 ^ (- e)) ->
  exists q, Float.value x = Some q /\ (0 <= q <= inject_Z K)%Q.
Proof.
  intros HK [->|(m & e & -> & He & Hm)].
  - exists 0%Q; split; [reflexivity|].
    split; [apply Qle_refl|unfold Qle; cbn; lia].
  - destruct e as [|p|p]; try lia; cbn [Float.value].
    + eexists; split; [reflexivity|].
      cbn in Hm; unfold Qle; cbn; lia.
    + eexists; split; [reflexivity|].
      cbn [Z.opp] in Hm; rewrite <- Pos2Z.inj_pow in Hm.
      unfold Qle; cbn; lia.
Qed.

(** The BotManager.rate is the integer 0 or a percentage. *)
Lemma rate_bounds (successful total : Z) :
  0 <= successful <= total ->
  match BotManager.rate successful total with
  | inl n => n = 0 /\ total = 0
  | inr x =>
      0 < total /\
      exists q, Float.value x = Some q /\ (0 <= q <= 100)%Q
  end.
Proof.
  intros Hs; unfold BotManager.rate.
  destruct (Z.eqb_spec total 0) as [->|Hne]; [split; reflexivity|].
  split; [lia|].
  apply (@value_le _ 100); [lia|].
  apply mul_int_le, truediv_le; lia.
Qed.

(** No success gives the float 0.0. *)
Lemma rate_none (total : Z) :
  0 < total -> BotManager.rate 0 total = inr (S754_zero false).
Proof.
  intros Ht; unfold BotManager.rate.
  destruct (Z.eqb_spec total 0); [lia|].
  destruct total; try lia; reflexivity.
Qed.

(** The quotient of a number by itself is the float 1.0. *)
Lemma truediv_same (n : Z) :
  0 < n -> Float.truediv n n = S754_finite false 4503599627370496 (-52).
Proof.
  intros Hn; destruct n as [|n|n]; try lia.
  unfold Float.truediv; cbn [Float.of_int SFdiv xorb].
  unfold SFdiv_core_binary, Float.prec, Float.emax.
  replace (Zdigits2 (Zpos n) + 0 - (Zdigits2 (Zpos n) + 0)) with 0 by lia.
  change (Z.min (fexp 53 1024 0) (0 - 0)) with (-53).
  change (0 - 0 - -53) with 53.
  cbv iota.
  rewrite Z.shiftl_mul_pow2 by lia.
  pose proof (Z.div_eucl_eq (Zpos n * 2 ^ 53) (Zpos n) ltac:(lia)) as Heq.
  pose proof (Z.mod_pos_bound (Zpos n * 2 ^ 53) (Zpos n) ltac:(lia)) as Hr.
  unfold Z.modulo in Hr.
  destruct (Z.div_eucl (Zpos n * 2 ^ 53) (Zpos n)) as [q r].
  assert (Hq : q = 2 ^ 53 /\ r = 0).
  { generalize dependent (2 ^ 53); intros P Heq.
    destruct (Z.lt_trichotomy q P) as [Hlt|[Heq'|Hgt]]; [nia|subst q; lia|nia]. }
  destruct Hq as (-> & ->).
  unfold new_location; destruct (Z.even (Zpos n)); reflexivity.
Qed.

(** Successes only give the float 100.0. *)
Lemma rate_all (total : Z) :
  0 < total ->
  BotManager.rate total total = inr (S754_finite false 7036874417766400 (-46)).
Proof.
  intros Ht; unfold BotManager.rate.
  destruct (Z.eqb_spec total 0); [lia|].
  rewrite truediv_same by exact Ht; reflexivity.
Qed.

End FloatFacts.

(** ** The manager *)

Module ManagerFacts.

Import Spec BotFacts.

Section Facts.
Context {Task Result : Type} `{Py.Object Task}.
Implicit Types (self : BotManager.t Task Result) (tasks : list Task).
Implicit Types (run : BotManager.Run Task Result).

Lemma workers_nonempty tasks self :
  tasks <> [] -> workers tasks self = BotManager.bots self.
Proof. destruct tasks; [congruence|reflexivity]. Qed.

Lemma collect_results
    (done : list (Bot.t Task Result
                  * (PyError + list (TaskResult.t Task Result)))) :
  forall self,
    fold_left (fun self f => BotManager.collect f self) done self
    = BotManager.set_all_results
        (BotManager.all_results self ++ flat_map collected done) self.
Proof.
  induction done as [|f done IH]; intros self; cbn [fold_left flat_map].
  - destruct self; unfold BotManager.set_all_results; cbn.
    now rewrite app_nil_r.
  - rewrite IH; unfold BotManager.collect, collected.
    destruct (snd f) as [err|results]; [reflexivity|].
    unfold BotManager.set_all_results; cbn.
    now rewrite app_assoc.
Qed.

(** [execute] on a task list that is not empty: the bots of the manager
    are those of the threads, and what the futures hold is added to
    [all_results] in some order of the futures. *)
Lemma execute_nonempty run tasks self :
  0 < BotManager.num_bots self -> tasks <> [] ->
  exists done,
    Permutation done (BotManager.future_to_bot (threads run tasks self)) /\
    let self' :=
      BotManager.mk (BotManager.num_bots self) (BotManager.max_retries self)
                    (BotManager.retry_delay self)
                    (map snd (threads run tasks self))
                    (BotManager.all_results self ++ flat_map collected done)
    in
    BotManager.execute run tasks self
    = (BotManager._compile_results (BotManager.all_results self') self',
       self').
Proof.
  intros Hw Hne.
  exists (as_completed
            (fun f => BotManager.finished run (Bot.bot_id (fst f)))
            (BotManager.future_to_bot (threads run tasks self))).
  split; [apply as_completed_perm|].
  unfold BotManager.execute.
  destruct tasks as [|task tasks']; [congruence|].
  set (tasks := task :: tasks') in *.
  cbv zeta; cbn [BotManager.bots BotManager.set_bots].
  rewrite DivideTasks.divide_tasks_chunks by assumption.
  rewrite combine_map_map.
  rewrite map_map; fold (threads run tasks self).
  rewrite collect_results; reflexivity.
Qed.

(** The thread of a bot that has just been made, when the delay is not
    negative. *)
Lemma submit_fresh run self (i : Z) (batch : list Task) :
  (0 <= BotManager.retry_delay self)%Q ->
  let ret := BotManager.submit (fresh run self i, batch) in
  Bot.bot_id (snd ret) = i /\
  BotProgress.bot_id (Bot.progress (snd ret)) = i /\
  handled (snd ret) = Py.len batch /\
  match batch with
  | [] => ret = (None, fresh run self i)
  | _ :: _ =>
      fst ret = Some (inr (Bot.results (snd ret))) /\
      map (@TaskResult.task Task Result) (Bot.results (snd ret)) = batch /\
      BotProgress.state (Bot.progress (snd ret)) = COMPLETED
  end.
Proof.
  intros Hdelay; cbv zeta; unfold BotManager.submit.
  destruct batch as [|task batch]; [repeat split|].
  set (tasks := task :: batch).
  pose proof (@process_tasks_accounting Task Result tasks (fresh run self i)
                Hdelay) as Hp.
  cbv zeta in Hp.
  destruct (Bot.process_tasks tasks (fresh run self i)) as [outcome bot].
  cbn [fst snd] in *.
  destruct Hp as (-> & Hbid & Hid & Hstate & _ & Hcount & new & Hnew
                  & Hmap & _).
  cbn in Hnew; subst new.
  repeat split; try assumption; congruence.
Qed.

(** The futures of the threads hold one result for each task of the
    slices, slice after slice. *)
Lemma tasks_of_futures run self (g : Z -> list Task) (indices : list Z) :
  (0 <= BotManager.retry_delay self)%Q ->
  map (@TaskResult.task Task Result)
      (flat_map collected
         (BotManager.future_to_bot
            (map (fun i => BotManager.submit (fresh run self i, g i))
                 indices)))
  = concat (map g indices).
Proof.
  intros Hdelay; induction indices as [|i indices IH]; [reflexivity|].
  cbn [map concat BotManager.future_to_bot flat_map].
  rewrite flat_map_app, map_app.
  fold (BotManager.future_to_bot
          (map (fun i => BotManager.submit (fresh run self i, g i)) indices)).
  rewrite IH; f_equal.
  pose proof (@submit_fresh run self i (g i) Hdelay) as Hs; cbv zeta in Hs.
  destruct Hs as (_ & _ & _ & Hs).
  destruct (g i) as [|task batch].
  - rewrite Hs; reflexivity.
  - destruct Hs as (-> & Hmap & _); cbn; rewrite app_nil_r; exact Hmap.
Qed.

Lemma handled_of_threads run self (g : Z -> list Task) (indices : list Z) :
  (0 <= BotManager.retry_delay self)%Q ->
  sum_Z (map handled
             (map snd
                  (map (fun i => BotManager.submit (fresh run self i, g i))
                       indices)))
  = Py.len (concat (map g indices)).
Proof.
  intros Hdelay; rewrite len_concat_map, !map_map; f_equal.
  apply map_ext; intros i.
  apply (@submit_fresh run self i (g i) Hdelay).
Qed.

Lemma chunks_concat tasks self :
  0 < BotManager.num_bots self ->
  concat (map (chunk tasks (BotManager.num_bots self))
              (Py.range (BotManager.num_bots self)))
  = tasks.
Proof.
  intros Hw; rewrite <- (DivideTasks.divide_tasks_chunks tasks self Hw).
  apply DivideTasks.concat_divide_tasks; assumption.
Qed.

Lemma Forall2_map_same {A B C : Type} (R : B -> C -> Prop)
    (f : A -> B) (g : A -> C) (l : list A) :
  (forall x, In x l -> R (f x) (g x)) -> Forall2 R (map f l) (map g l).
Proof.
  induction l as [|x l IH]; intros HR; cbn; constructor.
  - apply HR; now left.
  - apply IH; intros y Hy; apply HR; now right.
Qed.

(** What a call of [execute] on a task list that is not empty leaves and
    reports. *)
Lemma execute_results run tasks self :
  0 < BotManager.num_bots self ->
  (0 <= BotManager.retry_delay self)%Q ->
  tasks <> [] ->
  let ret := BotManager.execute run tasks self in
  BotManager.num_bots (snd ret) = BotManager.num_bots self /\
  BotManager.retry_delay (snd ret) = BotManager.retry_delay self /\
  BotManager.bots (snd ret) = map snd (threads run tasks self) /\
  BotManager.Report.results (fst ret) = BotManager.all_results (snd ret) /\
  BotManager.Report.total_tasks (fst ret)
  = Py.len (BotManager.all_results (snd ret)) /\
  BotManager.Report.bot_progress (fst ret)
  = map (fun bot => BotProgress.to_dict (Bot.get_progress bot))
        (BotManager.bots (snd ret)) /\
  exists new,
    BotManager.all_results (snd ret) = BotManager.all_results self ++ new /\
    Permutation (map (@TaskResult.task Task Result) new) tasks.
Proof.
  intros Hw Hdelay Hne; cbv zeta.
  destruct (@execute_nonempty run tasks self Hw Hne) as (done & Hperm & Hexec).
  cbv zeta in Hexec; rewrite Hexec; cbn [fst snd].
  repeat (split; [reflexivity|]).
  exists (flat_map collected done); split; [reflexivity|].
  rewrite (Permutation_flat_map _ Hperm).
  unfold threads; rewrite tasks_of_futures, chunks_concat by assumption.
  reflexivity.
Qed.

(** C4. In a call of [execute] on a manager with num_bots > 0 and
    retry_delay >= 0, the results added to [all_results] are one
    TaskResult for each submitted task; every bot made by the call has
    tasks_completed + tasks_failed equal to the size of the slice
    assigned to it; and these sums add up, over the bots made by the
    call, to the number of submitted tasks. *)
Theorem completion_accounting run tasks self :
  0 < BotManager.num_bots self ->
  (0 <= BotManager.retry_delay self)%Q ->
  let batches := BotManager._divide_tasks tasks self in
  let ret := BotManager.execute run tasks self in
  let made := workers tasks (snd ret) in
  (exists new,
     BotManager.all_results (snd ret) = BotManager.all_results self ++ new /\
     Permutation (map (@TaskResult.task Task Result) new) tasks) /\
  (tasks <> [] -> Py.len made = BotManager.num_bots self) /\
  (forall i bot,
     nth_error made i = Some bot ->
     exists batch,
       nth_error batches i = Some batch /\
       BotProgress.tasks_completed (Bot.progress bot)
       + BotProgress.tasks_failed (Bot.progress bot)
       = Py.len batch) /\
  sum_Z (map (fun bot => BotProgress.tasks_completed (Bot.progress bot)
                         + BotProgress.tasks_failed (Bot.progress bot))
             made)
  = Py.len tasks.
Proof.
  intros Hw Hdelay; cbv zeta.
  destruct tasks as [|task tasks'].
  - cbn; split; [exists []; now rewrite app_nil_r|].
    split; [congruence|].
    split; [intros [|i] bot Hnth; discriminate|reflexivity].
  - set (tasks := task :: tasks').
    assert (Hne : tasks <> []) by discriminate.
    destruct (@execute_results run tasks self Hw Hdelay Hne)
      as (_ & _ & Hbots & _ & _ & _ & Hnew).
    rewrite (workers_nonempty _ Hne); cbv zeta in *.
    rewrite Hbots.
    split; [exact Hnew|].
    split; [|split].
    + intros _; unfold threads, Py.len.
      rewrite !length_map; apply len_range; lia.
    + intros i bot Hnth.
      rewrite DivideTasks.divide_tasks_chunks by assumption.
      unfold threads in Hnth.
      rewrite map_map, nth_error_map in Hnth; rewrite nth_error_map.
      destruct (nth_error (Py.range (BotManager.num_bots self)) i) as [z|];
        [|discriminate].
      injection Hnth as <-.
      eexists; split; [reflexivity|].
      apply (@submit_fresh run self z _ Hdelay).
    + unfold threads.
      change (fun bot : Bot.t Task Result =>
                BotProgress.tasks_completed (Bot.progress bot)
                + BotProgress.tasks_failed (Bot.progress bot))
        with (@handled Task Result).
      rewrite handled_of_threads, chunks_concat by assumption.
      reflexivity.
Qed.

Lemma len_filter_le {A : Type} (f : A -> bool) (l : list A) :
  Py.len (filter f l) <= Py.len l.
Proof.
  unfold Py.len; induction l as [|x l IH]; cbn; [lia|].
  destruct (f x); cbn [List.length]; lia.
Qed.


(** Eleven successes in twenty results: the quotient 0.55 is rounded
    to a float, and so is its product by 100, which is the float next
    above 55. *)
Lemma rate_of_eleven_in_twenty :
  BotManager.rate 11 20 = inr (S754_finite false 7740561859543041 (-47)) /\
  Float.value (S754_finite false 7740561859543041 (-47))
  = Some (7740561859543041 # 140737488355328) /\
  (55 < 7740561859543041 # 140737488355328)%Q.
Proof. split; [|split]; reflexivity. Qed.

(** C5. [execute([])] returns a report with total_tasks = 0,
    successful = 0, failed = 0 and success_rate = 0 and leaves the
    manager as it is, its bots included: no bot is made and no thread
    is submitted.  In every report, successful counts the results that
    have succeeded and failed the others, and success_rate is the
    integer 0 when there is no result and otherwise the float
    successful / total * 100: the quotient of the two integers, rounded
    to a float, times 100, rounded again.  That float lies between 0
    and 100; it is 0.0 when no result has succeeded and 100.0 when none
    has failed. *)
Theorem execute_no_tasks run self :
  let ret := BotManager.execute run [] self in
  (BotManager.Report.total_tasks (fst ret) = 0 /\
   BotManager.Report.successful (fst ret) = 0 /\
   BotManager.Report.failed (fst ret) = 0 /\
   BotManager.Report.success_rate (fst ret) = inl 0 /\
   BotManager.Report.results (fst ret) = [] /\
   BotManager.Report.bot_progress (fst ret) = BotManager.get_progress self /\
   snd ret = self) /\
  forall results self',
    let report := BotManager._compile_results results self' in
    BotManager.Report.total_tasks report = Py.len results /\
    BotManager.Report.successful report
    = Py.len (filter (fun r => TaskResult.success r) results) /\
    BotManager.Report.successful report + BotManager.Report.failed report
    = BotManager.Report.total_tasks report /\
    BotManager.Report.success_rate report
    = (if BotManager.Report.total_tasks report =? 0 then inl 0
       else inr (SFmul 53 1024
                   (SFdiv 53 1024
                      (Float.of_int (BotManager.Report.successful report))
                      (Float.of_int (BotManager.Report.total_tasks report)))
                   (S754_finite false 100 0))) /\
    match BotManager.Report.success_rate report with
    | inl n => n = 0 /\ results = []
    | inr x =>
        results <> [] /\
        (exists q, Float.value x = Some q /\ (0 <= q <= 100)%Q) /\
        (BotManager.Report.successful report = 0 -> x = S754_zero false) /\
        (BotManager.Report.failed report = 0 ->
         x = S754_finite false 7036874417766400 (-46))
    end.
Proof.
  cbv zeta; split; [repeat split|].
  intros results self'.
  cbn [BotManager._compile_results BotManager.Report.total_tasks
       BotManager.Report.successful BotManager.Report.failed
       BotManager.Report.success_rate].
  assert (Hsum : Py.len (filter (fun r => TaskResult.success r) results)
                 + Py.len (filter (fun r => negb (TaskResult.success r))
                                  results)
                 = Py.len results).
  { unfold Py.len; induction results as [|r results IH]; cbn; [reflexivity|].
    destruct (TaskResult.success r); cbn [negb List.length]; lia. }
  pose proof (len_nonneg (filter (fun r => TaskResult.success r) results))
    as Hs.
  pose proof (len_nonneg (filter (fun r => negb (TaskResult.success r))
                                 results)) as Hf.
  split; [reflexivity|].
  split; [reflexivity|].
  split; [exact Hsum|].
  split; [reflexivity|].
  pose proof (@FloatFacts.rate_bounds
                (Py.len (filter (fun r => TaskResult.success r) results))
                (Py.len results) ltac:(lia)) as Hrate.
  destruct (BotManager.rate
              (Py.len (filter (fun r => TaskResult.success r) results))
              (Py.len results)) as [n|x] eqn:Erate.
  - destruct Hrate as (-> & Hlen); split; [reflexivity|].
    destruct results; [reflexivity|discriminate].
  - destruct Hrate as (Hpos & Hq).
    split; [intros ->; discriminate|].
    split; [exact Hq|].
    split.
    + intros Hnone; rewrite Hnone, FloatFacts.rate_none in Erate by exact Hpos.
      now injection Erate as <-.
    + intros Hall.
      replace (Py.len (filter (fun r => TaskResult.success r) results))
        with (Py.len results) in Erate by lia.
      rewrite FloatFacts.rate_all in Erate by exact Hpos.
      now injection Erate as <-.
Qed.

(** C6, amended.  After a call of [execute] on a task list that is not
    empty, on a manager with num_bots > 0 and retry_delay >= 0,
    bot_progress holds one snapshot for each of the num_bots bots
    that the call has made, in the order of their bot_id 0, 1, ...: a
    bot with an empty slice, which is not submitted, is reported in
    state idle with no task completed or failed, and a bot with a slice
    that is not empty is reported in state completed, with its slice
    accounted for. *)
Theorem bot_progress_all_bots run tasks self :
  0 < BotManager.num_bots self ->
  (0 <= BotManager.retry_delay self)%Q ->
  tasks <> [] ->
  let report := fst (BotManager.execute run tasks self) in
  let batches := BotManager._divide_tasks tasks self in
  map BotProgress.Dict.bot_id (BotManager.Report.bot_progress report)
  = Py.range (BotManager.num_bots self) /\
  Forall2
    (fun d batch =>
       match batch with
       | [] =>
           BotProgress.Dict.state d = "idle" /\
           BotProgress.Dict.tasks_completed d = 0 /\
           BotProgress.Dict.tasks_failed d = 0
       | _ :: _ =>
           BotProgress.Dict.state d = "completed" /\
           BotProgress.Dict.tasks_completed d + BotProgress.Dict.tasks_failed d
           = Py.len batch
       end)
    (BotManager.Report.bot_progress report) batches.
Proof.
  intros Hw Hdelay Hne; cbv zeta.
  destruct (@execute_results run tasks self Hw Hdelay Hne)
    as (_ & _ & Hbots & _ & _ & Hprog & _).
  cbv zeta in *; rewrite Hprog, Hbots.
  rewrite DivideTasks.divide_tasks_chunks by assumption.
  unfold threads; rewrite !map_map.
  split.
  - rewrite <- (map_id (Py.range _)) at 2.
    apply map_ext; intros i; cbn.
    apply (@submit_fresh run self i _ Hdelay).
  - apply Forall2_map_same; intros i _.
    pose proof (@submit_fresh run self i
                  (chunk tasks (BotManager.num_bots self) i) Hdelay)
      as Hs.
    cbv zeta in Hs; destruct Hs as (_ & _ & Hcount & Hs).
    destruct (chunk tasks (BotManager.num_bots self) i)
      as [|task batch].
    + rewrite Hs; repeat split.
    + destruct Hs as (_ & _ & Hstate).
      unfold BotProgress.to_dict, Bot.get_progress.
      cbn [BotProgress.Dict.state BotProgress.Dict.tasks_completed
           BotProgress.Dict.tasks_failed BotProgress.state
           BotProgress.tasks_completed BotProgress.tasks_failed].
      rewrite Hstate; split; [reflexivity|exact Hcount].
Qed.

(** C9. On a manager that has just been constructed, with
    retry_delay >= 0, [execute(T1)] followed by [execute(T2)], both task
    lists not empty: the second report has
    total_tasks = len(T1) + len(T2), and its results start with the
    results of the first report, so they hold every TaskResult of the
    first run. *)
Theorem results_accumulate run1 run2 (tasks1 tasks2 : list Task)
    (num_bots max_retries : Z) (retry_delay : Q) self :
  BotManager.__init__ num_bots max_retries retry_delay = inr self ->
  (0 <= retry_delay)%Q ->
  tasks1 <> [] -> tasks2 <> [] ->
  let ret1 := BotManager.execute run1 tasks1 self in
  let ret2 := BotManager.execute run2 tasks2 (snd ret1) in
  BotManager.Report.total_tasks (fst ret1) = Py.len tasks1 /\
  BotManager.Report.total_tasks (fst ret2) = Py.len tasks1 + Py.len tasks2 /\
  (exists new,
     BotManager.Report.results (fst ret2)
     = BotManager.Report.results (fst ret1) ++ new) /\
  forall r, In r (BotManager.Report.results (fst ret1)) ->
            In r (BotManager.Report.results (fst ret2)).
Proof.
  intros Hinit Hdelay Hne1 Hne2; cbv zeta.
  unfold BotManager.__init__ in Hinit.
  destruct (Z.leb_spec num_bots 0) as [|Hw]; [discriminate|].
  injection Hinit as <-.
  set (self := BotManager.mk num_bots max_retries retry_delay [] []).
  destruct (@execute_results run1 tasks1 self Hw Hdelay Hne1)
    as (Hw1 & Hd1 & _ & Hres1 & Htot1 & _ & new1 & Hall1 & Hperm1).
  cbv zeta in *.
  assert (Hw' : 0 < BotManager.num_bots
                      (snd (BotManager.execute run1 tasks1 self)))
    by (rewrite Hw1; exact Hw).
  assert (Hdelay' : (0 <= BotManager.retry_delay
                             (snd (BotManager.execute run1 tasks1 self)))%Q)
    by (rewrite Hd1; exact Hdelay).
  destruct (@execute_results run2 tasks2 _ Hw' Hdelay' Hne2)
    as (_ & _ & _ & Hres2 & Htot2 & _ & new2 & Hall2 & Hperm2).
  cbv zeta in *.
  assert (Hlen : forall (new : list (TaskResult.t Task Result)) tasks,
             Permutation (map (@TaskResult.task Task Result) new) tasks ->
             Py.len new = Py.len tasks).
  { intros new tasks Hp; apply Permutation_length in Hp.
    rewrite length_map in Hp; unfold Py.len; lia. }
  rewrite Htot1, Htot2, Hres1, Hres2, Hall2, Hall1; cbn [BotManager.all_results self app].
  rewrite len_app, (Hlen _ _ Hperm1), (Hlen _ _ Hperm2).
  split; [reflexivity|].
  split; [reflexivity|].
  split; [exists new2; reflexivity|].
  intros r Hin; apply in_or_app; now left.
Qed.

End Facts.

End ManagerFacts.

(** ** The conductor *)

Module ConductorFacts.

Import Spec.

(** [ceil_div l b] is the least number of chunks that hold [l] items. *)
Lemma ceil_div_bounds (l b : Z) :
  0 < b -> (ceil_div l b - 1) * b < l <= ceil_div l b * b.
Proof.
  intros Hb; unfold ceil_div.
  pose proof (Z.div_mod (l + b - 1) b ltac:(lia)).
  pose proof (Z.mod_pos_bound (l + b - 1) b Hb).
  nia.
Qed.

Lemma ceil_div_unique (l b n : Z) :
  0 < b -> (n - 1) * b < l <= n * b -> ceil_div l b = n.
Proof.
  intros Hb Hn; pose proof (ceil_div_bounds l Hb); nia.
Qed.

Lemma ceil_div_step (l b : Z) :
  0 < b -> ceil_div l b = ceil_div (l - b) b + 1.
Proof.
  intros Hb; unfold ceil_div.
  rewrite <- Z.div_add by lia; f_equal; lia.
Qed.

(** The elements of a range with a positive step. *)
Lemma range_from_steps (step stop : Z) (fuel : nat) :
  0 < step ->
  forall i,
    (Z.to_nat (stop - i) <= fuel)%nat ->
    Py.range_from fuel i stop step
    = map (fun k => i + Z.of_nat k * step)
          (seq 0 (Z.to_nat (ceil_div (stop - i) step))).
Proof.
  intros Hstep; induction fuel as [|fuel IH]; intros i Hfuel; cbn.
  - pose proof (ceil_div_bounds (stop - i) Hstep).
    replace (Z.to_nat (ceil_div (stop - i) step)) with O by nia.
    reflexivity.
  - pose proof (ceil_div_bounds (stop - i) Hstep).
    destruct (Z.ltb_spec i stop).
    + rewrite (ceil_div_step (stop - i) Hstep).
      pose proof (ceil_div_bounds (stop - i - step) Hstep).
      replace (Z.to_nat (ceil_div (stop - i - step) step + 1))
        with (S (Z.to_nat (ceil_div (stop - i - step) step))) by nia.
      cbn [seq map].
      rewrite <- seq_shift, map_map, IH by lia.
      f_equal; [lia|].
      replace (stop - (i + step)) with (stop - i - step) by lia.
      apply map_ext; intros k; lia.
    + replace (Z.to_nat (ceil_div (stop - i) step)) with O by nia.
      reflexivity.
Qed.

Lemma fold_left_append {A B : Type} (f : A -> B) (l : list A) :
  forall acc, fold_left (fun acc x => acc ++ [f x]) l acc = acc ++ map f l.
Proof.
  induction l as [|x l IH]; intros acc; cbn.
  - now rewrite app_nil_r.
  - now rewrite IH, <- app_assoc.
Qed.

Section Chunks.
Implicit Types (pri_list : list string) (self : BotConductor.t).

(** [divide_pris] gives the chunks [0 .. ceil(L/B) - 1]. *)
Lemma divide_pris_batches pri_list self :
  0 < BotConductor.batch_size self ->
  BotConductor.divide_pris pri_list self
  = inr (map (batch_at pri_list (BotConductor.batch_size self))
             (Py.range (ceil_div (Py.len pri_list)
                                 (BotConductor.batch_size self)))).
Proof.
  intros Hb; unfold BotConductor.divide_pris.
  destruct pri_list as [|pri pri_list'].
  - pose proof (ceil_div_bounds (Py.len (@nil string)) Hb) as Hc.
    change (Py.len (@nil string)) with 0 in *.
    replace (ceil_div 0 (BotConductor.batch_size self)) with 0 by nia.
    reflexivity.
  - set (pri_list := pri :: pri_list').
    unfold Py.range3.
    destruct (Z.eqb_spec (BotConductor.batch_size self) 0); [lia|].
    destruct (Z.ltb_spec (BotConductor.batch_size self) 0); [lia|].
    rewrite range_from_steps by lia.
    rewrite fold_left_append; cbn [app].
    rewrite Z.sub_0_r; unfold Py.range; rewrite !map_map.
    reflexivity.
Qed.

(** The chunks before the last one are full and inside the list. *)
Lemma concat_full_batches pri_list (b : Z) (k : nat) :
  0 < b -> Z.of_nat k * b <= Py.len pri_list ->
  concat (map (batch_at pri_list b) (Py.range (Z.of_nat k)))
  = firstn (Z.to_nat (Z.of_nat k * b)) pri_list.
Proof.
  intros Hb; induction k as [|k IH]; intros Hk; [reflexivity|].
  rewrite range_S, map_app, concat_app, IH by nia.
  cbn [map concat]; rewrite app_nil_r; unfold batch_at.
  rewrite firstn_slice_join by nia.
  f_equal; lia.
Qed.

(** C7. For a batch size B > 0 and a list of L items, [divide_pris]
    returns chunks whose concatenation is the list, chunk k being the
    slice from k * B to k * B + B; there are ceil(L / B) of them, the
    least number n with L <= n * B; every chunk has between 1 and B
    items and every chunk but the last has exactly B; and the empty
    list gives the empty list of chunks. *)
Theorem divide_pris_chunks pri_list self :
  0 < BotConductor.batch_size self ->
  let L := Py.len pri_list in
  let B := BotConductor.batch_size self in
  exists batches,
    BotConductor.divide_pris pri_list self = inr batches /\
    concat batches = pri_list /\
    Py.len batches = (L + B - 1) / B /\
    (Py.len batches - 1) * B < L <= Py.len batches * B /\
    (forall k batch,
       nth_error batches k = Some batch ->
       batch = Py.slice pri_list (Z.of_nat k * B) (Z.of_nat k * B + B) /\
       1 <= Py.len batch <= B /\
       (Z.of_nat k + 1 < Py.len batches -> Py.len batch = B)) /\
    (pri_list = [] -> batches = []).
Proof.
  intros Hb; cbv zeta.
  set (B := BotConductor.batch_size self) in *.
  set (L := Py.len pri_list).
  pose proof (len_nonneg pri_list) as HL; fold L in HL.
  pose proof (ceil_div_bounds L Hb) as Hc.
  assert (Hn : 0 <= ceil_div L B) by nia.
  assert (Hlen : Py.len (map (batch_at pri_list B) (Py.range (ceil_div L B)))
                 = ceil_div L B).
  { unfold Py.len; rewrite length_map; apply len_range; exact Hn. }
  eexists; split; [apply divide_pris_batches; exact Hb|].
  fold B L; rewrite Hlen.
  split; [|split; [reflexivity|split; [exact Hc|split]]].
  - destruct (Z.eq_dec (ceil_div L B) 0) as [Hz|Hz].
    + rewrite Hz in *; cbn.
      destruct pri_list; [reflexivity|].
      unfold L, Py.len in Hc; cbn [List.length] in Hc; lia.
    + assert (Hk : Z.of_nat (Z.to_nat (ceil_div L B - 1)) = ceil_div L B - 1)
        by lia.
      replace (ceil_div L B) with (Z.of_nat (S (Z.to_nat (ceil_div L B - 1))))
        by lia.
      rewrite range_S, map_app, concat_app.
      rewrite concat_full_batches by (rewrite ?Hk; fold L; lia).
      cbn [map concat]; rewrite app_nil_r; unfold batch_at.
      rewrite Hk, slice_to_end by (fold L; lia).
      apply firstn_skipn.
  - intros k batch Hnth.
    rewrite nth_error_map in Hnth.
    destruct (nth_error (Py.range (ceil_div L B)) k) as [z|] eqn:Hk;
      [|discriminate].
    injection Hnth as <-.
    unfold Py.range in Hk.
    rewrite nth_error_map, nth_error_seq in Hk.
    destruct (Nat.ltb_spec k (Z.to_nat (ceil_div L B))); [|discriminate].
    injection Hk as <-; cbn [Nat.add].
    split; [reflexivity|].
    unfold batch_at.
    destruct (Z_lt_le_dec (Z.of_nat k + 1) (ceil_div L B)) as [Hfull|Hlast].
    + rewrite len_slice_within by (fold L; nia).
      split; [lia|intros _; lia].
    + rewrite slice_to_end by (fold L; nia).
      assert (Hk : Z.of_nat k = ceil_div L B - 1) by lia.
      assert (HLn : Z.of_nat (List.length pri_list) = L) by reflexivity.
      assert (Hpos : 0 <= (ceil_div L B - 1) * B) by nia.
      unfold Py.len; rewrite length_skipn, Hk.
      split; [lia|intros Hlt; lia].
  - intros ->.
    change L with 0 in Hc.
    replace (ceil_div L B) with 0 by (unfold L; cbn; nia).
    reflexivity.
Qed.

End Chunks.

Section Batch.
Context {Data : Type} `{Py.Object Data}.

Lemma get_cookie_sends_no_query (net : Network Data) (credentials : StrDict) :
  filter PhoenixBot.is_get (snd (AuthManager.get_cookie net credentials)) = [].
Proof.
  unfold AuthManager.get_cookie.
  destruct (falsy_str _ || falsy_str _); reflexivity.
Qed.

(** C8. When [authenticate()] of the bot of a batch returns false,
    [_process_batch] returns no result and the whole batch as failed;
    the bot is left as [authenticate] and then [cleanup] leave it,
    [extract_batch_data] is not applied to it, and it has sent no
    query. *)
Theorem auth_failure_fails_batch (net : Network Data) (batch : list string)
    (batch_idx : Z) (phoenix_credentials : StrDict)
    (query_template : option string) :
  let bot := PhoenixBot.__init__ net phoenix_credentials batch_idx in
  fst (PhoenixBot.authenticate bot) = false ->
  let ret :=
    BotConductor._process_batch net batch batch_idx phoenix_credentials
                                query_template in
  BatchResult.results (fst ret) = [] /\
  BatchResult.failed (fst ret) = batch /\
  snd ret = PhoenixBot.cleanup (snd (PhoenixBot.authenticate bot)) /\
  PhoenixBot.authenticated (snd ret) = false /\
  filter PhoenixBot.is_get (PhoenixBot.trace (snd ret)) = [].
Proof.
  cbv zeta; intros Hauth.
  unfold BotConductor._process_batch.
  destruct (PhoenixBot.authenticate
              (PhoenixBot.__init__ net phoenix_credentials batch_idx))
    as [ok bot] eqn:Eauth.
  cbn [fst snd] in *; subst ok; cbn [negb fst snd].
  repeat (split; [reflexivity|]).
  unfold PhoenixBot.authenticate in Eauth.
  pose proof (get_cookie_sends_no_query net phoenix_credentials) as Hq.
  cbn [PhoenixBot.net PhoenixBot.credentials PhoenixBot.__init__] in Eauth.
  destruct (AuthManager.get_cookie net phoenix_credentials) as [c es].
  cbn [snd] in Hq.
  destruct c as [[|kv c]|]; try discriminate;
    injection Eauth as <-; cbn;
    rewrite filter_app, Hq; split; reflexivity.
Qed.

(** C10. [extract_data] on the empty list returns the dictionary with
    status error, message No PRIs to process and empty results and
    failed lists, and creates no bot. *)
Theorem extract_data_empty (run : BotConductor.Run Data)
    (phoenix_credentials : StrDict) (query_template : option string)
    (self : BotConductor.t) :
  BotConductor.extract_data run [] phoenix_credentials query_template self
  = inr (BotConductor.Report.Early "error" "No PRIs to process" [] [], []).
Proof. reflexivity. Qed.

End Batch.

End ConductorFacts.

(** ** The theorems on concrete inputs *)

Module Runs.

Import Examples.

(** Ten tasks for four bots. *)
Lemma divide_tasks_partition_witness :
  0 < BotManager.num_bots four_bots /\
  Py.len (BotManager._divide_tasks ten_tasks four_bots) = 4 /\
  concat (BotManager._divide_tasks ten_tasks four_bots) = ten_tasks.
Proof.
  split; [reflexivity|].
  destruct (@DivideTasks.divide_tasks_partition Z Z ten_tasks four_bots
              eq_refl) as (Hlen & Hconcat & _).
  split; [exact Hlen|exact Hconcat].
Defined.

(** C2. A bot made with max_retries = 0 and a processor that succeeds
    on every task: processing task 5 never calls the processor, and the
    task is reported failed, with no error message. *)
Theorem zero_max_retries_makes_no_attempt :
  let bot := Bot.__init__ 0 simple_processor 0 1 in
  let ret := Bot._process_single_task 5 bot in
  simple_processor 0%nat 5 = Returned 10 /\
  Bot.calls (Bot.trace (snd ret)) = 0%nat /\
  fst ret = inr (TaskResult.mk 0 5 false None None) /\
  BotProgress.tasks_completed (Bot.progress (snd ret)) = 0 /\
  BotProgress.tasks_failed (Bot.progress (snd ret)) = 1.
Proof. cbv zeta; repeat split. Qed.

(** Three attempts and two sleeps, as in [test_process_task_with_retry]. *)
Lemma failing_task_retry_count_witness :
  let bot := Bot.__init__ 1 failing_processor 3 (1 # 10) in
  let ret := Bot._process_single_task 1 bot in
  0 <= Bot.max_retries bot /\
  (0 <= Bot.retry_delay bot)%Q /\
  (forall k, Bot.task_processor bot k 1 = Raised "Test failure") /\
  Bot.trace (snd ret)
  = [EvCall 1; EvSleep (1 # 10); EvCall 1; EvSleep (1 # 10); EvCall 1] /\
  exists r,
    fst ret = inr r /\
    TaskResult.success r = false /\
    TaskResult.error r = Some "Test failure".
Proof.
  cbv zeta.
  split; [discriminate|].
  split; [discriminate|].
  split; [reflexivity|].
  destruct (@BotFacts.failing_task_retry_count Z Z 1 (fun _ => "Test failure")
              (Bot.__init__ 1 failing_processor 3 (1 # 10))
              ltac:(discriminate) ltac:(discriminate) (fun _ => eq_refl))
    as (Htrace & _ & _ & _ & r & Hret & _ & Hsuccess & Herror).
  split; [exact Htrace|].
  exists r; split; [exact Hret|].
  split; [exact Hsuccess|].
  apply Herror; discriminate.
Defined.

(** Why the delay must not be negative: [time.sleep] then raises inside
    the [except] block, the future of the bot raises, and [execute]
    logs it and adds no result of this bot. *)
Example negative_delay_faults_the_bot :
  let self := BotManager.mk 1 2 (-1 # 1) [] [] : BotManager.t Z Z in
  let run := BotManager.mkRun (fun _ => failing_processor) (fun _ => 0%nat) in
  let ret := BotManager.execute run [1] self in
  BotManager.Report.total_tasks (fst ret) = 0 /\
  map (fun bot => BotProgress.state (Bot.progress bot))
      (BotManager.bots (snd ret))
  = [ACTIVE].
Proof. cbv zeta; split; reflexivity. Qed.

(** Ten tasks on four bots, two of them failing. *)
Lemma completion_accounting_witness :
  let ret := BotManager.execute some_fail ten_tasks four_bots in
  0 < BotManager.num_bots four_bots /\
  (0 <= BotManager.retry_delay four_bots)%Q /\
  Py.len (Spec.workers ten_tasks (snd ret)) = 4 /\
  Spec.sum_Z (map (fun bot => BotProgress.tasks_completed (Bot.progress bot)
                         + BotProgress.tasks_failed (Bot.progress bot))
             (Spec.workers ten_tasks (snd ret)))
  = 10.
Proof.
  cbv zeta.
  split; [reflexivity|].
  split; [discriminate|].
  destruct (@ManagerFacts.completion_accounting Z Z int_object some_fail
              ten_tasks four_bots eq_refl ltac:(discriminate))
    as (_ & Hlen & _ & Hsum).
  split; [apply Hlen; discriminate|exact Hsum].
Defined.

(** C6 as it is stated fails: one task on two bots submits bot 0 only,
    and bot_progress holds the snapshots of bots 0 and 1. *)
Lemma bot_progress_lists_unspawned_bot :
  let report := fst (BotManager.execute all_succeed [7] two_bots) in
  let spawned :=
    map (fun f => Bot.bot_id (fst f))
        (BotManager.future_to_bot
           (Spec.threads all_succeed [7] two_bots)) in
  Py.len [7] < BotManager.num_bots two_bots /\
  BotManager._divide_tasks [7] two_bots = [[7]; []] /\
  spawned = [0] /\
  map BotProgress.Dict.bot_id (BotManager.Report.bot_progress report)
  = [0; 1] /\
  map BotProgress.Dict.state (BotManager.Report.bot_progress report)
  = ["completed"; "idle"] /\
  map BotProgress.Dict.bot_id (BotManager.Report.bot_progress report)
  <> spawned.
Proof. cbv zeta; repeat split; discriminate. Qed.

Lemma bot_progress_all_bots_witness :
  let report := fst (BotManager.execute all_succeed [7] two_bots) in
  0 < BotManager.num_bots two_bots /\
  (0 <= BotManager.retry_delay two_bots)%Q /\
  [7] <> [] /\
  map BotProgress.Dict.bot_id (BotManager.Report.bot_progress report)
  = [0; 1].
Proof.
  cbv zeta.
  split; [reflexivity|].
  split; [discriminate|].
  split; [discriminate|].
  destruct (@ManagerFacts.bot_progress_all_bots Z Z int_object all_succeed
              [7] two_bots eq_refl ltac:(discriminate) ltac:(discriminate))
    as (Hids & _).
  exact Hids.
Defined.

(** Five PRIs in batches of two. *)
Lemma divide_pris_chunks_witness :
  0 < BotConductor.batch_size (BotConductor.__init__ 5 2) /\
  exists batches,
    BotConductor.divide_pris five_pris (BotConductor.__init__ 5 2)
    = inr batches /\
    concat batches = five_pris /\
    Py.len batches = 3.
Proof.
  split; [reflexivity|].
  destruct (@ConductorFacts.divide_pris_chunks five_pris
              (BotConductor.__init__ 5 2) eq_refl)
    as (batches & Hdiv & Hconcat & Hlen & _).
  exists batches; split; [exact Hdiv|].
  split; [exact Hconcat|exact Hlen].
Defined.

(** A refused login fails the batch of [test_process_batch_auth_failure]. *)
Lemma auth_failure_fails_batch_witness :
  let bot := PhoenixBot.__init__ refusing credentials 0 in
  let ret :=
    BotConductor._process_batch refusing ["PRI001"; "PRI002"] 0 credentials
                                None in
  fst (PhoenixBot.authenticate bot) = false /\
  BatchResult.results (fst ret) = [] /\
  BatchResult.failed (fst ret) = ["PRI001"; "PRI002"].
Proof.
  cbv zeta.
  split; [reflexivity|].
  destruct (@ConductorFacts.auth_failure_fails_batch Z int_object refusing
              ["PRI001"; "PRI002"] 0 credentials None eq_refl)
    as (Hresults & Hfailed & _).
  split; [exact Hresults|exact Hfailed].
Defined.

(** Three tasks, then two more, on the same manager. *)
Lemma results_accumulate_witness :
  let ret1 := BotManager.execute all_succeed [1; 2; 3] two_bots in
  let ret2 := BotManager.execute some_fail [4; 5] (snd ret1) in
  BotManager.__init__ 2 1 (1 # 100) = inr two_bots /\
  (0 <= 1 # 100)%Q /\
  [1; 2; 3] <> [] /\
  [4; 5] <> [] /\
  BotManager.Report.total_tasks (fst ret2) = 5.
Proof.
  cbv zeta.
  split; [reflexivity|].
  split; [discriminate|].
  split; [discriminate|].
  split; [discriminate|].
  destruct (@ManagerFacts.results_accumulate Z Z int_object all_succeed
              some_fail [1; 2; 3] [4; 5] 2 1 (1 # 100) two_bots eq_refl
              ltac:(discriminate) ltac:(discriminate) ltac:(discriminate))
    as (_ & Htotal & _).
  exact Htotal.
Defined.

End Runs.

(** * Further properties of the engine *)

Module EngineFacts.

Import Spec BotFacts.

Section Facts.
Context {Task Result : Type}.
Implicit Types (self : Bot.t Task Result) (task : Task).

(** The retry loop when the first [k] calls raise and the next one
    returns: the attempts are the first [k + 1] of a longer range. *)
Lemma attempts_raise_then_return task (r : Result) (k : nat) :
  forall (a : Z) (rest : list Z) last_error self,
    (0 <= Bot.retry_delay self)%Q ->
    a + Z.of_nat k < Bot.max_retries self ->
    (forall j, (j < k)%nat ->
       exists e,
         Bot.task_processor self (Bot.calls (Bot.trace self) + j)%nat task
         = Raised e) ->
    Bot.task_processor self (Bot.calls (Bot.trace self) + k)%nat task
    = Returned r ->
    exists self',
      Bot.attempts task
        (map (fun j => a + Z.of_nat j) (seq 0 (S k)) ++ rest) last_error self
      = (Bot.Return (TaskResult.mk (Bot.bot_id self) task true (Some r) None),
         self') /\
      same_setup self self' /\
      Bot.progress self'
      = BotProgress.incr_tasks_completed (Bot.progress self) /\
      Bot.results self' = Bot.results self /\
      Bot.trace self'
      = Bot.trace self ++ retry_events task (Bot.retry_delay self) (S k).
Proof.
  induction k as [|k IH]; intros a rest last_error self Hdelay Hmax Hfail Hret.
  - cbn [seq map app Bot.attempts]; unfold Bot.call_processor.
    rewrite Nat.add_0_r in Hret; rewrite Hret.
    eexists; split; [reflexivity|].
    repeat split.
  - rewrite <- cons_seq, <- seq_shift; cbn [map app]; rewrite map_map.
    cbn [Bot.attempts]; unfold Bot.call_processor.
    destruct (Hfail 0%nat ltac:(lia)) as (e & Hfirst).
    rewrite Nat.add_0_r in Hfirst; rewrite Hfirst.
    set (self1 := Bot.emit (EvCall task) self).
    change (Bot.max_retries self1) with (Bot.max_retries self).
    destruct (Z.ltb_spec (a + Z.of_nat 0) (Bot.max_retries self - 1));
      [|lia].
    rewrite sleep_ok by exact Hdelay.
    set (self2 := Bot.emit (EvSleep (Bot.retry_delay self1)) self1).
    assert (Hcalls : Bot.calls (Bot.trace self2)
                     = S (Bot.calls (Bot.trace self))).
    { subst self2 self1; cbn [Bot.trace Bot.emit].
      rewrite !calls_app; cbn; lia. }
    destruct (IH (a + 1) rest (Some e) self2)
      as (self' & Hrun & Hsetup & Hprog & Hres & Htr).
    { exact Hdelay. }
    { change (Bot.max_retries self2) with (Bot.max_retries self); lia. }
    { intros j Hj; rewrite Hcalls.
      change (Bot.task_processor self2) with (Bot.task_processor self).
      replace (S (Bot.calls (Bot.trace self)) + j)%nat
        with (Bot.calls (Bot.trace self) + S j)%nat by lia.
      apply Hfail; lia. }
    { rewrite Hcalls.
      change (Bot.task_processor self2) with (Bot.task_processor self).
      replace (S (Bot.calls (Bot.trace self)) + k)%nat
        with (Bot.calls (Bot.trace self) + S k)%nat by lia.
      exact Hret. }
    exists self'; split; [|split; [|split; [|split]]].
    + erewrite map_ext; [exact Hrun|intros j; lia].
    + exact Hsetup.
    + exact Hprog.
    + exact Hres.
    + rewrite Htr; subst self2 self1; cbn [Bot.trace Bot.emit Bot.retry_delay].
      rewrite <- !app_assoc; reflexivity.
Qed.


Lemma range_split (n : Z) (k : nat) :
  Z.of_nat k < n ->
  Py.range n
  = map (fun j => 0 + Z.of_nat j) (seq 0 (S k))
    ++ map Z.of_nat (seq (S k) (Z.to_nat n - S k)).
Proof.
  intros Hk; unfold Py.range.
  replace (Z.to_nat n) with (S k + (Z.to_nat n - S k))%nat at 1 by lia.
  rewrite seq_app, map_app; f_equal.
Qed.

(** X1. A task whose first k calls raise and whose next call returns,
    with k < max_retries and retry_delay >= 0: the bot makes exactly
    k + 1 calls with a sleep of retry_delay after each failed one,
    returns a successful TaskResult with the value of the last call and
    no error, and counts the task as completed, not as failed; the
    error message of the progress is left as it was. *)
Theorem retry_then_success task (r : Result) (k : nat) self :
  (0 <= Bot.retry_delay self)%Q ->
  Z.of_nat k < Bot.max_retries self ->
  (forall j, (j < k)%nat ->
     exists e,
       Bot.task_processor self (Bot.calls (Bot.trace self) + j)%nat task
       = Raised e) ->
  Bot.task_processor self (Bot.calls (Bot.trace self) + k)%nat task
  = Returned r ->
  let ret := Bot._process_single_task task self in
  let new := retry_events task (Bot.retry_delay self) (S k) in
  fst ret = inr (TaskResult.mk (Bot.bot_id self) task true (Some r) None) /\
  Bot.trace (snd ret) = Bot.trace self ++ new /\
  Bot.calls new = S k /\
  sleeps new = k /\
  BotProgress.tasks_completed (Bot.progress (snd ret))
  = BotProgress.tasks_completed (Bot.progress self) + 1 /\
  BotProgress.tasks_failed (Bot.progress (snd ret))
  = BotProgress.tasks_failed (Bot.progress self) /\
  BotProgress.error_message (Bot.progress (snd ret))
  = BotProgress.error_message (Bot.progress self) /\
  BotProgress.current_task (Bot.progress (snd ret)) = Some task.
Proof.
  intros Hdelay Hk Hfail Hret; cbv zeta.
  unfold Bot._process_single_task.
  set (self0 := Bot.update_progress _ self).
  change (Bot.max_retries self0) with (Bot.max_retries self).
  rewrite (@range_split _ _ Hk).
  destruct (@attempts_raise_then_return task r k 0
              (map Z.of_nat
                   (seq (S k) (Z.to_nat (Bot.max_retries self) - S k)))
              None self0 Hdelay)
    as (self' & Hrun & Hsetup & Hprog & Hres & Htr).
  { change (Bot.max_retries self0) with (Bot.max_retries self); lia. }
  { exact Hfail. }
  { exact Hret. }
  rewrite Hrun; cbn [fst snd].
  split; [reflexivity|].
  split; [exact Htr|].
  split; [apply calls_retry_events|].
  split; [rewrite sleeps_retry_events; lia|].
  rewrite Hprog; repeat split.
Qed.

(** X2. [process_tasks] on a bot with retry_delay >= 0 returns the
    results of the bot: the results it had, followed by one result for
    each task, in the order of the tasks, each with the bot_id of the
    bot; the bot ends in state COMPLETED with no current task. *)
Theorem process_tasks_in_order (tasks : list Task) self :
  (0 <= Bot.retry_delay self)%Q ->
  let ret := Bot.process_tasks tasks self in
  exists new,
    fst ret = inr (Bot.results self ++ new) /\
    Bot.results (snd ret) = Bot.results self ++ new /\
    map (@TaskResult.task Task Result) new = tasks /\
    Forall (fun r => TaskResult.bot_id r = Bot.bot_id self) new /\
    BotProgress.state (Bot.progress (snd ret)) = COMPLETED /\
    BotProgress.current_task (Bot.progress (snd ret)) = None.
Proof.
  intros Hdelay; cbv zeta.
  destruct (@process_tasks_accounting Task Result tasks self Hdelay)
    as (Hret & _ & _ & Hstate & Hcur & _ & new & Hnew & Hmap & Hall).
  exists new; rewrite Hret, Hnew; repeat split; assumption.
Qed.

Lemma sleep_negative self :
  (Bot.retry_delay self < 0)%Q ->
  Bot.sleep self
  = (Some (ValueError "sleep length must be non-negative"), self).
Proof.
  intros Hneg; unfold Bot.sleep.
  destruct (Qle_bool 0 (Bot.retry_delay self)) eqn:Hle; [|reflexivity].
  apply Qle_bool_iff in Hle.
  exfalso; exact (Qlt_not_le _ _ Hneg Hle).
Qed.

(** With a negative delay, a first call that raises is the only one. *)
Lemma single_task_escapes task (e : string) self :
  (Bot.retry_delay self < 0)%Q ->
  2 <= Bot.max_retries self ->
  Bot.task_processor self (Bot.calls (Bot.trace self)) task = Raised e ->
  Bot._process_single_task task self
  = (inl (ValueError "sleep length must be non-negative"),
     Bot.emit (EvCall task)
              (Bot.update_progress
                 (BotProgress.set_current_task (Some task)) self)).
Proof.
  intros Hneg Hmax Hfail; unfold Bot._process_single_task.
  set (self1 := Bot.update_progress _ self).
  change (Bot.max_retries self1) with (Bot.max_retries self).
  rewrite (@range_split (Bot.max_retries self) 0%nat) by lia.
  cbn [seq map app Bot.attempts]; unfold Bot.call_processor.
  change (Bot.task_processor self1) with (Bot.task_processor self).
  change (Bot.trace self1) with (Bot.trace self).
  rewrite Hfail.
  change (Bot.max_retries (Bot.emit (EvCall task) self1))
    with (Bot.max_retries self).
  destruct (Z.ltb_spec (0 + Z.of_nat 0) (Bot.max_retries self - 1));
    [|lia].
  rewrite sleep_negative by exact Hneg.
  reflexivity.
Qed.

(** The exception leaves [process_tasks] as well. *)
Lemma process_tasks_escapes task (rest : list Task) (e : string) self :
  (Bot.retry_delay self < 0)%Q ->
  2 <= Bot.max_retries self ->
  Bot.task_processor self (Bot.calls (Bot.trace self)) task = Raised e ->
  Bot.process_tasks (task :: rest) self
  = (inl (ValueError "sleep length must be non-negative"),
     Bot.emit (EvCall task)
              (Bot.update_progress
                 (BotProgress.set_current_task (Some task))
                 (Bot.update_progress (BotProgress.set_state ACTIVE) self))).
Proof.
  intros Hneg Hmax Hfail.
  unfold Bot.process_tasks; cbn [Bot.process_each].
  rewrite (@single_task_escapes task e) by assumption.
  reflexivity.
Qed.

(** X3. With a negative retry_delay and max_retries >= 2, a task whose
    first call raises is not retried: [time.sleep] raises ValueError
    inside the [except] block, the exception leaves
    [_process_single_task] after this one call, and the task is counted
    neither as completed nor as failed.  [process_tasks] on a list that
    starts with this task raises the same exception, appends no result
    and leaves the bot in state ACTIVE with the task as current task. *)
Theorem negative_delay_escapes task (rest : list Task) (e : string) self :
  (Bot.retry_delay self < 0)%Q ->
  2 <= Bot.max_retries self ->
  Bot.task_processor self (Bot.calls (Bot.trace self)) task = Raised e ->
  let err := ValueError "sleep length must be non-negative" in
  let one := Bot._process_single_task task self in
  let all := Bot.process_tasks (task :: rest) self in
  (fst one = inl err /\
   Bot.trace (snd one) = Bot.trace self ++ [EvCall task] /\
   handled (snd one) = handled self) /\
  (fst all = inl err /\
   Bot.trace (snd all) = Bot.trace self ++ [EvCall task] /\
   Bot.results (snd all) = Bot.results self /\
   handled (snd all) = handled self /\
   BotProgress.state (Bot.progress (snd all)) = ACTIVE /\
   BotProgress.current_task (Bot.progress (snd all)) = Some task).
Proof.
  intros Hneg Hmax Hfail; cbv zeta.
  rewrite (@single_task_escapes task e self Hneg Hmax Hfail).
  rewrite (@process_tasks_escapes task rest e self Hneg Hmax Hfail).
  cbn; repeat split.
Qed.

(** The retry loop counts a task as completed exactly when it returns a
    result, and this result is a success. *)
Lemma attempts_tally task (rng : list Z) :
  forall last_error self,
    (0 <= Bot.retry_delay self)%Q ->
    let ret := Bot.attempts task rng last_error self in
    BotProgress.tasks_failed (Bot.progress (snd ret))
    = BotProgress.tasks_failed (Bot.progress self) /\
    Bot.retry_delay (snd ret) = Bot.retry_delay self /\
    match fst ret with
    | Bot.Return r =>
        TaskResult.success r = true /\
        BotProgress.tasks_completed (Bot.progress (snd ret))
        = BotProgress.tasks_completed (Bot.progress self) + 1
    | Bot.Exhausted _ =>
        BotProgress.tasks_completed (Bot.progress (snd ret))
        = BotProgress.tasks_completed (Bot.progress self)
    | Bot.Escaped _ => False
    end.
Proof.
  induction rng as [|attempt rng IH]; intros last_error self Hdelay;
    cbv zeta.
  - cbn; repeat split.
  - cbn [Bot.attempts]; unfold Bot.call_processor.
    destruct (Bot.task_processor self (Bot.calls (Bot.trace self)) task)
      as [result|e].
    + cbn; repeat split.
    + destruct (attempt <? _).
      * rewrite sleep_ok by exact Hdelay.
        exact (IH (Some e)
                  (Bot.emit (EvSleep (Bot.retry_delay self))
                            (Bot.emit (EvCall task) self)) Hdelay).
      * exact (IH (Some e) (Bot.emit (EvCall task) self) Hdelay).
Qed.

Lemma single_task_tally task self :
  (0 <= Bot.retry_delay self)%Q ->
  let ret := Bot._process_single_task task self in
  Bot.retry_delay (snd ret) = Bot.retry_delay self /\
  exists r,
    fst ret = inr r /\
    BotProgress.tasks_completed (Bot.progress (snd ret))
    = BotProgress.tasks_completed (Bot.progress self)
      + (if TaskResult.success r then 1 else 0) /\
    BotProgress.tasks_failed (Bot.progress (snd ret))
    = BotProgress.tasks_failed (Bot.progress self)
      + (if TaskResult.success r then 0 else 1).
Proof.
  intros Hdelay; cbv zeta; unfold Bot._process_single_task.
  set (self0 := Bot.update_progress _ self).
  pose proof (@attempts_tally task (Py.range (Bot.max_retries self0)) None
                self0 Hdelay) as Hloop.
  cbv zeta in Hloop.
  destruct (Bot.attempts task (Py.range (Bot.max_retries self0)) None self0)
    as [[r|last_error|err] self'].
  - cbn [fst snd] in *; destruct Hloop as (Hf & Hd & Hs & Hc).
    split; [exact Hd|].
    exists r; rewrite Hs; cbn in *; repeat split; lia.
  - cbn [fst snd] in *; destruct Hloop as (Hf & Hd & Hc).
    split; [exact Hd|].
    eexists; split; [reflexivity|]; cbn in *; lia.
  - cbn [fst snd] in Hloop; destruct Hloop as (_ & _ & []).
Qed.

Lemma tally_cons (r : TaskResult.t Task Result) rs :
  Tally.successes (r :: rs)
  = (if TaskResult.success r then 1 else 0) + Tally.successes rs /\
  Tally.failures (r :: rs)
  = (if TaskResult.success r then 0 else 1) + Tally.failures rs.
Proof.
  unfold Tally.successes, Tally.failures, Py.len; cbn [filter].
  destruct (TaskResult.success r); cbn [negb List.length]; lia.
Qed.

Lemma tally_app (rs1 rs2 : list (TaskResult.t Task Result)) :
  Tally.successes (rs1 ++ rs2) = Tally.successes rs1 + Tally.successes rs2 /\
  Tally.failures (rs1 ++ rs2) = Tally.failures rs1 + Tally.failures rs2.
Proof.
  unfold Tally.successes, Tally.failures.
  rewrite !filter_app, !len_app; split; reflexivity.
Qed.

Lemma process_each_tally (tasks : list Task) :
  forall self,
    (0 <= Bot.retry_delay self)%Q ->
    let ret := Bot.process_each tasks self in
    exists new,
      Bot.results (snd ret) = Bot.results self ++ new /\
      BotProgress.tasks_completed (Bot.progress (snd ret))
      = BotProgress.tasks_completed (Bot.progress self)
        + Tally.successes new /\
      BotProgress.tasks_failed (Bot.progress (snd ret))
      = BotProgress.tasks_failed (Bot.progress self) + Tally.failures new.
Proof.
  induction tasks as [|task tasks IH]; intros self Hdelay; cbv zeta.
  - exists []; cbn; rewrite app_nil_r; repeat split; lia.
  - cbn [Bot.process_each].
    pose proof (single_task_tally task self Hdelay) as Hone.
    cbv zeta in Hone.
    pose proof (single_task_accounting task self Hdelay) as Hacc.
    cbv zeta in Hacc.
    destruct (Bot._process_single_task task self) as [outcome self1].
    cbn [fst snd] in *.
    destruct Hone as (Hd & r & -> & Hc & Hf).
    destruct Hacc as (_ & Hres & _).
    destruct (IH (Bot.append_result r self1)) as (new & Hnew & Hc' & Hf');
      [cbn; rewrite Hd; exact Hdelay|].
    exists (r :: new).
    destruct (tally_cons r new) as (-> & ->).
    cbn in Hnew, Hc', Hf'.
    rewrite Hnew, Hc', Hf', Hc, Hf, Hres, <- app_assoc.
    repeat split; lia.
Qed.

Lemma process_tasks_tally (tasks : list Task) self :
  (0 <= Bot.retry_delay self)%Q ->
  let ret := Bot.process_tasks tasks self in
  exists new,
    Bot.results (snd ret) = Bot.results self ++ new /\
    Py.len new = Py.len tasks /\
    BotProgress.tasks_completed (Bot.progress (snd ret))
    = BotProgress.tasks_completed (Bot.progress self)
      + Tally.successes new /\
    BotProgress.tasks_failed (Bot.progress (snd ret))
    = BotProgress.tasks_failed (Bot.progress self) + Tally.failures new.
Proof.
  intros Hdelay; cbv zeta; unfold Bot.process_tasks.
  set (self0 := Bot.update_progress (BotProgress.set_state ACTIVE) self).
  destruct (@process_each_tally tasks self0 Hdelay)
    as (new & Hnew & Hc & Hf).
  pose proof (@process_each_accounting Task Result tasks self0 Hdelay)
    as Hacc; cbv zeta in Hacc.
  destruct (Bot.process_each tasks self0) as [fault self1].
  cbn [fst snd] in *.
  destruct Hacc as (-> & _ & _ & _ & new' & Hnew' & Hmap & _).
  assert (new' = new)
    by (eapply app_inv_head; rewrite <- Hnew', <- Hnew; reflexivity).
  subst new'; cbn [fst snd].
  exists new; split; [exact Hnew|].
  split; [unfold Py.len; rewrite <- Hmap, length_map; reflexivity|].
  split; [exact Hc|exact Hf].
Qed.

(** X4. While a bot with retry_delay >= 0 processes its tasks, its
    counters move with its results: tasks_completed grows by the number
    of successful results it appends and tasks_failed by the number of
    failed ones. *)
Theorem counters_follow_results (tasks : list Task) self :
  (0 <= Bot.retry_delay self)%Q ->
  let ret := Bot.process_tasks tasks self in
  exists new,
    Bot.results (snd ret) = Bot.results self ++ new /\
    Py.len new = Py.len tasks /\
    BotProgress.tasks_completed (Bot.progress (snd ret))
    = BotProgress.tasks_completed (Bot.progress self)
      + Tally.successes new /\
    BotProgress.tasks_failed (Bot.progress (snd ret))
    = BotProgress.tasks_failed (Bot.progress self) + Tally.failures new.
Proof. exact (process_tasks_tally tasks self). Qed.

End Facts.

Lemma filter_perm {A : Type} (f : A -> bool) (l l' : list A) :
  Permutation l l' -> Permutation (filter f l) (filter f l').
Proof.
  induction 1 as [|x l l' _ IH|x y l|l l' l'' _ IH1 _ IH2]; cbn.
  - reflexivity.
  - destruct (f x); [now constructor|exact IH].
  - destruct (f x), (f y); try reflexivity; apply perm_swap.
  - now rewrite IH1.
Qed.

Lemma range_NoDup (n : Z) : NoDup (Py.range n).
Proof.
  unfold Py.range; apply Finite.Injective_map_NoDup; [|apply seq_NoDup].
  intros a b Hab; lia.
Qed.

Lemma in_range (n i : Z) : In i (Py.range n) <-> 0 <= i < n.
Proof.
  unfold Py.range; rewrite in_map_iff; split.
  - intros (k & <- & Hk); apply in_seq in Hk; lia.
  - intros Hi; exists (Z.to_nat i); split; [lia|apply in_seq; lia].
Qed.

Section Pool.
Context {Task Result : Type} `{Py.Object Task}.
Implicit Types (self : BotManager.t Task Result) (tasks : list Task).
Implicit Types (run : BotManager.Run Task Result).

Import ManagerFacts.

(** The results of a group all made by bot [k], seen from bot [i]. *)
Lemma made_by_group (i k : Z) (rs : list (TaskResult.t Task Result)) :
  Forall (fun r => TaskResult.bot_id r = k) rs ->
  Tally.made_by i rs = if k =? i then rs else [].
Proof.
  unfold Tally.made_by; induction 1 as [|r rs Hr _ IH]; cbn.
  - now destruct (k =? i).
  - rewrite IH, Hr; now destruct (k =? i).
Qed.

Lemma made_by_app (i : Z) (rs1 rs2 : list (TaskResult.t Task Result)) :
  Tally.made_by i (rs1 ++ rs2) = Tally.made_by i rs1 ++ Tally.made_by i rs2.
Proof. apply filter_app. Qed.

(** Groups of results from different bots: the results of one bot do
    not depend on the order of the groups. *)
Lemma made_by_perm {F : Type} (key : F -> Z)
    (c : F -> list (TaskResult.t Task Result)) (i : Z) (l l' : list F) :
  Permutation l l' ->
  NoDup (map key l) ->
  (forall f, In f l -> Forall (fun r => TaskResult.bot_id r = key f) (c f)) ->
  Tally.made_by i (flat_map c l) = Tally.made_by i (flat_map c l').
Proof.
  induction 1 as [|x l l' Hp IH|x y l|l l' l'' Hp1 IH1 Hp2 IH2];
    intros Hnd Hgroup.
  - reflexivity.
  - cbn [flat_map]; rewrite !made_by_app.
    f_equal; apply IH.
    + now inversion Hnd.
    + intros f Hf; apply Hgroup; now right.
  - cbn [flat_map]; rewrite !made_by_app.
    rewrite (@made_by_group i (key x) (c x))
      by (apply Hgroup; right; now left).
    rewrite (@made_by_group i (key y) (c y)) by (apply Hgroup; now left).
    assert (key y <> key x).
    { cbn in Hnd; inversion Hnd as [|? ? Hnotin _]; subst.
      intros Heq; apply Hnotin; left; auto. }
    destruct (Z.eqb_spec (key x) i), (Z.eqb_spec (key y) i);
      try congruence; cbn; rewrite ?app_nil_r; reflexivity.
  - rewrite IH1 by assumption.
    apply IH2.
    + apply (Permutation_NoDup (Permutation_map key Hp1) Hnd).
    + intros f Hf; apply Hgroup.
      apply (Permutation_in _ (Permutation_sym Hp1) Hf).
Qed.

(** What a thread leaves, when the delay is not negative: the future
    holds the results of the bot, which are its slice in order, with
    its bot_id, and the counters of the bot are those of its results. *)
Lemma submit_tally run self (i : Z) (batch : list Task) :
  (0 <= BotManager.retry_delay self)%Q ->
  let ret := BotManager.submit (fresh run self i, batch) in
  flat_map collected (BotManager.future_to_bot [ret])
  = Bot.results (snd ret) /\
  map (fun f => Bot.bot_id (fst f)) (BotManager.future_to_bot [ret])
  = match batch with [] => [] | _ :: _ => [i] end /\
  (forall f, In f (BotManager.future_to_bot [ret]) ->
             Forall (fun r => TaskResult.bot_id r = Bot.bot_id (fst f))
                    (collected f)) /\
  map (@TaskResult.task Task Result) (Bot.results (snd ret)) = batch /\
  Forall (fun r => TaskResult.bot_id r = i) (Bot.results (snd ret)) /\
  BotProgress.tasks_completed (Bot.progress (snd ret))
  = Tally.successes (Bot.results (snd ret)) /\
  BotProgress.tasks_failed (Bot.progress (snd ret))
  = Tally.failures (Bot.results (snd ret)).
Proof.
  intros Hdelay; cbv zeta; unfold BotManager.submit.
  destruct batch as [|task batch].
  { cbn; repeat split; try constructor; intros f []. }
  set (tasks := task :: batch).
  pose proof (@BotFacts.process_tasks_accounting Task Result tasks
                (fresh run self i) Hdelay) as Hp.
  pose proof (@process_tasks_tally Task Result tasks
                (fresh run self i) Hdelay)
    as Hc.
  cbv zeta in Hp, Hc.
  destruct (Bot.process_tasks tasks (fresh run self i)) as [outcome bot].
  cbn [fst snd] in *.
  destruct Hp as (-> & Hbid & _ & _ & _ & _ & new & Hnew & Hmap & Hall).
  destruct Hc as (new' & Hnew' & _ & Hcompleted & Hfailed).
  cbn in Hnew, Hnew', Hall, Hcompleted, Hfailed, Hbid.
  subst new new'.
  cbn; rewrite app_nil_r.
  split; [reflexivity|].
  split; [now rewrite Hbid|].
  split.
  { intros f [<-|[]]; cbn; now rewrite Hbid. }
  repeat split; assumption.
Qed.

Lemma future_to_bot_cons
    (x : option (PyError + list (TaskResult.t Task Result))
         * Bot.t Task Result) l :
  BotManager.future_to_bot (x :: l)
  = BotManager.future_to_bot [x] ++ BotManager.future_to_bot l.
Proof.
  unfold BotManager.future_to_bot; cbn [flat_map]; now rewrite app_nil_r.
Qed.

Section Threads.
Variables (run : BotManager.Run Task Result) (self : BotManager.t Task Result).
Variable g : Z -> list Task.
Hypothesis Hdelay : (0 <= BotManager.retry_delay self)%Q.

Let thread (i : Z) := BotManager.submit (fresh run self i, g i).
Let key (f : Bot.t Task Result * (PyError + list (TaskResult.t Task Result)))
  := Bot.bot_id (fst f).

Lemma futures_results (indices : list Z) :
  flat_map collected (BotManager.future_to_bot (map thread indices))
  = flat_map (fun i => Bot.results (snd (thread i))) indices.
Proof.
  induction indices as [|i indices IH]; [reflexivity|].
  cbn [map flat_map]; rewrite future_to_bot_cons, flat_map_app, IH.
  f_equal; apply (@submit_tally run self i (g i) Hdelay).
Qed.

Lemma futures_keys (indices : list Z) :
  map key (BotManager.future_to_bot (map thread indices))
  = filter (fun i => match g i with [] => false | _ :: _ => true end)
           indices.
Proof.
  induction indices as [|i indices IH]; [reflexivity|].
  cbn [map filter]; rewrite future_to_bot_cons, map_app, IH.
  destruct (@submit_tally run self i (g i) Hdelay) as (_ & Hkey & _).
  unfold key, thread; rewrite Hkey.
  destruct (g i); reflexivity.
Qed.

Lemma futures_groups (indices : list Z) f :
  In f (BotManager.future_to_bot (map thread indices)) ->
  Forall (fun r => TaskResult.bot_id r = key f) (collected f).
Proof.
  induction indices as [|i indices IH]; [intros []|].
  cbn [map]; rewrite future_to_bot_cons, in_app_iff.
  intros [Hin|Hin]; [|exact (IH Hin)].
  destruct (@submit_tally run self i (g i) Hdelay) as (_ & _ & Hgroup & _).
  exact (Hgroup f Hin).
Qed.

(** In index order, the results of bot [i] are those its thread left. *)
Lemma made_by_thread (i : Z) (indices : list Z) :
  NoDup indices ->
  Tally.made_by i (flat_map (fun j => Bot.results (snd (thread j))) indices)
  = if in_dec Z.eq_dec i indices then Bot.results (snd (thread i)) else [].
Proof.
  induction 1 as [|j indices Hnotin Hnd IH]; [reflexivity|].
  cbn [flat_map]; rewrite made_by_app, IH.
  destruct (@submit_tally run self j (g j) Hdelay)
    as (_ & _ & _ & _ & Hall & _).
  fold (thread j) in Hall.
  rewrite (made_by_group i Hall).
  destruct (Z.eqb_spec j i) as [->|Hne].
  - destruct (in_dec Z.eq_dec i indices); [contradiction|].
    destruct (in_dec Z.eq_dec i (i :: indices)) as [_|Hno];
      [apply app_nil_r|exfalso; apply Hno; now left].
  - cbn [app]; destruct (in_dec Z.eq_dec i indices) as [Hin|Hno];
      destruct (in_dec Z.eq_dec i (j :: indices)) as [Hin'|Hno'];
      try reflexivity.
    + exfalso; apply Hno'; now right.
    + destruct Hin' as [Heq|Hin']; [congruence|contradiction].
Qed.

Lemma tally_of_threads (indices : list Z) :
  Tally.successes
    (flat_map (fun i => Bot.results (snd (thread i))) indices)
  = sum_Z (map (fun bot => BotProgress.tasks_completed (Bot.progress bot))
               (map snd (map thread indices))) /\
  Tally.failures
    (flat_map (fun i => Bot.results (snd (thread i))) indices)
  = sum_Z (map (fun bot => BotProgress.tasks_failed (Bot.progress bot))
               (map snd (map thread indices))).
Proof.
  induction indices as [|i indices (IHs & IHf)]; [split; reflexivity|].
  cbn [flat_map map sum_Z fold_right].
  destruct (tally_app (Bot.results (snd (thread i)))
              (flat_map (fun i => Bot.results (snd (thread i))) indices))
    as (-> & ->).
  destruct (@submit_tally run self i (g i) Hdelay)
    as (_ & _ & _ & _ & _ & Hc & Hf).
  fold (thread i) in Hc, Hf.
  rewrite IHs, IHf, Hc, Hf; split; reflexivity.
Qed.

End Threads.

(** The results that a call of [execute] adds, in terms of the threads. *)
Lemma execute_adds run tasks self :
  0 < BotManager.num_bots self ->
  (0 <= BotManager.retry_delay self)%Q ->
  tasks <> [] ->
  exists done,
    Permutation done (BotManager.future_to_bot (threads run tasks self)) /\
    BotManager.all_results (snd (BotManager.execute run tasks self))
    = BotManager.all_results self ++ flat_map collected done /\
    BotManager.bots (snd (BotManager.execute run tasks self))
    = map snd (threads run tasks self) /\
    BotManager.Report.results (fst (BotManager.execute run tasks self))
    = BotManager.all_results self ++ flat_map collected done.
Proof.
  intros Hw Hdelay Hne.
  destruct (@execute_nonempty Task Result _ run tasks self Hw Hne)
    as (done & Hperm & Hexec).
  cbv zeta in Hexec; rewrite Hexec; cbn [fst snd].
  exists done; repeat split; assumption.
Qed.

(** X5. The totals of a report agree with the counters of the bots:
    after [execute] on a task list that is not empty (num_bots > 0,
    retry_delay >= 0), successful is the number of successes that
    all_results held before the call plus the sum of tasks_completed
    over the bots of the manager, and failed is the number of failures
    held before plus the sum of tasks_failed. *)
Theorem report_totals_follow_counters run tasks self :
  0 < BotManager.num_bots self ->
  (0 <= BotManager.retry_delay self)%Q ->
  tasks <> [] ->
  let ret := BotManager.execute run tasks self in
  BotManager.Report.successful (fst ret)
  = Tally.successes (BotManager.all_results self)
    + sum_Z (map (fun bot => BotProgress.tasks_completed (Bot.progress bot))
                 (BotManager.bots (snd ret))) /\
  BotManager.Report.failed (fst ret)
  = Tally.failures (BotManager.all_results self)
    + sum_Z (map (fun bot => BotProgress.tasks_failed (Bot.progress bot))
                 (BotManager.bots (snd ret))).
Proof.
  intros Hw Hdelay Hne; cbv zeta.
  destruct (@execute_nonempty Task Result _ run tasks self Hw Hne)
    as (done & Hperm & Hexec).
  cbv zeta in Hexec; rewrite Hexec; cbn [fst snd].
  unfold BotManager._compile_results.
  cbn [BotManager.Report.successful BotManager.Report.failed
       BotManager.all_results BotManager.bots].
  fold (Tally.successes
          (BotManager.all_results self ++ flat_map collected done)).
  fold (Tally.failures
          (BotManager.all_results self ++ flat_map collected done)).
  destruct (tally_app (BotManager.all_results self)
                      (flat_map collected done)) as (-> & ->).
  assert (Hp : Permutation
                 (flat_map collected done)
                 (flat_map collected
                    (BotManager.future_to_bot (threads run tasks self))))
    by (apply Permutation_flat_map; exact Hperm).
  unfold Tally.successes, Tally.failures, Py.len.
  rewrite (Permutation_length (filter_perm _ Hp)).
  rewrite (Permutation_length
             (filter_perm (fun r => negb (TaskResult.success r)) Hp)).
  unfold threads; rewrite futures_results by exact Hdelay.
  destruct (@tally_of_threads run self
              (chunk tasks (BotManager.num_bots self)) Hdelay
              (Py.range (BotManager.num_bots self))) as (Hs & Hf).
  unfold Tally.successes, Tally.failures, Py.len in Hs, Hf.
  rewrite Hs, Hf; split; reflexivity.
Qed.

(** X6. Every result names the bot that made it, and the results of a
    bot keep the order of its slice: among the results that [execute]
    adds to all_results (num_bots > 0, retry_delay >= 0), those with
    bot_id i are one result for each task of slice i of
    [_divide_tasks], in the order of the slice, whatever the order in
    which the bots finish; and every added result has a bot_id from
    0 to num_bots - 1. *)
Theorem results_grouped_by_bot run tasks self :
  0 < BotManager.num_bots self ->
  (0 <= BotManager.retry_delay self)%Q ->
  tasks <> [] ->
  let ret := BotManager.execute run tasks self in
  exists new,
    BotManager.all_results (snd ret) = BotManager.all_results self ++ new /\
    (forall r, In r new ->
               0 <= TaskResult.bot_id r < BotManager.num_bots self) /\
    forall i batch,
      0 <= i ->
      nth_error (BotManager._divide_tasks tasks self) (Z.to_nat i)
      = Some batch ->
      map (@TaskResult.task Task Result) (Tally.made_by i new) = batch.
Proof.
  intros Hw Hdelay Hne; cbv zeta.
  destruct (@execute_adds run tasks self Hw Hdelay Hne)
    as (done & Hperm & Hall & _).
  exists (flat_map collected done); split; [exact Hall|].
  assert (Hkeys : NoDup (map (fun f => Bot.bot_id (fst f))
                             (BotManager.future_to_bot
                                (threads run tasks self)))).
  { unfold threads; rewrite (@futures_keys run self (chunk tasks (BotManager.num_bots self))
               Hdelay (Py.range (BotManager.num_bots self))).
    apply NoDup_filter, range_NoDup. }
  assert (Hgroups : forall f,
             In f (BotManager.future_to_bot (threads run tasks self)) ->
             Forall (fun r => TaskResult.bot_id r = Bot.bot_id (fst f))
                    (collected f)).
  { intros f; apply (@futures_groups run self (chunk tasks (BotManager.num_bots self))
               Hdelay (Py.range (BotManager.num_bots self))). }
  split.
  - intros r Hr.
    apply in_flat_map in Hr; destruct Hr as (f & Hf & Hr).
    apply (Permutation_in _ Hperm) in Hf.
    pose proof (Hgroups f Hf) as Hall'.
    rewrite Forall_forall in Hall'; rewrite (Hall' r Hr).
    assert (Hin : In (Bot.bot_id (fst f))
                     (map (fun f => Bot.bot_id (fst f))
                          (BotManager.future_to_bot
                             (threads run tasks self))))
      by (exact (in_map (fun f => Bot.bot_id (fst f)) _ f Hf)).
    unfold threads in Hin.
    rewrite (@futures_keys run self (chunk tasks (BotManager.num_bots self))
               Hdelay (Py.range (BotManager.num_bots self))) in Hin.
    apply filter_In in Hin; destruct Hin as (Hin & _).
    apply in_range in Hin; exact Hin.
  - intros i batch Hi Hnth.
    rewrite DivideTasks.divide_tasks_chunks in Hnth by assumption.
    rewrite nth_error_map in Hnth.
    destruct (nth_error (Py.range (BotManager.num_bots self)) (Z.to_nat i))
      as [z|] eqn:Hz; [|discriminate].
    injection Hnth as <-.
    assert (Hzi : z = i /\ 0 <= i < BotManager.num_bots self).
    { unfold Py.range in Hz; rewrite nth_error_map, nth_error_seq in Hz.
      destruct (Nat.ltb_spec (Z.to_nat i)
                             (Z.to_nat (BotManager.num_bots self)));
        [|discriminate].
      injection Hz as <-; lia. }
    destruct Hzi as (-> & Hrange).
    rewrite <- (@made_by_perm _ (fun f => Bot.bot_id (fst f)) collected i
                  _ _ (Permutation_sym Hperm) Hkeys Hgroups).
    unfold threads; rewrite futures_results by exact Hdelay.
    rewrite made_by_thread by (exact Hdelay || apply range_NoDup).
    destruct (in_dec Z.eq_dec i (Py.range (BotManager.num_bots self)))
      as [_|Hno]; [|exfalso; apply Hno, in_range; exact Hrange].
    apply (@submit_tally run self i
             (chunk tasks (BotManager.num_bots self) i) Hdelay).
Qed.

(** X7. A second run replaces the bots and keeps the results: after
    [execute(T1)] and then [execute(T2)], both not empty (num_bots > 0,
    retry_delay >= 0), the manager has num_bots bots whose counters add
    up to len(T2) only, while the report counts the results of both
    runs and of the runs before. *)
Theorem second_run_replaces_bots run1 run2 (tasks1 tasks2 : list Task) self :
  0 < BotManager.num_bots self ->
  (0 <= BotManager.retry_delay self)%Q ->
  tasks1 <> [] -> tasks2 <> [] ->
  let ret1 := BotManager.execute run1 tasks1 self in
  let ret2 := BotManager.execute run2 tasks2 (snd ret1) in
  Py.len (BotManager.bots (snd ret2)) = BotManager.num_bots self /\
  sum_Z (map (fun bot => BotProgress.tasks_completed (Bot.progress bot)
                         + BotProgress.tasks_failed (Bot.progress bot))
             (BotManager.bots (snd ret2)))
  = Py.len tasks2 /\
  BotManager.Report.total_tasks (fst ret2)
  = Py.len (BotManager.all_results self) + Py.len tasks1 + Py.len tasks2.
Proof.
  intros Hw Hdelay Hne1 Hne2; cbv zeta.
  destruct (@execute_results Task Result _ run1 tasks1 self Hw Hdelay Hne1)
    as (Hw1 & Hd1 & _ & _ & _ & _ & new1 & Hall1 & Hperm1).
  cbv zeta in *.
  set (self1 := snd (BotManager.execute run1 tasks1 self)) in *.
  assert (Hw' : 0 < BotManager.num_bots self1) by (rewrite Hw1; exact Hw).
  assert (Hdelay' : (0 <= BotManager.retry_delay self1)%Q)
    by (rewrite Hd1; exact Hdelay).
  destruct (@execute_results Task Result _ run2 tasks2 self1 Hw' Hdelay' Hne2)
    as (_ & _ & Hbots2 & _ & Htot2 & _ & new2 & Hall2 & Hperm2).
  cbv zeta in *.
  assert (Hlen : forall (new : list (TaskResult.t Task Result)) tasks,
             Permutation (map (@TaskResult.task Task Result) new) tasks ->
             Py.len new = Py.len tasks).
  { intros new tasks Hp; apply Permutation_length in Hp.
    rewrite length_map in Hp; unfold Py.len; lia. }
  rewrite Hbots2, Htot2, Hall2, Hall1, !len_app.
  rewrite (Hlen _ _ Hperm1), (Hlen _ _ Hperm2).
  split; [|split; [|reflexivity]].
  - unfold threads, Py.len; rewrite !length_map, Hw1.
    apply len_range; lia.
  - unfold threads.
    change (fun bot : Bot.t Task Result =>
              BotProgress.tasks_completed (Bot.progress bot)
              + BotProgress.tasks_failed (Bot.progress bot))
      with (@handled Task Result).
    rewrite handled_of_threads, chunks_concat by assumption.
    reflexivity.
Qed.

End Pool.

End EngineFacts.

(** * Further properties of the extraction *)

Module ExtractionFacts.

Import Spec Tally.

(** A key that has been set is found, with its value. *)
Lemma get_set {V : Type} (d : list (string * V)) (key : string) (v : V) :
  Py.get (Py.set d key v) key = Some v.
Proof.
  induction d as [|[k w] d IH]; cbn.
  - now rewrite String.eqb_refl.
  - destruct (String.eqb k key) eqn:Hk; cbn; rewrite Hk; [reflexivity|exact IH].
Qed.

Lemma set_not_empty {V : Type} (d : list (string * V)) (key : string) (v : V) :
  Py.set d key v <> [].
Proof. destruct d as [|[k w] d]; cbn; [|destruct (String.eqb k key)]; discriminate. Qed.

Section Facts.
Context {Data : Type} `{Py.Object Data}.
Implicit Types (net : Network Data) (self : PhoenixBot.t Data).

(** The cookies that [get_cookie] makes have the key [session_id]. *)
Lemma get_cookie_session_id net (credentials : StrDict) (c : StrDict) :
  fst (AuthManager.get_cookie net credentials) = Some c ->
  exists username,
    Py.get credentials "username" = Some username /\
    username <> "" /\
    Py.get c "session_id" = Some (session_id net username) /\
    c <> [].
Proof.
  unfold AuthManager.get_cookie.
  destruct (Py.get credentials "username") as [username|]; [|discriminate].
  destruct (Py.get credentials "password") as [password|];
    [|cbn; rewrite orb_true_r; discriminate].
  cbn [falsy_str].
  destruct (String.eqb_spec username ""); [discriminate|].
  destruct (String.eqb_spec password ""); [discriminate|].
  cbn [orb fst].
  intros Hc; exists username.
  split; [reflexivity|]; split; [assumption|].
  destruct (post net _) as [status cookies| |msg|msg]; try discriminate.
  - destruct (status =? 200); [|discriminate].
    destruct cookies as [|kv cookies]; injection Hc as <-.
    + split; [reflexivity|discriminate].
    + split; [exact (get_set (kv :: cookies) "session_id" _)
             |exact (@set_not_empty _ (kv :: cookies) "session_id" _)].
  - injection Hc as <-; split; [reflexivity|discriminate].
Qed.

(** X8. Whatever the network answers, a cookie that [get_cookie] (and
    so [refresh_cookie]) returns passes [validate_cookie]: it is not
    empty and its [session_id] is the identifier generated for the user
    name of the credentials, which is present and not empty. *)
Theorem returned_cookie_is_valid net (credentials old_cookie c : StrDict) :
  fst (AuthManager.refresh_cookie net credentials old_cookie) = Some c ->
  fst (AuthManager.get_cookie net credentials) = Some c /\
  AuthManager.validate_cookie (Some c) = true /\
  exists username,
    Py.get credentials "username" = Some username /\
    username <> "" /\
    Py.get c "session_id" = Some (session_id net username).
Proof.
  unfold AuthManager.refresh_cookie; intros Hc.
  destruct (get_cookie_session_id net credentials Hc)
    as (username & Hu & Hne & Hsid & Hnonempty).
  split; [exact Hc|].
  split.
  - unfold AuthManager.validate_cookie.
    destruct c as [|kv c]; [congruence|].
    now rewrite Hsid.
  - exists username; repeat split; assumption.
Qed.

(** What [authenticate] does on a new bot. *)
Lemma authenticate_spec net (credentials : StrDict) (batch_id : Z) :
  let ret :=
    PhoenixBot.authenticate (PhoenixBot.__init__ net credentials batch_id) in
  let ready :=
    negb (falsy_str (Py.get credentials "username")
          || falsy_str (Py.get credentials "password")) in
  fst ret
  = ready
    && match post net (login_url credentials) with
       | Response status_code _ => status_code =? 200
       | RequestException _ => true
       | Timeout | OtherException _ => false
       end /\
  PhoenixBot.authenticated (snd ret) = fst ret /\
  PhoenixBot.trace (snd ret)
  = (if ready then [EvPost (login_url credentials)] else []) /\
  (fst ret = true ->
   AuthManager.validate_cookie (PhoenixBot.cookie (snd ret)) = true /\
   PhoenixBot.SessionInfo.has_cookie (PhoenixBot.get_session_info (snd ret))
   = true) /\
  PhoenixBot.batch_id (snd ret) = batch_id.
Proof.
  cbv zeta; unfold PhoenixBot.authenticate, login_url.
  cbn [PhoenixBot.net PhoenixBot.credentials PhoenixBot.__init__].
  pose proof (get_cookie_session_id net credentials) as Hvalid.
  unfold AuthManager.get_cookie in *.
  destruct (falsy_str (Py.get credentials "username")
            || falsy_str (Py.get credentials "password")).
  { cbn; repeat split; discriminate. }
  cbn [negb andb].
  destruct (post net _) as [status cookies| |msg|msg].
  - destruct (status =? 200).
    + destruct cookies as [|kv cookies].
      * cbn; repeat split.
      * cbn [fst snd] in *.
        destruct (Hvalid _ eq_refl) as (u & _ & _ & Hsid & Hne).
        destruct (Py.set (kv :: cookies) "session_id" _) as [|kv' c'] eqn:Hset;
          [congruence|].
        cbn; repeat split.
        unfold AuthManager.validate_cookie.
        cbn in Hsid |- *; rewrite Hsid; reflexivity.
    + cbn; repeat split; discriminate.
  - cbn; repeat split; discriminate.
  - cbn; repeat split.
  - cbn; repeat split; discriminate.
Qed.

(** X9. [authenticate] on a new bot succeeds exactly when the
    credentials hold a user name and a password that are not empty and
    the login request either is answered with status 200 or raises a
    RequestException other than a timeout, in which case the bot is
    given a mock cookie.  It sends the login request only when user
    name and password are there, and nothing else; the flag
    [authenticated] is the value it returns; and when it succeeds the
    cookie of the bot passes [validate_cookie] and [get_session_info]
    reports a cookie. *)
Theorem authenticate_outcome net (credentials : StrDict) (batch_id : Z) :
  let ret :=
    PhoenixBot.authenticate (PhoenixBot.__init__ net credentials batch_id) in
  let ready :=
    negb (falsy_str (Py.get credentials "username")
          || falsy_str (Py.get credentials "password")) in
  fst ret
  = ready
    && match post net (login_url credentials) with
       | Response status_code _ => status_code =? 200
       | RequestException _ => true
       | Timeout | OtherException _ => false
       end /\
  PhoenixBot.authenticated (snd ret) = fst ret /\
  PhoenixBot.trace (snd ret)
  = (if ready then [EvPost (login_url credentials)] else []) /\
  (fst ret = true ->
   AuthManager.validate_cookie (PhoenixBot.cookie (snd ret)) = true /\
   PhoenixBot.SessionInfo.has_cookie (PhoenixBot.get_session_info (snd ret))
   = true).
Proof.
  cbv zeta.
  destruct (authenticate_spec net credentials batch_id)
    as (Hret & Hflag & Htrace & Hcookie & _).
  repeat split; try assumption; apply Hcookie; assumption.
Qed.

(** The loop of [extract_batch_data]: every PRI of the batch is queried
    once and goes either to the results or to the failed list. *)
Lemma extract_each_partition (query_template : option string)
    (pri_batch : list string) :
  forall results failed self,
    let ret := PhoenixBot.extract_each pri_batch query_template results failed
                                       self in
    exists new_results new_failed new_events,
      fst (fst ret) = results ++ new_results /\
      snd (fst ret) = failed ++ new_failed /\
      Permutation (map (@BatchResult.pri Data) new_results ++ new_failed)
                  pri_batch /\
      Forall (fun x => Py.truthy (BatchResult.data x) = true /\
                       BatchResult.bot_id x = PhoenixBot.batch_id self)
             new_results /\
      PhoenixBot.trace (snd ret) = PhoenixBot.trace self ++ new_events /\
      Forall (fun e => PhoenixBot.is_get e = true) new_events /\
      Py.len new_events = Py.len pri_batch /\
      PhoenixBot.batch_id (snd ret) = PhoenixBot.batch_id self /\
      PhoenixBot.authenticated (snd ret) = PhoenixBot.authenticated self.
Proof.
  induction pri_batch as [|pri pri_batch IH]; intros results failed self;
    cbv zeta.
  - exists [], [], []; cbn; rewrite !app_nil_r; repeat split; constructor.
  - cbn [PhoenixBot.extract_each].
    unfold PhoenixBot._query_phoenix.
    set (request := match query_template with
                    | Some template => _
                    | None => _
                    end).
    destruct request as [query_url params].
    set (self1 := PhoenixBot.emit [EvGet query_url params] self).
    set (answer := match get (PhoenixBot.net self) _ query_url params with
                   | Response status_code body => _
                   | _ => None
                   end).
    assert (Hfail : forall results' failed',
      let ret := PhoenixBot.extract_each pri_batch query_template results'
                   failed' self1 in
      results' = results -> failed' = failed ++ [pri] ->
      exists new_results new_failed new_events,
        fst (fst ret) = results ++ new_results /\
        snd (fst ret) = failed ++ new_failed /\
        Permutation (map (@BatchResult.pri Data) new_results ++ new_failed)
                    (pri :: pri_batch) /\
        Forall (fun x => Py.truthy (BatchResult.data x) = true /\
                         BatchResult.bot_id x = PhoenixBot.batch_id self)
               new_results /\
        PhoenixBot.trace (snd ret) = PhoenixBot.trace self ++ new_events /\
        Forall (fun e => PhoenixBot.is_get e = true) new_events /\
        Py.len new_events = Py.len (pri :: pri_batch) /\
        PhoenixBot.batch_id (snd ret) = PhoenixBot.batch_id self /\
        PhoenixBot.authenticated (snd ret) = PhoenixBot.authenticated self).
    { intros results' failed'; cbv zeta; intros -> ->.
      destruct (IH results (failed ++ [pri]) self1)
        as (nr & nf & ne & Hr & Hf & Hp & Hall & Htr & Hget & Hlen & Hid
            & Hauth).
      change (PhoenixBot.trace self1)
        with (PhoenixBot.trace self ++ [EvGet query_url params]) in Htr.
      change (PhoenixBot.batch_id self1) with (PhoenixBot.batch_id self)
        in Hall, Hid.
      change (PhoenixBot.authenticated self1)
        with (PhoenixBot.authenticated self) in Hauth.
      exists nr, (pri :: nf), (EvGet query_url params :: ne).
      rewrite Hr, Hf, Htr, <- !app_assoc.
      repeat split; try assumption; try reflexivity.
      - symmetry; apply Permutation_cons_app; now symmetry.
      - constructor; [reflexivity|assumption].
      - unfold Py.len in *; cbn [List.length]; lia. }
    clearbody answer; cbv beta iota.
    destruct answer as [d|]; [|apply Hfail; reflexivity].
    destruct (Py.truthy d) eqn:Htruthy; [|apply Hfail; reflexivity].
    destruct (IH (results ++ [BatchResult.mkExtracted pri d
                                (PhoenixBot.batch_id self1)])
                 failed self1)
      as (nr & nf & ne & Hr & Hf & Hp & Hall & Htr & Hget & Hlen & Hid
          & Hauth).
    change (PhoenixBot.trace self1)
      with (PhoenixBot.trace self ++ [EvGet query_url params]) in Htr.
    change (PhoenixBot.batch_id self1) with (PhoenixBot.batch_id self)
      in Hr, Hf, Hall, Htr, Hid, Hauth |- *.
    change (PhoenixBot.authenticated self1)
      with (PhoenixBot.authenticated self) in Hauth.
    exists (BatchResult.mkExtracted pri d (PhoenixBot.batch_id self) :: nr),
           nf, (EvGet query_url params :: ne).
    rewrite Hr, Hf, Htr, <- !app_assoc.
    repeat split; try assumption; try reflexivity.
    + cbn; now constructor.
    + constructor; [split; [exact Htruthy|reflexivity]|assumption].
    + constructor; [reflexivity|assumption].
    + unfold Py.len in *; cbn [List.length]; lia.
Qed.

(** What [extract_batch_data] does on any bot. *)
Lemma extract_batch_data_spec (pri_batch : list string)
    (query_template : option string) self :
  let ret := PhoenixBot.extract_batch_data pri_batch query_template self in
  Permutation
    (map (@BatchResult.pri Data) (BatchResult.results (fst ret))
     ++ BatchResult.failed (fst ret))
    pri_batch /\
  Forall (fun x => Py.truthy (BatchResult.data x) = true /\
                   BatchResult.bot_id x = PhoenixBot.batch_id self)
         (BatchResult.results (fst ret)) /\
  (exists new_events,
     PhoenixBot.trace (snd ret) = PhoenixBot.trace self ++ new_events /\
     Forall (fun e => PhoenixBot.is_get e = true) new_events /\
     Py.len new_events
     = if PhoenixBot.authenticated self then Py.len pri_batch else 0) /\
  PhoenixBot.batch_id (snd ret) = PhoenixBot.batch_id self /\
  PhoenixBot.authenticated (snd ret) = PhoenixBot.authenticated self.
Proof.
  cbv zeta; unfold PhoenixBot.extract_batch_data.
  destruct (PhoenixBot.authenticated self) eqn:Hauth; cbn [negb].
  - pose proof (extract_each_partition query_template pri_batch [] [] self)
      as Hloop.
    cbv zeta in Hloop.
    destruct (PhoenixBot.extract_each pri_batch query_template [] [] self)
      as [[results failed] self'].
    cbn [fst snd] in *.
    destruct Hloop as (nr & nf & ne & -> & -> & Hp & Hall & Htr & Hget & Hlen
                       & Hid & Hauth').
    cbn [app BatchResult.results BatchResult.failed].
    repeat split; try assumption; [|congruence].
    exists ne; repeat split; assumption.
  - cbn; repeat split; try reflexivity; try constructor; try assumption.
    exists []; rewrite app_nil_r; repeat split; constructor.
Qed.

(** The queries of the loop of [extract_batch_data]. *)
Lemma extract_each_queries (query_template : option string)
    (pri_batch : list string) :
  forall results failed self,
    let ret := PhoenixBot.extract_each pri_batch query_template results failed
                                       self in
    exists queries,
      PhoenixBot.trace (snd ret) = PhoenixBot.trace self ++ queries /\
      map queried queries = map Some pri_batch /\
      Forall (fun e => url_of e
                       = Some (endpoint (PhoenixBot.credentials self)
                                        query_template))
             queries.
Proof.
  induction pri_batch as [|pri pri_batch IH]; intros results failed self;
    cbv zeta.
  - exists []; cbn; rewrite app_nil_r; repeat split; constructor.
  - cbn [PhoenixBot.extract_each].
    unfold PhoenixBot._query_phoenix.
    assert (Hstep : forall url params results' failed',
              Py.get params "pri" = Some pri ->
              url = endpoint (PhoenixBot.credentials self) query_template ->
              let ret :=
                PhoenixBot.extract_each pri_batch query_template results'
                  failed' (PhoenixBot.emit [EvGet url params] self) in
              exists queries,
                PhoenixBot.trace (snd ret) = PhoenixBot.trace self ++ queries /\
                map queried queries = map Some (pri :: pri_batch) /\
                Forall (fun e => url_of e
                                 = Some (endpoint (PhoenixBot.credentials self)
                                                  query_template))
                       queries).
    { intros url params results' failed' Hpri Hurl; cbv zeta.
      destruct (IH results' failed' (PhoenixBot.emit [EvGet url params] self))
        as (queries & Htrace & Hqueried & Hurls).
      exists (EvGet url params :: queries).
      rewrite Htrace; cbn [PhoenixBot.trace PhoenixBot.emit map queried].
      rewrite <- app_assoc, Hpri, Hqueried.
      split; [reflexivity|]; split; [reflexivity|].
      constructor; [cbn; now rewrite Hurl|exact Hurls]. }
    destruct query_template as [template|];
      [destruct (String.eqb template "") eqn:Htemplate|];
      cbv beta iota;
      match goal with
      | |- context [get (PhoenixBot.net self) ?k ?url ?params] =>
          destruct (get (PhoenixBot.net self) k url params)
            as [status body| |msg|msg]
      end;
      try (destruct (status =? 200); [destruct body as [d|]|]);
      try (destruct (Py.truthy d));
      apply Hstep;
      solve [reflexivity
            |unfold endpoint; cbn; rewrite ?Htemplate; reflexivity].
Qed.

(** X27. The queries of [extract_batch_data] on an authenticated bot
    follow the batch: the requests it adds ask for the PRIs of the
    batch, each once and in the order of the batch, whatever the
    answers are, and all go to one address, base_url + '/query' when a
    template is given and base_url + '/api/data' when none is, a
    template that is the empty string counting as none. *)
Theorem queries_follow_batch (pri_batch : list string)
    (query_template : option string) self :
  PhoenixBot.authenticated self = true ->
  let ret := PhoenixBot.extract_batch_data pri_batch query_template self in
  exists queries,
    PhoenixBot.trace (snd ret) = PhoenixBot.trace self ++ queries /\
    map queried queries = map Some pri_batch /\
    Forall (fun e => url_of e
                     = Some (endpoint (PhoenixBot.credentials self)
                                      query_template))
           queries.
Proof.
  intros Hauth; cbv zeta; unfold PhoenixBot.extract_batch_data.
  rewrite Hauth; cbn [negb].
  pose proof (extract_each_queries query_template pri_batch [] [] self)
    as Hqueries.
  cbv zeta in Hqueries.
  destruct (PhoenixBot.extract_each pri_batch query_template [] [] self)
    as [[results failed] self'].
  exact Hqueries.
Qed.

Lemma partition_lengths (results : list (BatchResult.Extracted Data))
    (failed batch : list string) :
  Permutation (map (@BatchResult.pri Data) results ++ failed) batch ->
  Py.len results + Py.len failed = Py.len batch.
Proof.
  intros Hp; apply Permutation_length in Hp.
  rewrite length_app, length_map in Hp; unfold Py.len; lia.
Qed.

(** X10. [extract_batch_data] on an authenticated bot sends one query
    for each PRI of the batch and nothing else, and puts every PRI
    either in the results or in the failed list: the PRIs of the
    results together with the failed ones are the batch, and their
    numbers add up to its length; every result has data that is true
    and the batch_id of the bot as bot_id.  On a bot that is not
    authenticated it sends nothing and fails the whole batch. *)
Theorem extract_batch_data_accounts (pri_batch : list string)
    (query_template : option string) self :
  let ret := PhoenixBot.extract_batch_data pri_batch query_template self in
  Permutation
    (map (@BatchResult.pri Data) (BatchResult.results (fst ret))
     ++ BatchResult.failed (fst ret))
    pri_batch /\
  Py.len (BatchResult.results (fst ret)) + Py.len (BatchResult.failed (fst ret))
  = Py.len pri_batch /\
  Forall (fun x => Py.truthy (BatchResult.data x) = true /\
                   BatchResult.bot_id x = PhoenixBot.batch_id self)
         (BatchResult.results (fst ret)) /\
  (exists new_events,
     PhoenixBot.trace (snd ret) = PhoenixBot.trace self ++ new_events /\
     Forall (fun e => PhoenixBot.is_get e = true) new_events /\
     Py.len new_events
     = if PhoenixBot.authenticated self then Py.len pri_batch else 0) /\
  (PhoenixBot.authenticated self = false ->
   fst ret = BatchResult.mk [] pri_batch /\ snd ret = self).
Proof.
  cbv zeta.
  destruct (extract_batch_data_spec pri_batch query_template self)
    as (Hp & Hall & Hev & _).
  split; [exact Hp|].
  split; [apply partition_lengths; exact Hp|].
  split; [exact Hall|].
  split; [exact Hev|].
  intros Hno; unfold PhoenixBot.extract_batch_data; rewrite Hno; split;
    reflexivity.
Qed.

End Facts.

(** ** The conductor *)

Lemma fold_left_extend {A B C : Type} (R : A -> list B) (F : A -> list C)
    (l : list A) :
  forall acc,
    fold_left (fun acc f => (fst acc ++ R f, snd acc ++ F f)) l acc
    = (fst acc ++ flat_map R l, snd acc ++ flat_map F l).
Proof.
  induction l as [|x l IH]; intros [a b]; cbn.
  - now rewrite !app_nil_r.
  - rewrite IH; cbn; now rewrite <- !app_assoc.
Qed.

Lemma flat_map_both {A B C : Type} (g : B -> C) (R : A -> list B)
    (F : A -> list C) (l : list A) :
  Permutation (map g (flat_map R l) ++ flat_map F l)
              (flat_map (fun f => map g (R f) ++ F f) l).
Proof.
  induction l as [|x l IH]; cbn; [reflexivity|].
  rewrite map_app, <- !app_assoc.
  apply Permutation_app_head.
  rewrite <- IH, !app_assoc.
  apply Permutation_app_tail, Permutation_app_comm.
Qed.

Lemma flat_map_pointwise {A B : Type} (f g : A -> list B) (l : list A) :
  (forall x, In x l -> Permutation (f x) (g x)) ->
  Permutation (flat_map f l) (flat_map g l).
Proof.
  induction l as [|x l IH]; cbn; intros Hfg; [reflexivity|].
  apply Permutation_app; [apply Hfg; now left|].
  apply IH; intros y Hy; apply Hfg; now right.
Qed.

Lemma flat_map_of_map {A B C : Type} (f : B -> list C) (g : A -> B)
    (l : list A) :
  flat_map f (map g l) = flat_map (fun x => f (g x)) l.
Proof. induction l as [|x l IH]; cbn; [reflexivity|now rewrite IH]. Qed.

Lemma enumerate_from_snd {A : Type} (l : list A) :
  forall k, map snd (BotConductor.enumerate_from k l) = l.
Proof. induction l as [|x l IH]; intros k; cbn; [reflexivity|now rewrite IH]. Qed.

Lemma enumerate_from_fst {A : Type} (l : list A) :
  forall k,
    map fst (BotConductor.enumerate_from k l)
    = map (fun i => k + Z.of_nat i) (seq 0 (List.length l)).
Proof.
  induction l as [|x l IH]; intros k; cbn [BotConductor.enumerate_from map
                                            List.length seq];
    [reflexivity|].
  rewrite IH, <- seq_shift, map_map.
  f_equal; [cbn; lia|].
  apply map_ext; intros i; lia.
Qed.

Lemma enumerate_from_In {A : Type} (l : list A) :
  forall k i x,
    In (i, x) (BotConductor.enumerate_from k l) ->
    k <= i /\ nth_error l (Z.to_nat (i - k)) = Some x.
Proof.
  induction l as [|y l IH]; intros k i x; cbn [BotConductor.enumerate_from];
    [intros []|].
  intros [Heq|Hin].
  - injection Heq as <- <-.
    split; [lia|now rewrite Z.sub_diag].
  - destruct (IH _ _ _ Hin) as (Hle & Hnth).
    split; [lia|].
    replace (Z.to_nat (i - k)) with (S (Z.to_nat (i - (k + 1)))) by lia.
    exact Hnth.
Qed.

(** The batches of a non-empty list are the list again. *)
Lemma concat_batches (pri_list : list string) (b : Z) :
  0 < b ->
  concat (map (batch_at pri_list b) (Py.range (ceil_div (Py.len pri_list) b)))
  = pri_list.
Proof.
  intros Hb.
  set (L := Py.len pri_list).
  pose proof (len_nonneg pri_list) as HL; fold L in HL.
  pose proof (ConductorFacts.ceil_div_bounds L Hb) as Hc.
  destruct (Z.eq_dec (ceil_div L b) 0) as [Hz|Hz].
  - rewrite Hz in *; cbn.
    destruct pri_list; [reflexivity|].
    unfold L, Py.len in Hc; cbn [List.length] in Hc; lia.
  - assert (Hn : 0 <= ceil_div L b) by nia.
    assert (Hk : Z.of_nat (Z.to_nat (ceil_div L b - 1)) = ceil_div L b - 1)
      by lia.
    replace (ceil_div L b) with (Z.of_nat (S (Z.to_nat (ceil_div L b - 1))))
      by lia.
    rewrite range_S, map_app, concat_app.
    rewrite ConductorFacts.concat_full_batches by (rewrite ?Hk; fold L; lia).
    cbn [map concat]; rewrite app_nil_r; unfold batch_at.
    rewrite Hk, slice_to_end by (fold L; lia).
    apply firstn_skipn.
Qed.

Section Conductor.
Context {Data : Type} `{Py.Object Data}.
Implicit Types (net : Network Data) (self : BotConductor.t).
Implicit Types (run : BotConductor.Run Data).

(** What [_process_batch] does, for every network. *)
Lemma process_batch_spec net (batch : list string) (batch_idx : Z)
    (phoenix_credentials : StrDict) (query_template : option string) :
  let ret := BotConductor._process_batch net batch batch_idx
               phoenix_credentials query_template in
  let ready :=
    negb (falsy_str (Py.get phoenix_credentials "username")
          || falsy_str (Py.get phoenix_credentials "password")) in
  Permutation
    (map (@BatchResult.pri Data) (BatchResult.results (fst ret))
     ++ BatchResult.failed (fst ret))
    batch /\
  Forall (fun x => Py.truthy (BatchResult.data x) = true /\
                   BatchResult.bot_id x = batch_idx)
         (BatchResult.results (fst ret)) /\
  PhoenixBot.batch_id (snd ret) = batch_idx /\
  exists queries,
    PhoenixBot.trace (snd ret)
    = (if ready then [EvPost (login_url phoenix_credentials)] else [])
      ++ queries ++ [EvClose] /\
    Forall (fun e => PhoenixBot.is_get e = true) queries /\
    Py.len queries
    = if PhoenixBot.authenticated (snd ret) then Py.len batch else 0.
Proof.
  cbv zeta; unfold BotConductor._process_batch.
  destruct (authenticate_spec net phoenix_credentials batch_idx)
    as (_ & Hflag & Htrace & _ & Hid).
  destruct (PhoenixBot.authenticate
              (PhoenixBot.__init__ net phoenix_credentials batch_idx))
    as [ok bot].
  cbn [fst snd] in Hflag, Htrace, Hid.
  destruct ok; cbn [negb].
  - destruct (extract_batch_data_spec batch query_template bot)
      as (Hp & Hall & (queries & Hq & Hget & Hlen) & Hid' & Hauth').
    destruct (PhoenixBot.extract_batch_data batch query_template bot)
      as [batch_results bot'].
    cbn [fst snd] in *.
    rewrite Hid in Hall.
    split; [exact Hp|]; split; [exact Hall|].
    split; [change (PhoenixBot.batch_id bot' = batch_idx); congruence|].
    exists queries.
    change (PhoenixBot.trace (PhoenixBot.cleanup bot'))
      with (PhoenixBot.trace bot' ++ [EvClose]).
    change (PhoenixBot.authenticated (PhoenixBot.cleanup bot'))
      with (PhoenixBot.authenticated bot').
    rewrite Hflag in Hlen.
    rewrite Hq, Htrace, <- app_assoc, Hauth', Hflag.
    split; [reflexivity|]; split; [exact Hget|exact Hlen].
  - cbn [fst snd BatchResult.results BatchResult.failed map app].
    split; [reflexivity|]; split; [constructor|]; split; [exact Hid|].
    exists [].
    change (PhoenixBot.trace (PhoenixBot.cleanup bot))
      with (PhoenixBot.trace bot ++ [EvClose]).
    change (PhoenixBot.authenticated (PhoenixBot.cleanup bot))
      with (PhoenixBot.authenticated bot).
    rewrite Htrace, Hflag.
    split; [reflexivity|]; split; [constructor|reflexivity].
Qed.

(** X11. [_process_batch], whatever the network answers: every PRI of
    the batch comes back, either in the results or in the failed list;
    every result carries data that is true and the index of the batch
    as bot_id; and the bot, made for this batch, has sent the login
    request if the credentials hold a user name and a password, one
    query for each PRI if it has been authenticated and none if not,
    and has closed its session last, once. *)
Theorem process_batch_accounts net (batch : list string) (batch_idx : Z)
    (phoenix_credentials : StrDict) (query_template : option string) :
  let ret := BotConductor._process_batch net batch batch_idx
               phoenix_credentials query_template in
  let ready :=
    negb (falsy_str (Py.get phoenix_credentials "username")
          || falsy_str (Py.get phoenix_credentials "password")) in
  Permutation
    (map (@BatchResult.pri Data) (BatchResult.results (fst ret))
     ++ BatchResult.failed (fst ret))
    batch /\
  Py.len (BatchResult.results (fst ret)) + Py.len (BatchResult.failed (fst ret))
  = Py.len batch /\
  Forall (fun x => Py.truthy (BatchResult.data x) = true /\
                   BatchResult.bot_id x = batch_idx)
         (BatchResult.results (fst ret)) /\
  PhoenixBot.batch_id (snd ret) = batch_idx /\
  exists queries,
    PhoenixBot.trace (snd ret)
    = (if ready then [EvPost (login_url phoenix_credentials)] else [])
      ++ queries ++ [EvClose] /\
    Forall (fun e => PhoenixBot.is_get e = true) queries /\
    Py.len queries
    = if PhoenixBot.authenticated (snd ret) then Py.len batch else 0.
Proof.
  cbv zeta.
  destruct (process_batch_spec net batch batch_idx phoenix_credentials
              query_template) as (Hp & Hall & Hid & Htrace).
  split; [exact Hp|].
  split; [apply partition_lengths; exact Hp|].
  split; [exact Hall|]; split; [exact Hid|exact Htrace].
Qed.

(** [divide_pris] with a negative batch size gives no batch. *)
Lemma divide_pris_negative (pri_list : list string) self :
  BotConductor.batch_size self < 0 ->
  BotConductor.divide_pris pri_list self = inr [].
Proof.
  intros Hb; unfold BotConductor.divide_pris, Py.range3.
  destruct pri_list as [|pri pri_list]; [reflexivity|].
  destruct (Z.eqb_spec (BotConductor.batch_size self) 0); [lia|].
  destruct (Z.ltb_spec (BotConductor.batch_size self) 0); [|lia].
  pose proof (len_nonneg (pri :: pri_list)).
  destruct (Z.ltb_spec (Py.len (pri :: pri_list)) 0); [lia|].
  reflexivity.
Qed.

(** [divide_pris] with the batch size 0 raises, on a list that is not
    empty. *)
Lemma divide_pris_zero (pri_list : list string) self :
  BotConductor.batch_size self = 0 -> pri_list <> [] ->
  BotConductor.divide_pris pri_list self
  = inl (ValueError "range() arg 3 must not be zero").
Proof.
  intros Hb Hne; unfold BotConductor.divide_pris, Py.range3.
  destruct pri_list as [|pri pri_list]; [congruence|].
  now rewrite Hb.
Qed.

(** What [extract_data] does with batches and workers. *)
Lemma extract_data_spec run (pri_list : list string)
    (phoenix_credentials : StrDict) (query_template : option string) self :
  0 < BotConductor.batch_size self ->
  0 < BotConductor.max_workers self ->
  pri_list <> [] ->
  let B := BotConductor.batch_size self in
  let n := ceil_div (Py.len pri_list) B in
  exists results failed_pris bots,
    BotConductor.extract_data run pri_list phoenix_credentials query_template
                              self
    = inr (BotConductor.Report.Summary
             "completed" (Py.len pri_list) (Py.len results)
             (Py.len failed_pris) results failed_pris,
           bots) /\
    Permutation (map (@BatchResult.pri Data) results ++ failed_pris)
                pri_list /\
    Forall (fun x => Py.truthy (BatchResult.data x) = true /\
                     0 <= BatchResult.bot_id x < n /\
                     In (BatchResult.pri x)
                        (batch_at pri_list B (BatchResult.bot_id x)))
           results /\
    map (@PhoenixBot.batch_id Data) bots = Py.range n /\
    Forall (fun bot =>
              exists requests,
                PhoenixBot.trace bot = requests ++ [EvClose] /\
                ~ In EvClose requests)
           bots.
Proof.
  intros Hb Hw Hne; cbv zeta.
  set (B := BotConductor.batch_size self) in *.
  set (n := ceil_div (Py.len pri_list) B).
  pose proof (len_nonneg pri_list) as HL.
  pose proof (ConductorFacts.ceil_div_bounds (Py.len pri_list) Hb) as Hc.
  fold n in Hc.
  assert (Hn : 1 <= n).
  { destruct pri_list as [|pri pri_list']; [congruence|].
    unfold Py.len in Hc |- *; cbn [List.length] in Hc; nia. }
  unfold BotConductor.extract_data.
  rewrite ConductorFacts.divide_pris_batches by exact Hb.
  fold B n.
  set (batches := map (batch_at pri_list B) (Py.range n)).
  assert (Hlen : List.length batches = Z.to_nat n).
  { unfold batches, Py.range; now rewrite !length_map, length_seq. }
  assert (Hshape : exists batch0 batches', batches = batch0 :: batches').
  { destruct batches as [|batch0 batches']; [cbn in Hlen; lia|].
    now exists batch0, batches'. }
  destruct Hshape as (batch0 & batches' & Hshape).
  rewrite Hshape; cbv iota; rewrite <- Hshape.
  destruct (Z.leb_spec (BotConductor.max_workers self) 0); [lia|].
  set (job_future := fun job : Z * list string =>
         (fst job,
          BotConductor._process_batch (BotConductor.observed run (fst job))
            (snd job) (fst job) phoenix_credentials query_template)).
  set (futures := map job_future (BotConductor.enumerate_from 0 batches)).
  set (done := as_completed _ futures).
  rewrite fold_left_extend; cbn [fst snd app].
  assert (Hdone : Permutation done futures) by apply as_completed_perm.
  assert (Hjob : forall job,
            In job (BotConductor.enumerate_from 0 batches) ->
            0 <= fst job < n /\ snd job = batch_at pri_list B (fst job)).
  { intros [i batch] Hin.
    apply enumerate_from_In in Hin; destruct Hin as (Hi & Hnth).
    rewrite Z.sub_0_r in Hnth; cbn [fst snd].
    assert (Hlt : (Z.to_nat i < List.length batches)%nat)
      by (apply nth_error_Some; congruence).
    rewrite Hlen in Hlt.
    unfold batches in Hnth.
    rewrite nth_error_map, nth_error_range in Hnth by lia.
    injection Hnth as <-.
    split; [lia|reflexivity]. }
  eexists _, _, _; split; [reflexivity|].
  split; [|split; [|split]].
  - rewrite flat_map_both, (Permutation_flat_map _ Hdone).
    unfold futures; rewrite flat_map_of_map.
    rewrite (@flat_map_pointwise _ _ _ (fun job => snd job)).
    + rewrite flat_map_concat_map, enumerate_from_snd.
      unfold batches, n; rewrite concat_batches by exact Hb; reflexivity.
    + intros job _; unfold job_future; cbn [fst snd].
      apply process_batch_spec.
  - apply Forall_forall; intros x Hx.
    apply in_flat_map in Hx; destruct Hx as (f & Hf & Hx).
    apply (Permutation_in _ Hdone) in Hf.
    unfold futures in Hf; apply in_map_iff in Hf.
    destruct Hf as (job & <- & Hin).
    destruct (Hjob job Hin) as (Hrange & Hbatch).
    unfold job_future in Hx; cbn [fst snd] in Hx.
    destruct (process_batch_spec (BotConductor.observed run (fst job))
                (snd job) (fst job) phoenix_credentials query_template)
      as (Hp & Hall & _).
    rewrite Forall_forall in Hall.
    destruct (Hall x Hx) as (Htruthy & Hid).
    rewrite Hid; split; [exact Htruthy|]; split; [exact Hrange|].
    rewrite <- Hbatch.
    apply (Permutation_in _ Hp), in_or_app; left.
    now apply in_map.
  - unfold futures; rewrite !map_map.
    rewrite (map_ext_in _ fst).
    + rewrite enumerate_from_fst, Hlen; reflexivity.
    + intros job _; unfold job_future; cbn [fst snd].
      apply process_batch_spec.
  - apply Forall_forall; intros bot Hbot.
    unfold futures in Hbot; rewrite map_map in Hbot.
    apply in_map_iff in Hbot; destruct Hbot as (job & <- & _).
    unfold job_future; cbn [fst snd].
    destruct (process_batch_spec (BotConductor.observed run (fst job))
                (snd job) (fst job) phoenix_credentials query_template)
      as (_ & _ & _ & queries & Htrace & Hget & _).
    eexists; split; [rewrite Htrace, app_assoc; reflexivity|].
    intros Hin; apply in_app_or in Hin; destruct Hin as [Hin|Hin].
    + destruct (negb _); [destruct Hin as [Hin|[]]; discriminate|exact Hin].
    + rewrite Forall_forall in Hget; apply Hget in Hin; discriminate.
Qed.

(** X12. [extract_data] with a batch size and a number of workers that
    are positive, on a list of PRIs that is not empty, for every
    network and every order in which the batches finish: the status is
    completed, total_pris is the length of the list, and every PRI of
    the list comes back once, in the results or among failed_pris, so
    that successful + failed = total_pris; every result carries data
    that is true and, as bot_id, the index of the batch that holds its
    PRI; one bot is made for each of the ceil(L / B) batches, and each
    has closed its session last, once. *)
Theorem extract_data_summary run (pri_list : list string)
    (phoenix_credentials : StrDict) (query_template : option string) self :
  0 < BotConductor.batch_size self ->
  0 < BotConductor.max_workers self ->
  pri_list <> [] ->
  let B := BotConductor.batch_size self in
  let n := ceil_div (Py.len pri_list) B in
  exists results failed_pris bots,
    BotConductor.extract_data run pri_list phoenix_credentials query_template
                              self
    = inr (BotConductor.Report.Summary
             "completed" (Py.len pri_list) (Py.len results)
             (Py.len failed_pris) results failed_pris,
           bots) /\
    Permutation (map (@BatchResult.pri Data) results ++ failed_pris)
                pri_list /\
    Py.len results + Py.len failed_pris = Py.len pri_list /\
    Forall (fun x => Py.truthy (BatchResult.data x) = true /\
                     0 <= BatchResult.bot_id x < n /\
                     In (BatchResult.pri x)
                        (batch_at pri_list B (BatchResult.bot_id x)))
           results /\
    map (@PhoenixBot.batch_id Data) bots = Py.range n /\
    Forall (fun bot =>
              exists requests,
                PhoenixBot.trace bot = requests ++ [EvClose] /\
                ~ In EvClose requests)
           bots.
Proof.
  intros Hb Hw Hne; cbv zeta.
  destruct (@extract_data_spec run pri_list phoenix_credentials
              query_template self Hb Hw Hne)
    as (results & failed_pris & bots & Hret & Hp & Hall & Hbots & Hclose).
  exists results, failed_pris, bots.
  split; [exact Hret|]; split; [exact Hp|].
  split; [apply partition_lengths; exact Hp|].
  split; [exact Hall|]; split; [exact Hbots|exact Hclose].
Qed.

(** The executor refuses a number of workers that is not positive. *)
Lemma extract_data_bad_workers run (pri_list : list string)
    (phoenix_credentials : StrDict) (query_template : option string) self :
  pri_list <> [] ->
  0 < BotConductor.batch_size self ->
  BotConductor.max_workers self <= 0 ->
  BotConductor.extract_data run pri_list phoenix_credentials query_template
                            self
  = inl (ValueError "max_workers must be greater than 0").
Proof.
  intros Hne Hb Hw; unfold BotConductor.extract_data.
  rewrite ConductorFacts.divide_pris_batches by exact Hb.
  pose proof (ConductorFacts.ceil_div_bounds (Py.len pri_list) Hb) as Hc.
  set (n := ceil_div (Py.len pri_list) (BotConductor.batch_size self)) in *.
  assert (Hn : 1 <= n).
  { destruct pri_list as [|pri pri_list']; [congruence|].
    unfold Py.len in Hc; cbn [List.length] in Hc; nia. }
  replace n with (Z.of_nat (S (Z.to_nat (n - 1)))) by lia.
  unfold Py.range; rewrite Nat2Z.id; cbn [seq map].
  destruct (Z.leb_spec (BotConductor.max_workers self) 0); [|lia].
  reflexivity.
Qed.

(** X13. [extract_data] on a list of PRIs that is not empty, with a
    configuration that the constructor accepts but the extraction does
    not serve: the batch size 0 raises the ValueError of [range]; a
    negative batch size gives no batch, so the call answers as for an
    empty list, with no result and no failed PRI, and makes no bot;
    and with a positive batch size, a number of workers that is not
    positive raises the ValueError of the executor before any bot is
    made. *)
Theorem extract_data_bad_configuration run (pri_list : list string)
    (phoenix_credentials : StrDict) (query_template : option string) self :
  pri_list <> [] ->
  let ret := BotConductor.extract_data run pri_list phoenix_credentials
               query_template self in
  (BotConductor.batch_size self = 0 ->
   ret = inl (ValueError "range() arg 3 must not be zero")) /\
  (BotConductor.batch_size self < 0 ->
   ret = inr (BotConductor.Report.Early "error" "No PRIs to process" [] [],
              [])) /\
  (0 < BotConductor.batch_size self ->
   BotConductor.max_workers self <= 0 ->
   ret = inl (ValueError "max_workers must be greater than 0")).
Proof.
  intros Hne; cbv zeta; unfold BotConductor.extract_data.
  split; [|split].
  - intros Hb; now rewrite divide_pris_zero.
  - intros Hb; now rewrite divide_pris_negative.
  - intros Hb Hw.
    rewrite ConductorFacts.divide_pris_batches by exact Hb.
    pose proof (ConductorFacts.ceil_div_bounds (Py.len pri_list) Hb) as Hc.
    set (n := ceil_div (Py.len pri_list) (BotConductor.batch_size self)) in *.
    assert (Hn : 1 <= n).
    { destruct pri_list as [|pri pri_list']; [congruence|].
      unfold Py.len in Hc; cbn [List.length] in Hc; nia. }
    replace n with (Z.of_nat (S (Z.to_nat (n - 1)))) by lia.
    unfold Py.range; rewrite Nat2Z.id; cbn [seq map].
    destruct (Z.leb_spec (BotConductor.max_workers self) 0); [|lia].
    reflexivity.
Qed.


(** The two dictionaries that [extract_data] returns. *)
Lemma extract_data_cases run (pri_list : list string)
    (phoenix_credentials : StrDict) (query_template : option string) self
    (report : BotConductor.Report.t Data) (bots : list (PhoenixBot.t Data)) :
  BotConductor.extract_data run pri_list phoenix_credentials query_template
                            self
  = inr (report, bots) ->
  report = BotConductor.Report.Early "error" "No PRIs to process" [] [] \/
  exists results failed_pris,
    report = BotConductor.Report.Summary
               "completed" (Py.len pri_list) (Py.len results)
               (Py.len failed_pris) results failed_pris /\
    Permutation (map (@BatchResult.pri Data) results ++ failed_pris)
                pri_list /\
    Forall (fun x => Py.truthy (BatchResult.data x) = true) results.
Proof.
  intros Hret.
  destruct pri_list as [|pri pri_list'].
  { cbn in Hret; injection Hret as <- <-; now left. }
  set (pri_list := pri :: pri_list') in *.
  assert (Hne : pri_list <> []) by discriminate.
  destruct (Z.lt_trichotomy (BotConductor.batch_size self) 0)
    as [Hb|[Hb|Hb]].
  - unfold BotConductor.extract_data in Hret.
    rewrite divide_pris_negative in Hret by exact Hb.
    injection Hret as <- <-; now left.
  - unfold BotConductor.extract_data in Hret.
    rewrite divide_pris_zero in Hret by assumption.
    discriminate.
  - destruct (Z_lt_le_dec 0 (BotConductor.max_workers self)) as [Hw|Hw].
    + destruct (@extract_data_spec run pri_list phoenix_credentials
                  query_template self Hb Hw Hne)
        as (results & failed_pris & bots' & Hret' & Hp & Hall & _).
      rewrite Hret' in Hret; injection Hret as <- <-.
      right; exists results, failed_pris.
      split; [reflexivity|]; split; [exact Hp|].
      apply Forall_forall; intros x Hx.
      rewrite Forall_forall in Hall; apply (Hall x Hx).
    + rewrite (@extract_data_bad_workers run pri_list phoenix_credentials
                 query_template self Hne Hb Hw) in Hret.
      discriminate.
Qed.

End Conductor.

(** ** The order of the results *)

Lemma pick_none {A : Type} (l : list A) :
  pick (repeat false (List.length l)) l = [] /\
  pick (map negb (repeat false (List.length l))) l = l.
Proof.
  induction l as [|x l (IH1 & IH2)]; [split; reflexivity|].
  cbn; rewrite IH1, IH2; split; reflexivity.
Qed.

Lemma enumerate_from_range {A : Type} (g : Z -> A) (m : nat) :
  forall k : nat,
    BotConductor.enumerate_from (Z.of_nat k)
      (map g (map Z.of_nat (seq k m)))
    = map (fun i => (i, g i)) (map Z.of_nat (seq k m)).
Proof.
  induction m as [|m IH]; intros k; [reflexivity|].
  cbn [seq map BotConductor.enumerate_from].
  replace (Z.of_nat k + 1) with (Z.of_nat (S k)) by lia.
  now rewrite IH.
Qed.

Section Order.
Context {Data : Type} `{Py.Object Data}.
Implicit Types (net : Network Data) (self : BotConductor.t).
Implicit Types (run : BotConductor.Run Data).

(** The loop of [extract_batch_data] sorts the batch into results and
    failed PRIs without changing the order. *)
Lemma extract_each_order (query_template : option string)
    (pri_batch : list string) :
  forall results failed (bot : PhoenixBot.t Data),
    let ret := PhoenixBot.extract_each pri_batch query_template results failed
                                       bot in
    exists mask new_results,
      List.length mask = List.length pri_batch /\
      fst (fst ret) = results ++ new_results /\
      map (@BatchResult.pri Data) new_results = pick mask pri_batch /\
      snd (fst ret) = failed ++ pick (map negb mask) pri_batch.
Proof.
  induction pri_batch as [|pri pri_batch IH]; intros results failed bot;
    cbv zeta.
  - exists [], []; cbn; rewrite !app_nil_r; repeat split.
  - cbn [PhoenixBot.extract_each].
    destruct (PhoenixBot._query_phoenix pri query_template bot)
      as [answer bot1].
    assert (Hfail :
      let ret := PhoenixBot.extract_each pri_batch query_template results
                   (failed ++ [pri]) bot1 in
      exists mask new_results,
        List.length mask = List.length (pri :: pri_batch) /\
        fst (fst ret) = results ++ new_results /\
        map (@BatchResult.pri Data) new_results
        = pick mask (pri :: pri_batch) /\
        snd (fst ret) = failed ++ pick (map negb mask) (pri :: pri_batch)).
    { cbv zeta.
      destruct (IH results (failed ++ [pri]) bot1)
        as (mask & new_results & Hlen & Hr & Hp & Hf).
      exists (false :: mask), new_results.
      cbn [List.length map negb pick]; rewrite Hlen, Hr, Hp, Hf, <- app_assoc.
      repeat split. }
    destruct answer as [d|]; [|exact Hfail].
    destruct (Py.truthy d); [|exact Hfail].
    destruct (IH (results ++ [BatchResult.mkExtracted pri d
                                (PhoenixBot.batch_id bot1)])
                 failed bot1)
      as (mask & new_results & Hlen & Hr & Hp & Hf).
    exists (true :: mask),
           (BatchResult.mkExtracted pri d (PhoenixBot.batch_id bot1)
            :: new_results).
    cbn [List.length map negb pick BatchResult.pri].
    rewrite Hlen, Hr, Hp, Hf, <- app_assoc.
    repeat split.
Qed.

Lemma process_batch_order net (batch : list string) (batch_idx : Z)
    (phoenix_credentials : StrDict) (query_template : option string) :
  let ret := BotConductor._process_batch net batch batch_idx
               phoenix_credentials query_template in
  exists mask,
    List.length mask = List.length batch /\
    map (@BatchResult.pri Data) (BatchResult.results (fst ret))
    = pick mask batch /\
    BatchResult.failed (fst ret) = pick (map negb mask) batch.
Proof.
  cbv zeta; unfold BotConductor._process_batch.
  destruct (PhoenixBot.authenticate
              (PhoenixBot.__init__ net phoenix_credentials batch_idx))
    as [ok bot].
  assert (Hnone : exists mask,
            List.length mask = List.length batch /\
            map (@BatchResult.pri Data) [] = pick mask batch /\
            batch = pick (map negb mask) batch).
  { exists (repeat false (List.length batch)).
    destruct (pick_none batch) as (Hnothing & Hall).
    rewrite repeat_length, Hnothing, Hall; repeat split. }
  destruct ok; cbn [negb fst]; [|exact Hnone].
  unfold PhoenixBot.extract_batch_data.
  destruct (PhoenixBot.authenticated bot); cbn [negb fst]; [|exact Hnone].
  pose proof (extract_each_order query_template batch [] [] bot) as Hloop.
  cbv zeta in Hloop.
  destruct (PhoenixBot.extract_each batch query_template [] [] bot)
    as [[results failed] bot'].
  cbn [fst snd app] in *.
  destruct Hloop as (mask & new_results & Hlen & -> & Hp & ->).
  exists mask; repeat split; assumption.
Qed.

Lemma of_batch_group (k i : Z) (rs : list (BatchResult.Extracted Data)) :
  Forall (fun x => BatchResult.bot_id x = i) rs ->
  of_batch k rs = if i =? k then rs else [].
Proof.
  unfold of_batch; induction 1 as [|x rs Hx _ IH]; cbn.
  - now destruct (i =? k).
  - rewrite IH, Hx; now destruct (i =? k).
Qed.

(** The results of one batch do not depend on the order in which the
    batches finish. *)
Lemma of_batch_perm {F : Type} (key : F -> Z)
    (c : F -> list (BatchResult.Extracted Data)) (k : Z) (l l' : list F) :
  Permutation l l' ->
  NoDup (map key l) ->
  (forall f, In f l -> Forall (fun x => BatchResult.bot_id x = key f) (c f)) ->
  of_batch k (flat_map c l) = of_batch k (flat_map c l').
Proof.
  induction 1 as [|x l l' Hp IH|x y l|l l' l'' Hp1 IH1 Hp2 IH2];
    intros Hnd Hgroup.
  - reflexivity.
  - cbn [flat_map]; unfold of_batch in *; rewrite !filter_app.
    f_equal; apply IH.
    + now inversion Hnd.
    + intros f Hf; apply Hgroup; now right.
  - cbn [flat_map]; unfold of_batch; rewrite !filter_app.
    fold (of_batch k (c x)) (of_batch k (c y)).
    rewrite (@of_batch_group k (key x) (c x))
      by (apply Hgroup; right; now left).
    rewrite (@of_batch_group k (key y) (c y)) by (apply Hgroup; now left).
    assert (key y <> key x).
    { cbn in Hnd; inversion Hnd as [|? ? Hnotin _]; subst.
      intros Heq; apply Hnotin; left; auto. }
    destruct (Z.eqb_spec (key x) k), (Z.eqb_spec (key y) k);
      try congruence; cbn; rewrite ?app_nil_r; reflexivity.
  - rewrite IH1 by assumption.
    apply IH2.
    + apply (Permutation_NoDup (Permutation_map key Hp1) Hnd).
    + intros f Hf; apply Hgroup.
      apply (Permutation_in _ (Permutation_sym Hp1) Hf).
Qed.

Lemma of_batch_index (c : Z -> list (BatchResult.Extracted Data)) (k : Z)
    (indices : list Z) :
  NoDup indices ->
  (forall i, Forall (fun x => BatchResult.bot_id x = i) (c i)) ->
  In k indices ->
  of_batch k (flat_map c indices) = c k.
Proof.
  intros Hnd Hgroup; induction indices as [|i indices IH]; [intros []|].
  intros Hin; cbn [flat_map]; unfold of_batch; rewrite filter_app.
  fold (of_batch k (c i)) (of_batch k (flat_map c indices)).
  rewrite (@of_batch_group k i (c i)) by apply Hgroup.
  inversion Hnd as [|? ? Hnotin Hnd']; subst.
  destruct (Z.eqb_spec i k) as [->|Hik].
  - assert (Hrest : of_batch k (flat_map c indices) = []).
    { clear - Hnotin Hgroup.
      induction indices as [|j indices IH]; [reflexivity|].
      cbn [flat_map]; unfold of_batch; rewrite filter_app.
      fold (of_batch k (c j)) (of_batch k (flat_map c indices)).
      rewrite (@of_batch_group k j (c j)) by apply Hgroup.
      destruct (Z.eqb_spec j k) as [->|_];
        [exfalso; apply Hnotin; now left|].
      apply IH; intros Hin; apply Hnotin; now right. }
    rewrite Hrest; apply app_nil_r.
  - destruct Hin as [Heq|Hin]; [congruence|].
    cbn [app]; apply IH; assumption.
Qed.

(** X29. The results of one batch keep the order of the batch, however
    the batches finish: in the summary of [extract_data] (batch size
    and number of workers positive, list of PRIs not empty), the
    results that carry the index k of a batch as bot_id are, in the
    order of the batch and each once, the PRIs of batch k that have
    been extracted. *)
Theorem results_keep_batch_order run (pri_list : list string)
    (phoenix_credentials : StrDict) (query_template : option string) self :
  0 < BotConductor.batch_size self ->
  0 < BotConductor.max_workers self ->
  pri_list <> [] ->
  let B := BotConductor.batch_size self in
  let n := ceil_div (Py.len pri_list) B in
  exists status total_pris successful failed results failed_pris bots,
    BotConductor.extract_data run pri_list phoenix_credentials query_template
                              self
    = inr (BotConductor.Report.Summary status total_pris successful failed
                                       results failed_pris,
           bots) /\
    forall k,
      0 <= k < n ->
      exists mask,
        List.length mask = List.length (batch_at pri_list B k) /\
        map (@BatchResult.pri Data) (of_batch k results)
        = pick mask (batch_at pri_list B k).
Proof.
  intros Hb Hw Hne; cbv zeta.
  set (B := BotConductor.batch_size self) in *.
  set (n := ceil_div (Py.len pri_list) B).
  pose proof (ConductorFacts.ceil_div_bounds (Py.len pri_list) Hb) as Hc.
  fold n in Hc.
  assert (Hn : 1 <= n).
  { destruct pri_list as [|pri pri_list']; [congruence|].
    unfold Py.len in Hc |- *; cbn [List.length] in Hc; nia. }
  unfold BotConductor.extract_data.
  rewrite ConductorFacts.divide_pris_batches by exact Hb.
  fold B n.
  set (batches := map (batch_at pri_list B) (Py.range n)).
  assert (Hshape : exists batch0 batches', batches = batch0 :: batches').
  { unfold batches, Py.range.
    replace (Z.to_nat n) with (S (Z.to_nat (n - 1))) by lia.
    cbn [seq map]; eexists _, _; reflexivity. }
  destruct Hshape as (batch0 & batches' & Hshape).
  rewrite Hshape; cbv iota; rewrite <- Hshape.
  destruct (Z.leb_spec (BotConductor.max_workers self) 0); [lia|].
  assert (Henum : BotConductor.enumerate_from 0 batches
                  = map (fun i => (i, batch_at pri_list B i)) (Py.range n))
    by (apply (enumerate_from_range (batch_at pri_list B) (Z.to_nat n) 0)).
  set (job_future := fun job : Z * list string =>
         (fst job,
          BotConductor._process_batch (BotConductor.observed run (fst job))
            (snd job) (fst job) phoenix_credentials query_template)).
  rewrite Henum, map_map.
  pose (thread := fun i : Z =>
          BotConductor._process_batch (BotConductor.observed run i)
            (batch_at pri_list B i) i phoenix_credentials query_template).
  pose (futures := map (fun i => (i, thread i)) (Py.range n)).
  change (map (fun x => job_future (x, batch_at pri_list B x)) (Py.range n))
    with futures.
  set (done := as_completed _ futures).
  rewrite fold_left_extend; cbn [fst snd app].
  eexists _, _, _, _, _, _, _; split; [reflexivity|].
  intros k Hk.
  assert (Hdone : Permutation done futures) by apply as_completed_perm.
  assert (Hgroup : forall i,
            Forall (fun x => BatchResult.bot_id x = i)
                   (BatchResult.results (fst (thread i)))).
  { intros i.
    destruct (process_batch_spec (BotConductor.observed run i)
                (batch_at pri_list B i) i phoenix_credentials query_template)
      as (_ & Hall & _).
    apply Forall_forall; intros x Hx.
    rewrite Forall_forall in Hall; apply (Hall x Hx). }
  rewrite (@of_batch_perm _ fst
             (fun f => BatchResult.results (fst (snd f))) k done futures
             Hdone).
  - unfold futures; rewrite flat_map_of_map; cbn [fst snd].
    rewrite (@of_batch_index
               (fun i => BatchResult.results (fst (thread i))) k
               (Py.range n) (EngineFacts.range_NoDup n) Hgroup)
      by (apply EngineFacts.in_range; exact Hk).
    destruct (process_batch_order (BotConductor.observed run k)
                (batch_at pri_list B k) k phoenix_credentials query_template)
      as (mask & Hlen & Hpick & _).
    exists mask; split; [exact Hlen|exact Hpick].
  - apply (Permutation_NoDup
             (Permutation_sym (Permutation_map fst Hdone))).
    unfold futures; rewrite map_map; cbn [fst].
    rewrite map_id; apply EngineFacts.range_NoDup.
  - intros f Hf.
    apply (Permutation_in _ Hdone) in Hf.
    unfold futures in Hf; apply in_map_iff in Hf.
    destruct Hf as (i & <- & _); cbn [fst snd]; apply Hgroup.
Qed.

End Order.

End ExtractionFacts.

(** * Watching the bots *)

Module MonitorFacts.

Import Spec.

Section Facts.
Context {Task Result : Type} `{Py.Object Task}.
Implicit Types (self : BotManager.t Task Result) (tasks : list Task).
Implicit Types (run : BotManager.Run Task Result).

(** A thread whose delay is not negative leaves its bot idle or
    completed. *)
Lemma thread_settled run self (i : Z) (batch : list Task) :
  (0 <= BotManager.retry_delay self)%Q ->
  BotManager.is_active (snd (BotManager.submit (fresh run self i, batch)))
  = false.
Proof.
  intros Hdelay.
  pose proof (@ManagerFacts.submit_fresh Task Result run self i batch Hdelay)
    as Hsubmit.
  cbv zeta in Hsubmit; destruct Hsubmit as (_ & _ & _ & Hbatch).
  unfold BotManager.is_active.
  destruct batch as [|task batch].
  - rewrite Hbatch; reflexivity.
  - destruct Hbatch as (_ & _ & ->); reflexivity.
Qed.

Lemma existsb_none {A : Type} (f : A -> bool) (l : list A) :
  (forall x, In x l -> f x = false) -> existsb f l = false.
Proof.
  induction l as [|x l IH]; intros Hf; cbn; [reflexivity|].
  rewrite (Hf x) by now left.
  apply IH; intros y Hy; apply Hf; now right.
Qed.

(** The loop that finds an active bot, with a callback that returns and
    an interval that is not negative, finds it again in the next
    round. *)
Lemma monitor_loops (interval : Q)
    (callback : option (list BotProgress.Dict.t -> option PyError)) self :
  existsb BotManager.is_active (BotManager.bots self) = true ->
  (0 <= interval)%Q ->
  (forall cb progress, callback = Some cb -> cb progress = None) ->
  forall fuel, BotManager.monitor_progress fuel interval callback self = None.
Proof.
  intros Hactive Hinterval Hcallback fuel.
  induction fuel as [|fuel IH]; [reflexivity|].
  cbn [BotManager.monitor_progress]; rewrite Hactive.
  apply Qle_bool_iff in Hinterval.
  destruct callback as [cb|].
  - rewrite (Hcallback cb _ eq_refl), Hinterval, IH; reflexivity.
  - rewrite Hinterval, IH; reflexivity.
Qed.

(** X15. After [execute] on a task list that is not empty (num_bots >
    0, retry_delay >= 0), no bot of the manager is active, whatever the
    run: [get_progress] gives the bot_progress of the report, and
    [monitor_progress] returns in its first round, without calling the
    callback and without sleeping, for every interval, also a negative
    one. *)
Theorem monitor_returns_after_execute run tasks self (interval : Q)
    (callback : option (list BotProgress.Dict.t -> option PyError)) :
  0 < BotManager.num_bots self ->
  (0 <= BotManager.retry_delay self)%Q ->
  tasks <> [] ->
  let ret := BotManager.execute run tasks self in
  Forall (fun bot => BotManager.is_active bot = false)
         (BotManager.bots (snd ret)) /\
  BotManager.get_progress (snd ret)
  = BotManager.Report.bot_progress (fst ret) /\
  forall fuel,
    BotManager.monitor_progress (S fuel) interval callback (snd ret)
    = Some (None, []).
Proof.
  intros Hw Hdelay Hne; cbv zeta.
  destruct (@ManagerFacts.execute_results Task Result _ run tasks self
              Hw Hdelay Hne)
    as (_ & _ & Hbots & _ & _ & Hprogress & _).
  assert (Hsettled : forall bot,
            In bot (BotManager.bots (snd (BotManager.execute run tasks self)))
            -> BotManager.is_active bot = false).
  { intros bot Hin; rewrite Hbots in Hin.
    unfold threads in Hin; rewrite map_map in Hin.
    apply in_map_iff in Hin; destruct Hin as (i & <- & _).
    apply thread_settled; exact Hdelay. }
  split; [apply Forall_forall; exact Hsettled|].
  split; [rewrite Hprogress; reflexivity|].
  intros fuel; cbn [BotManager.monitor_progress].
  rewrite existsb_none by exact Hsettled.
  reflexivity.
Qed.

(** X16. A bot whose thread has died stays active, and the monitor
    never returns: with a negative retry_delay and max_retries >= 2,
    when the first call of the processor for the first task of some
    slice raises, [execute] leaves the bot of this slice in state
    ACTIVE; [monitor_progress] called afterwards, with an interval that
    is not negative and without a callback or with one that returns, is
    still looping after any number of rounds. *)
Theorem monitor_never_returns run tasks self (i : Z) (task : Task)
    (rest : list Task) (e : string) (interval : Q)
    (callback : option (list BotProgress.Dict.t -> option PyError)) :
  0 < BotManager.num_bots self ->
  (BotManager.retry_delay self < 0)%Q ->
  2 <= BotManager.max_retries self ->
  0 <= i ->
  nth_error (BotManager._divide_tasks tasks self) (Z.to_nat i)
  = Some (task :: rest) ->
  BotManager.observed run i 0%nat task = Raised e ->
  (0 <= interval)%Q ->
  (forall cb progress, callback = Some cb -> cb progress = None) ->
  let ret := BotManager.execute run tasks self in
  (exists bot,
     nth_error (BotManager.bots (snd ret)) (Z.to_nat i) = Some bot /\
     Bot.bot_id bot = i /\
     BotProgress.state (Bot.progress bot) = ACTIVE /\
     BotProgress.current_task (Bot.progress bot) = Some task /\
     Bot.results bot = []) /\
  forall fuel,
    BotManager.monitor_progress fuel interval callback (snd ret) = None.
Proof.
  intros Hw Hneg Hmax Hi Hbatch Hfail Hinterval Hcallback; cbv zeta.
  assert (Hne : tasks <> []).
  { intros ->.
    rewrite DivideTasks.divide_tasks_chunks in Hbatch by exact Hw.
    rewrite nth_error_map in Hbatch.
    destruct (nth_error (Py.range (BotManager.num_bots self)) (Z.to_nat i));
      [|discriminate].
    cbn in Hbatch; unfold chunk, Py.slice in Hbatch; cbn in Hbatch.
    rewrite skipn_nil, firstn_nil in Hbatch; discriminate. }
  destruct (@ManagerFacts.execute_nonempty Task Result _ run tasks self Hw Hne)
    as (done & _ & Hexec).
  cbv zeta in Hexec; rewrite Hexec; cbn [fst snd BotManager.bots].
  rewrite DivideTasks.divide_tasks_chunks in Hbatch by exact Hw.
  assert (Hrange : i < BotManager.num_bots self).
  { assert (Hlt : (Z.to_nat i
                   < List.length (map (chunk tasks (BotManager.num_bots self))
                                      (Py.range (BotManager.num_bots self))))%nat)
      by (apply nth_error_Some; congruence).
    rewrite length_map in Hlt.
    pose proof (@len_range (BotManager.num_bots self) ltac:(lia)) as Hlen.
    unfold Py.len in Hlen; lia. }
  rewrite nth_error_map, nth_error_range in Hbatch by lia.
  injection Hbatch as Hbatch.
  set (bot := Bot.emit (EvCall task)
                (Bot.update_progress
                   (BotProgress.set_current_task (Some task))
                   (Bot.update_progress (BotProgress.set_state ACTIVE)
                                        (fresh run self i)))).
  assert (Hthread : nth_error (map snd (threads run tasks self)) (Z.to_nat i)
                    = Some bot).
  { unfold threads; rewrite !nth_error_map, nth_error_range by lia.
    cbn [option_map]; f_equal.
    unfold BotManager.submit; rewrite Hbatch.
    rewrite (@EngineFacts.process_tasks_escapes Task Result task rest e
               (fresh run self i) Hneg Hmax Hfail).
    reflexivity. }
  split.
  - exists bot; split; [exact Hthread|repeat split].
  - apply monitor_loops; try assumption.
    cbn [BotManager.bots].
    apply existsb_exists; exists bot.
    split; [apply (nth_error_In _ _ Hthread)|reflexivity].
Qed.

End Facts.

End MonitorFacts.

(** * The validator *)

Module ValidatorFacts.

Import Spec Tally.

(** Looking up after an assignment. *)
Lemma get_set_at {V : Type} (d : list (string * V)) (key key' : string)
    (v : V) :
  Py.get (Py.set d key v) key'
  = if String.eqb key key' then Some v else Py.get d key'.
Proof.
  induction d as [|[k w] d IH]; cbn; [reflexivity|].
  destruct (String.eqb_spec k key) as [->|Hk]; cbn.
  - destruct (String.eqb_spec key key'); reflexivity.
  - rewrite IH.
    destruct (String.eqb_spec k key'), (String.eqb_spec key key');
      congruence.
Qed.

Lemma len_filter_split {A : Type} (f : A -> bool) (l : list A) :
  Py.len (filter f l) + Py.len (filter (fun x => negb (f x)) l) = Py.len l.
Proof.
  unfold Py.len; induction l as [|x l IH]; cbn; [reflexivity|].
  destruct (f x); cbn [negb List.length]; lia.
Qed.

Lemma filter_none_rejected {A : Type} (f : A -> bool) (l : list A) :
  filter (fun x => negb (f x)) l = [] -> filter f l = l.
Proof.
  induction l as [|x l IH]; cbn; [reflexivity|].
  destruct (f x); cbn; intros Hnone; [f_equal; auto|discriminate].
Qed.

(** A dictionary is accepted or rejected: nothing is raised on it. *)
Lemma record_result (r : PyVal) :
  is_record r = true -> DataValidator._validate_result r = inr (accepted r).
Proof.
  destruct r as [| | | | | | | |d]; try discriminate; intros _.
  unfold accepted.
  destruct (DataValidator._validate_result (PDict d)) as [e|[|]] eqn:E;
    try reflexivity.
  exfalso; revert E.
  unfold DataValidator._validate_result, DataValidator.first_missing,
    Val.contains.
  destruct (Val.mem d "pri"); [|discriminate].
  destruct (Val.mem d "data"); [|discriminate].
  destruct (Val.mem d "timestamp"); [|discriminate].
  destruct (negb (Val.truthy (Val.get d "pri"))
            || negb (Val.is_str (Val.get d "pri"))); [discriminate|].
  destruct (negb (Val.truthy (Val.get d "data"))); [discriminate|].
  destruct (Val.number (Val.get d "timestamp")) as [t|]; [|discriminate].
  destruct (Val.le_zero t); discriminate.
Qed.

(** The loop of [validate] over dictionaries counts each of them
    once. *)
Lemma validate_each_spec (result_list : list PyVal) :
  Forall (fun r => is_record r = true) result_list ->
  forall report,
    DataValidator.validate_each result_list report
    = inr (DataValidator.Report.mk
             (DataValidator.Report.overall_valid report)
             (DataValidator.Report.total_count report)
             (DataValidator.Report.valid_count report
              + Py.len (filter accepted result_list))
             (DataValidator.Report.invalid_count report
              + Py.len (filter (fun r => negb (accepted r)) result_list))
             (DataValidator.Report.issues report)
             (DataValidator.Report.sample_validation report)).
Proof.
  induction 1 as [|r result_list Hr _ IH]; intros report.
  - cbn; rewrite !Z.add_0_r; destruct report; reflexivity.
  - cbn [DataValidator.validate_each filter].
    rewrite (record_result r Hr).
    destruct (accepted r); rewrite IH; cbn [negb];
      unfold Py.len; cbn [List.length DataValidator.incr_valid_count
        DataValidator.incr_invalid_count
        DataValidator.Report.overall_valid DataValidator.Report.total_count
        DataValidator.Report.valid_count DataValidator.Report.invalid_count
        DataValidator.Report.issues DataValidator.Report.sample_validation];
      f_equal; f_equal; lia.
Qed.

(** The index of [_validate_samples] knows the PRIs of the results. *)
Lemma index_by_pri_spec (results : list PyVal) :
  Forall (fun r => keyed r = true) results ->
  forall pri_to_result,
  exists index,
    DataValidator.index_by_pri results pri_to_result = inr index /\
    forall pri,
      (match Py.get index pri with Some _ => true | None => false end)
      = (match Py.get pri_to_result pri with Some _ => true | None => false end)
        || existsb (has_pri pri) results.
Proof.
  induction 1 as [|r results Hr _ IH]; intros pri_to_result.
  - exists pri_to_result; split; [reflexivity|].
    intros pri; cbn; now rewrite orb_false_r.
  - destruct r as [| | | | | | | |d]; try discriminate.
    cbn [DataValidator.index_by_pri Val.contains existsb has_pri].
    unfold keyed in Hr; unfold Val.mem, Val.get in *.
    destruct (Py.get d "pri") as [key|] eqn:Hkey.
    + rewrite Hr.
      destruct key as [| | | | | |s| |]; try discriminate Hr;
        try (destruct (IH pri_to_result) as (index & Hindex & Hmem);
             exists index; split; [exact Hindex|];
             intros pri; rewrite Hmem; reflexivity).
      destruct (IH (Py.set pri_to_result s d)) as (index & Hindex & Hmem).
      exists index; split; [exact Hindex|].
      intros pri; rewrite Hmem, get_set_at.
      destruct (String.eqb s pri);
        [now rewrite orb_true_r|reflexivity].
    + destruct (IH pri_to_result) as (index & Hindex & Hmem).
      exists index; split; [exact Hindex|].
      intros pri; rewrite Hmem; reflexivity.
Qed.

(** A result whose [pri] cannot be hashed stops the indexing. *)
Lemma index_by_pri_faults (results : list PyVal) :
  Forall (fun r => is_record r = true) results ->
  Exists (fun r => is_record r = true /\ keyed r = false) results ->
  forall pri_to_result,
    DataValidator.index_by_pri results pri_to_result = inl TypeError.
Proof.
  induction 1 as [|r results Hr Hrecords IH]; intros Hex pri_to_result.
  - inversion Hex.
  - destruct r as [| | | | | | | |d]; try discriminate.
    cbn [DataValidator.index_by_pri Val.contains].
    assert (Htail : keyed (PDict d) = true ->
                    forall acc, DataValidator.index_by_pri results acc
                                = inl TypeError).
    { intros Hkeyed; apply IH.
      inversion Hex as [? ? [_ Hbad]|? ? Hlater]; subst;
        [congruence|exact Hlater]. }
    unfold keyed in Htail; unfold Val.mem, Val.get in *.
    destruct (Py.get d "pri") as [key|]; [|apply Htail; reflexivity].
    destruct (Val.hashable key); [|reflexivity].
    apply Htail; reflexivity.
Qed.

Section Samples.
Variable py_str : PyVal -> string.

(** The loop of [_validate_samples]. *)
Lemma sample_steps (index : list (string * Val.Dict))
    (sample_pris : list string) :
  forall report,
    let known pri :=
      match Py.get index pri with Some _ => true | None => false end in
    let report' :=
      fold_left (DataValidator.sample_step py_str index) sample_pris report in
    DataValidator.SampleReport.total_samples report'
    = DataValidator.SampleReport.total_samples report /\
    DataValidator.SampleReport.found_samples report'
    = DataValidator.SampleReport.found_samples report
      + Py.len (filter known sample_pris) /\
    DataValidator.SampleReport.missing_samples report'
    = DataValidator.SampleReport.missing_samples report
      ++ filter (fun pri => negb (known pri)) sample_pris /\
    map DataValidator.SampleDetail.pri
        (DataValidator.SampleReport.sample_details report')
    = map DataValidator.SampleDetail.pri
          (DataValidator.SampleReport.sample_details report)
      ++ sample_pris /\
    map DataValidator.SampleDetail.found
        (DataValidator.SampleReport.sample_details report')
    = map DataValidator.SampleDetail.found
          (DataValidator.SampleReport.sample_details report)
      ++ map known sample_pris.
Proof.
  induction sample_pris as [|pri sample_pris IH]; intros report; cbv zeta.
  - cbn; rewrite Z.add_0_r, !app_nil_r; repeat split.
  - cbn [fold_left filter map].
    specialize (IH (DataValidator.sample_step py_str index report pri)).
    cbv zeta in IH; destruct IH as (Htotal & Hfound & Hmissing & Hpri & Hdet).
    rewrite Htotal, Hfound, Hmissing, Hpri, Hdet.
    unfold DataValidator.sample_step.
    destruct (Py.get index pri) as [result|];
      cbn [negb DataValidator.SampleReport.total_samples
           DataValidator.SampleReport.found_samples
           DataValidator.SampleReport.missing_samples
           DataValidator.SampleReport.sample_details];
      rewrite ?map_app, <- ?app_assoc; cbn [map app];
      unfold Py.len; cbn [List.length].
    + repeat split; lia.
    + repeat split.
Qed.

(** What [_validate_samples] gives on dictionaries. *)
Lemma validate_samples_spec (results : list PyVal)
    (sample_pris : list string) :
  Forall (fun r => keyed r = true) results ->
  let known pri := existsb (has_pri pri) results in
  exists sample_report,
    DataValidator._validate_samples py_str results sample_pris
    = inr sample_report /\
    DataValidator.SampleReport.total_samples sample_report
    = Py.len sample_pris /\
    DataValidator.SampleReport.found_samples sample_report
    = Py.len (filter known sample_pris) /\
    DataValidator.SampleReport.missing_samples sample_report
    = filter (fun pri => negb (known pri)) sample_pris /\
    map DataValidator.SampleDetail.pri
        (DataValidator.SampleReport.sample_details sample_report)
    = sample_pris /\
    map DataValidator.SampleDetail.found
        (DataValidator.SampleReport.sample_details sample_report)
    = map known sample_pris.
Proof.
  intros Hkeyed; cbv zeta.
  destruct (index_by_pri_spec Hkeyed []) as (index & Hindex & Hmem).
  unfold DataValidator._validate_samples; rewrite Hindex.
  eexists; split; [reflexivity|].
  pose proof (sample_steps index sample_pris
                (DataValidator.SampleReport.mk (Py.len sample_pris) 0 [] []))
    as Hsteps.
  cbv zeta in Hsteps.
  destruct Hsteps as (Htotal & Hfound & Hmissing & Hpri & Hdet).
  cbn in Hmem.
  rewrite Htotal, Hfound, Hmissing, Hpri, Hdet; cbn.
  rewrite (filter_ext _ (fun pri => existsb (has_pri pri) results))
    by (intros pri; apply Hmem).
  rewrite (filter_ext (fun pri => negb _)
                      (fun pri => negb (existsb (has_pri pri) results)))
    by (intros pri; now rewrite Hmem).
  rewrite (map_ext _ (fun pri => existsb (has_pri pri) results))
    by (intros pri; apply Hmem).
  repeat split.
Qed.

(** X19. [_validate_samples] on results that are dictionaries whose
    [pri] can be hashed: total_samples is the number of samples, every
    sample is either found or listed as missing, so that found_samples
    + len(missing_samples) = total_samples; a sample is found exactly
    when some result has it as [pri]; missing_samples keeps the order
    of the samples, and sample_details has one entry for each sample,
    in order, with its [found] flag. *)
Theorem validate_samples_accounts (results : list PyVal)
    (sample_pris : list string) :
  Forall (fun r => keyed r = true) results ->
  let known pri := existsb (has_pri pri) results in
  exists sample_report,
    DataValidator._validate_samples py_str results sample_pris
    = inr sample_report /\
    DataValidator.SampleReport.total_samples sample_report
    = Py.len sample_pris /\
    DataValidator.SampleReport.found_samples sample_report
    + Py.len (DataValidator.SampleReport.missing_samples sample_report)
    = DataValidator.SampleReport.total_samples sample_report /\
    DataValidator.SampleReport.found_samples sample_report
    = Py.len (filter known sample_pris) /\
    DataValidator.SampleReport.missing_samples sample_report
    = filter (fun pri => negb (known pri)) sample_pris /\
    map DataValidator.SampleDetail.pri
        (DataValidator.SampleReport.sample_details sample_report)
    = sample_pris /\
    map DataValidator.SampleDetail.found
        (DataValidator.SampleReport.sample_details sample_report)
    = map known sample_pris.
Proof.
  intros Hkeyed; cbv zeta.
  destruct (validate_samples_spec sample_pris Hkeyed)
    as (sample_report & Hret & Htotal & Hfound & Hmissing & Hpri & Hdet).
  exists sample_report.
  split; [exact Hret|]; split; [exact Htotal|].
  split; [rewrite Htotal, Hfound, Hmissing; apply len_filter_split|].
  split; [exact Hfound|]; split; [exact Hmissing|].
  split; [exact Hpri|exact Hdet].
Qed.

(** [validate] on results whose structure is right. *)
Lemma validate_structured (results : Val.Dict) (result_list : list PyVal)
    (sample_pris : option (list string)) :
  Val.mem results "status" = true ->
  Val.mem results "total_pris" = true ->
  Py.get results "results" = Some (PList result_list) ->
  Forall (fun r => is_record r = true) result_list ->
  let invalid := Py.len (filter (fun r => negb (accepted r)) result_list) in
  let counted sampled :=
    DataValidator.Report.mk (invalid =? 0) (Py.len result_list)
      (Py.len (filter accepted result_list)) invalid
      (if invalid =? 0 then []
       else [String.append (str_int invalid) " invalid results found"])
      sampled in
  DataValidator.validate py_str results sample_pris
  = match sample_pris with
    | Some ((_ :: _) as sample_pris) =>
        match DataValidator._validate_samples py_str result_list sample_pris
        with
        | inl e => inl e
        | inr sample_report => inr (counted (Some sample_report))
        end
    | Some [] | None => inr (counted None)
    end.
Proof.
  intros Hstatus Htotal Hresults Hrecords; cbv zeta.
  unfold DataValidator.validate, DataValidator._validate_structure.
  cbn [DataValidator.first_missing]; rewrite Hstatus, Htotal.
  unfold Val.mem, Val.get; rewrite Hresults.
  cbn [negb].
  rewrite (validate_each_spec Hrecords).
  cbn [DataValidator.set_total_count DataValidator.Report.overall_valid
       DataValidator.Report.total_count DataValidator.Report.valid_count
       DataValidator.Report.invalid_count DataValidator.Report.issues
       DataValidator.Report.sample_validation Z.add].
  set (invalid := Py.len (filter (fun r => negb (accepted r)) result_list)).
  assert (Hinvalid : 0 <= invalid) by apply len_nonneg.
  assert (Hzero : (0 <? invalid) = negb (invalid =? 0)).
  { destruct (Z.ltb_spec 0 invalid), (Z.eqb_spec invalid 0);
      try reflexivity; lia. }
  destruct sample_pris as [[|sample sample_pris]|];
    try (cbn [DataValidator.Report.invalid_count]; rewrite Hzero;
         destruct (invalid =? 0); reflexivity).
  destruct (DataValidator._validate_samples py_str result_list
              (sample :: sample_pris)) as [e|sample_report];
    [reflexivity|].
  cbn [DataValidator.set_sample_validation
       DataValidator.Report.invalid_count
       DataValidator.Report.overall_valid DataValidator.Report.total_count
       DataValidator.Report.valid_count DataValidator.Report.issues
       DataValidator.Report.sample_validation].
  rewrite Hzero; destruct (invalid =? 0); reflexivity.
Qed.

(** X17. [validate] on results whose structure is wrong, whatever the
    samples: the report is not valid, all its counts are 0, no result
    is looked at and no sample is validated, and its only issue names
    the first of the fields status, total_pris and results that is
    missing or, when none is, says that the results are no list. *)
Theorem validate_rejects_structure (results : Val.Dict)
    (sample_pris : option (list string)) :
  Py.get results "status" = None \/
  Py.get results "total_pris" = None \/
  (forall l, Py.get results "results" <> Some (PList l)) ->
  DataValidator.validate py_str results sample_pris
  = inr (DataValidator.Report.mk
           false 0 0 0
           [match Py.get results "status", Py.get results "total_pris",
                  Py.get results "results" with
            | None, _, _ => "Missing required field: status"
            | Some _, None, _ => "Missing required field: total_pris"
            | Some _, Some _, None => "Missing required field: results"
            | Some _, Some _, Some _ => "Results field is not a list"
            end]
           None).
Proof.
  intros Hwrong.
  unfold DataValidator.validate, DataValidator._validate_structure.
  cbn [DataValidator.first_missing]; unfold Val.mem, Val.get.
  destruct (Py.get results "status") as [status|]; [|reflexivity].
  destruct (Py.get results "total_pris") as [total_pris|]; [|reflexivity].
  destruct (Py.get results "results") as [[| | | | | | |l|]|]; try reflexivity.
  destruct Hwrong as [Hwrong|[Hwrong|Hwrong]]; try discriminate.
  destruct (Hwrong l eq_refl).
Qed.

(** X18. [validate] on results whose structure is right and whose
    entries are dictionaries, without samples: nothing is raised,
    total_count is the number of entries, valid_count the number of
    those that [_validate_result] accepts, valid_count + invalid_count
    = total_count, and the report is valid exactly when invalid_count
    is 0; otherwise its only issue tells the number of invalid
    results. *)
Theorem validate_accounts (results : Val.Dict) (result_list : list PyVal) :
  Val.mem results "status" = true ->
  Val.mem results "total_pris" = true ->
  Py.get results "results" = Some (PList result_list) ->
  Forall (fun r => is_record r = true) result_list ->
  exists report,
    DataValidator.validate py_str results None = inr report /\
    DataValidator.validate py_str results (Some []) = inr report /\
    DataValidator.Report.total_count report = Py.len result_list /\
    DataValidator.Report.valid_count report
    = Py.len (filter accepted result_list) /\
    DataValidator.Report.valid_count report
    + DataValidator.Report.invalid_count report
    = DataValidator.Report.total_count report /\
    DataValidator.Report.overall_valid report
    = (DataValidator.Report.invalid_count report =? 0) /\
    DataValidator.Report.issues report
    = (if DataValidator.Report.invalid_count report =? 0 then []
       else [String.append
               (str_int (DataValidator.Report.invalid_count report))
               " invalid results found"]) /\
    DataValidator.Report.sample_validation report = None.
Proof.
  intros Hstatus Htotal Hresults Hrecords.
  eexists; split;
    [exact (@validate_structured results result_list None
              Hstatus Htotal Hresults Hrecords)|].
  split;
    [exact (@validate_structured results result_list (Some [])
              Hstatus Htotal Hresults Hrecords)|].
  cbn [DataValidator.Report.overall_valid DataValidator.Report.total_count
       DataValidator.Report.valid_count DataValidator.Report.invalid_count
       DataValidator.Report.issues DataValidator.Report.sample_validation].
  repeat split.
  apply len_filter_split.
Qed.

(** X20. A result whose [pri] is a list or a dictionary is handled in
    two ways: [validate] without samples counts it as invalid and
    returns a report that is not valid, while [validate] with samples
    raises TypeError, as the [pri] cannot be the key of the index that
    [_validate_samples] builds. *)
Theorem unhashable_pri_raises (results : Val.Dict)
    (result_list : list PyVal) (d : Val.Dict) (sample : string)
    (sample_pris : list string) :
  Val.mem results "status" = true ->
  Val.mem results "total_pris" = true ->
  Py.get results "results" = Some (PList result_list) ->
  Forall (fun r => is_record r = true) result_list ->
  In (PDict d) result_list ->
  Val.hashable (Val.get d "pri") = false ->
  (exists report,
     DataValidator.validate py_str results None = inr report /\
     DataValidator.Report.overall_valid report = false /\
     1 <= DataValidator.Report.invalid_count report) /\
  DataValidator.validate py_str results (Some (sample :: sample_pris))
  = inl TypeError.
Proof.
  intros Hstatus Htotal Hresults Hrecords Hin Hbad.
  assert (Hrejected : accepted (PDict d) = false).
  { unfold accepted, DataValidator._validate_result.
    cbn [DataValidator.first_missing Val.contains].
    destruct (Val.mem d "pri"); [|reflexivity].
    destruct (Val.mem d "data"); [|reflexivity].
    destruct (Val.mem d "timestamp"); [|reflexivity].
    destruct (Val.get d "pri"); try discriminate Hbad;
      cbn [Val.is_str negb orb]; rewrite orb_true_r; reflexivity. }
  split.
  - eexists; split;
      [exact (@validate_structured results result_list None
              Hstatus Htotal Hresults Hrecords)|].
    cbn [DataValidator.Report.overall_valid
         DataValidator.Report.invalid_count].
    assert (Hone : 1 <= Py.len (filter (fun r => negb (accepted r))
                                       result_list)).
    { assert (Hmem : In (PDict d)
                        (filter (fun r => negb (accepted r)) result_list))
        by (apply filter_In; split; [exact Hin|now rewrite Hrejected]).
      destruct (filter (fun r => negb (accepted r)) result_list);
        [destruct Hmem|].
      unfold Py.len; cbn [List.length]; lia. }
    split; [|exact Hone].
    destruct (Z.eqb_spec (Py.len (filter (fun r => negb (accepted r))
                                         result_list)) 0);
      [lia|reflexivity].
  - rewrite (@validate_structured results result_list
               (Some (sample :: sample_pris))
               Hstatus Htotal Hresults Hrecords).
    unfold DataValidator._validate_samples.
    rewrite index_by_pri_faults; [reflexivity|exact Hrecords|].
    apply Exists_exists; exists (PDict d).
    split; [exact Hin|]; split; [reflexivity|exact Hbad].
Qed.

Lemma validate_each_app (l1 l2 : list PyVal) :
  forall report,
    DataValidator.validate_each (l1 ++ l2) report
    = match DataValidator.validate_each l1 report with
      | inl e => inl e
      | inr report' => DataValidator.validate_each l2 report'
      end.
Proof.
  induction l1 as [|r l1 IH]; intros report; [reflexivity|].
  cbn [app DataValidator.validate_each].
  destruct (DataValidator._validate_result r) as [e|[|]];
    [reflexivity|apply IH|apply IH].
Qed.

(** X28. An entry of the results that is no dictionary can end
    [validate] with an exception, whatever the samples: after entries
    that are dictionaries, an entry that is None, a boolean or a number
    raises TypeError, and an entry that is a list holding the strings
    pri, data and timestamp raises AttributeError; the entries after it
    are not looked at. *)
Theorem validate_raises_on_entry (results : Val.Dict)
    (records : list PyVal) (bad : PyVal) (rest : list PyVal)
    (sample_pris : option (list string)) :
  Val.mem results "status" = true ->
  Val.mem results "total_pris" = true ->
  Py.get results "results" = Some (PList (records ++ bad :: rest)) ->
  Forall (fun r => is_record r = true) records ->
  (is_scalar bad = true ->
   DataValidator.validate py_str results sample_pris = inl TypeError) /\
  (forall l,
     bad = PList l ->
     In (PStr "pri") l -> In (PStr "data") l -> In (PStr "timestamp") l ->
     DataValidator.validate py_str results sample_pris = inl AttributeError).
Proof.
  intros Hstatus Htotal Hresults Hrecords.
  assert (Hraise : forall e,
            DataValidator._validate_result bad = inl e ->
            DataValidator.validate py_str results sample_pris = inl e).
  { intros e Hbad.
    unfold DataValidator.validate, DataValidator._validate_structure.
    cbn [DataValidator.first_missing]; rewrite Hstatus, Htotal.
    unfold Val.mem, Val.get; rewrite Hresults.
    cbn [negb].
    rewrite validate_each_app, (validate_each_spec Hrecords).
    cbn [DataValidator.validate_each]; rewrite Hbad; reflexivity. }
  split.
  - intros Hscalar; apply Hraise.
    destruct bad; try discriminate Hscalar; reflexivity.
  - intros l -> Hpri Hdata Htimestamp; apply Hraise.
    assert (Hfield : forall field,
              In (PStr field) l -> existsb (Val.eqb (PStr field)) l = true).
    { intros field Hin; apply existsb_exists; exists (PStr field).
      split; [exact Hin|cbn; apply String.eqb_refl]. }
    unfold DataValidator._validate_result.
    cbn [DataValidator.first_missing Val.contains].
    rewrite (Hfield "pri" Hpri), (Hfield "data" Hdata),
      (Hfield "timestamp" Htimestamp).
    reflexivity.
Qed.

(** An entry of the results of an extraction is accepted unless its
    PRI is the empty string. *)
Lemma entry_accepted (clock : BatchResult.Extracted PyVal -> Q)
    (x : BatchResult.Extracted PyVal) :
  Val.truthy (BatchResult.data x) = true ->
  (0 < clock x)%Q ->
  accepted (BotConductor.entry_dict clock x)
  = negb (String.eqb (BatchResult.pri x) "").
Proof.
  intros Hdata Hclock.
  unfold accepted, BotConductor.entry_dict, DataValidator._validate_result.
  cbn [DataValidator.first_missing Val.contains Val.mem Val.get Py.get
       String.eqb Ascii.eqb Bool.eqb Val.truthy Val.is_str Val.number Val.le_zero
       negb orb andb].
  destruct (String.eqb (BatchResult.pri x) ""); cbn [negb orb];
    [reflexivity|].
  rewrite Hdata; cbn [negb].
  destruct (Qle_bool (clock x) 0) eqn:Hle; [|reflexivity].
  apply Qle_bool_iff in Hle.
  exfalso; exact (Qlt_not_le _ _ Hclock Hle).
Qed.

(** X22. [validate_results] on what [extract_data] returns, the
    timestamps being positive: nothing is raised; after the early
    error dictionary the report is not valid and its only issue is the
    missing field total_pris; after a summary total_count is the
    number of successful extractions and the invalid results are those
    whose PRI is the empty string, so that when the empty string is not
    among the PRIs asked for, the report is valid, with every result
    valid and no issue. *)
Theorem validate_results_of_extraction
    (run : BotConductor.Run PyVal) (pri_list : list string)
    (phoenix_credentials : StrDict) (query_template : option string)
    (self : BotConductor.t) (report : BotConductor.Report.t PyVal)
    (bots : list (PhoenixBot.t PyVal))
    (clock : BatchResult.Extracted PyVal -> Q) :
  @BotConductor.extract_data PyVal (Val.object py_str) run pri_list
    phoenix_credentials query_template self
  = inr (report, bots) ->
  (forall x, 0 < clock x)%Q ->
  exists validation_report,
    BotConductor.validate_results py_str (BotConductor.as_dict clock report)
                                  None self
    = inr validation_report /\
    match report with
    | BotConductor.Report.Early _ _ _ _ =>
        validation_report
        = DataValidator.Report.mk
            false 0 0 0 ["Missing required field: total_pris"] None
    | BotConductor.Report.Summary _ _ successful _ results _ =>
        DataValidator.Report.total_count validation_report = successful /\
        DataValidator.Report.invalid_count validation_report
        = Py.len (filter (fun x => String.eqb (BatchResult.pri x) "")
                         results) /\
        (~ In "" pri_list ->
         validation_report
         = DataValidator.Report.mk true successful successful 0 [] None)
    end.
Proof.
  intros Hret Hclock.
  destruct (@ExtractionFacts.extract_data_cases PyVal (Val.object py_str)
              run pri_list phoenix_credentials query_template self
              report bots Hret)
    as [->|(results & failed_pris & -> & Hperm & Htruthy)].
  { eexists; split; reflexivity. }
  unfold BotConductor.validate_results.
  set (entries := map (BotConductor.entry_dict clock) results).
  assert (Hrecords : Forall (fun r => is_record r = true) entries).
  { apply Forall_forall; intros r Hr.
    apply in_map_iff in Hr; destruct Hr as (x & <- & _); reflexivity. }
  assert (Haccepted : forall f : bool -> bool,
            filter (fun r => f (accepted r)) entries
            = map (BotConductor.entry_dict clock)
                  (filter (fun x => f (negb (String.eqb (BatchResult.pri x)
                                                        "")))
                          results)).
  { intros f; unfold entries.
    rewrite Forall_forall in Htruthy.
    clear Hperm Hrecords Hret.
    induction results as [|x results IH]; [reflexivity|].
    cbn [map filter].
    rewrite (entry_accepted clock x)
      by (try apply (Htruthy x); try apply Hclock; now left).
    rewrite IH by (intros y Hy; apply Htruthy; now right).
    destruct (f (negb (String.eqb (BatchResult.pri x) ""))); reflexivity. }
  rewrite (@validate_structured
             (BotConductor.as_dict clock
                (BotConductor.Report.Summary
                   "completed" (Py.len pri_list) (Py.len results)
                   (Py.len failed_pris) results failed_pris))
             entries None eq_refl eq_refl eq_refl Hrecords).
  eexists; split; [reflexivity|].
  cbn [DataValidator.Report.total_count DataValidator.Report.invalid_count].
  assert (Hlen : Py.len entries = Py.len results)
    by (unfold entries, Py.len; now rewrite length_map).
  split; [exact Hlen|].
  assert (Hinvalid : Py.len (filter (fun r => negb (accepted r)) entries)
                     = Py.len (filter (fun x => String.eqb (BatchResult.pri x)
                                                           "") results)).
  { rewrite (Haccepted negb).
    unfold Py.len; rewrite length_map.
    do 2 f_equal; apply filter_ext; intros x; apply negb_involutive. }
  split; [exact Hinvalid|].
  intros Hnone.
  assert (Hpris : forall x, In x results -> BatchResult.pri x <> "").
  { intros x Hx Hempty; apply Hnone.
    apply (Permutation_in _ Hperm), in_or_app; left.
    rewrite <- Hempty; now apply in_map. }
  assert (Hall : filter (fun x => String.eqb (BatchResult.pri x) "") results
                 = []).
  { clear - Hpris.
    induction results as [|x results IH]; [reflexivity|].
    cbn [filter].
    destruct (String.eqb_spec (BatchResult.pri x) "") as [Hempty|_].
    - destruct (Hpris x (or_introl eq_refl) Hempty).
    - apply IH; intros y Hy; apply Hpris; now right. }
  assert (Hrejected : filter (fun r => negb (accepted r)) entries = []).
  { rewrite (Haccepted negb).
    rewrite (filter_ext _ (fun x => String.eqb (BatchResult.pri x) ""))
      by (intros x; apply negb_involutive).
    now rewrite Hall. }
  rewrite Hrejected, (filter_none_rejected _ _ Hrejected), Hlen.
  reflexivity.
Qed.

End Samples.

(** A key is in a set after it has been added. *)
Lemma eqb_str_l (pri : string) (key : PyVal) :
  Val.eqb (PStr pri) key
  = match key with PStr s => String.eqb pri s | _ => false end.
Proof. destruct key; reflexivity. Qed.

Lemma add_mem (pri : string) (key : PyVal) (s : list PyVal) :
  existsb (Val.eqb (PStr pri)) (Val.add key s)
  = existsb (Val.eqb (PStr pri)) s || Val.eqb (PStr pri) key.
Proof.
  unfold Val.add.
  destruct (existsb (Val.eqb key) s) eqn:Hkey.
  - destruct (Val.eqb (PStr pri) key) eqn:Hpri;
      [|now rewrite orb_false_r].
    rewrite eqb_str_l in Hpri.
    destruct key as [| | | | | |t| |]; try discriminate.
    apply String.eqb_eq in Hpri; subst t.
    now rewrite Hkey.
  - rewrite existsb_app; cbn; now rewrite orb_false_r.
Qed.

Lemma len_add (key : PyVal) (s : list PyVal) :
  Py.len (Val.add key s) <= Py.len s + 1.
Proof.
  unfold Val.add; destruct (existsb (Val.eqb key) s); [lia|].
  rewrite len_app; unfold Py.len; cbn; lia.
Qed.

(** The set of the PRIs of results that are dictionaries. *)
Lemma pri_set_spec (actual_results : list PyVal) :
  Forall (fun r => keyed r = true) actual_results ->
  forall actual_pris,
  exists s,
    DataValidator.pri_set actual_results actual_pris = inr s /\
    Py.len s <= Py.len actual_pris + Py.len actual_results /\
    forall pri,
      existsb (Val.eqb (PStr pri)) s
      = existsb (Val.eqb (PStr pri)) actual_pris
        || existsb (has_pri pri) actual_results.
Proof.
  induction 1 as [|r results Hr _ IH]; intros actual_pris.
  - exists actual_pris; split; [reflexivity|].
    split; [unfold Py.len; cbn; lia|].
    intros pri; cbn; now rewrite orb_false_r.
  - destruct r as [| | | | | | | |d]; try discriminate.
    cbn [DataValidator.pri_set Val.contains existsb has_pri].
    unfold keyed in Hr; unfold Val.mem, Val.get in *.
    assert (Hlen : Py.len (PDict d :: results) = Py.len results + 1)
      by (unfold Py.len; cbn [List.length]; lia).
    destruct (Py.get d "pri") as [key|] eqn:Hkey.
    + rewrite Hr.
      destruct (IH (Val.add key actual_pris)) as (s & Hs & Hle & Hmem).
      exists s; split; [exact Hs|].
      pose proof (len_add key actual_pris).
      split; [lia|].
      intros pri; rewrite Hmem, add_mem, eqb_str_l, <- orb_assoc.
      do 2 f_equal.
      destruct key; try reflexivity.
      apply String.eqb_sym.
    + destruct (IH actual_pris) as (s & Hs & Hle & Hmem).
      exists s; split; [exact Hs|].
      split; [lia|].
      intros pri; rewrite Hmem; reflexivity.
Qed.

(** The set of the expected PRIs. *)
Lemma add_pri_In (pri pri' : string) (s : list string) :
  In pri' (DataValidator.add_pri pri s) <-> In pri' s \/ pri' = pri.
Proof.
  unfold DataValidator.add_pri.
  destruct (existsb (String.eqb pri) s) eqn:Hpri.
  - apply existsb_exists in Hpri; destruct Hpri as (x & Hx & Heq).
    apply String.eqb_eq in Heq; subst x.
    split; [now left|intros [Hin| ->]; assumption].
  - rewrite in_app_iff; cbn; intuition.
Qed.

Lemma add_pri_NoDup (pri : string) (s : list string) :
  NoDup s -> NoDup (DataValidator.add_pri pri s).
Proof.
  intros Hs; unfold DataValidator.add_pri.
  destruct (existsb (String.eqb pri) s) eqn:Hpri; [exact Hs|].
  apply NoDup_app; [exact Hs|repeat constructor; intros []|].
  intros x Hx [Heq|[]]; subst x.
  assert (Hin : existsb (String.eqb pri) s = true)
    by (apply existsb_exists; exists pri; split;
        [exact Hx|apply String.eqb_refl]).
  congruence.
Qed.

Lemma len_add_pri (pri : string) (s : list string) :
  Py.len (DataValidator.add_pri pri s) <= Py.len s + 1.
Proof.
  unfold DataValidator.add_pri; destruct (existsb (String.eqb pri) s); [lia|].
  rewrite len_app; unfold Py.len; cbn; lia.
Qed.

Lemma expected_set_spec (expected_pris : list string) :
  forall s,
    let s' := fold_left (fun s pri => DataValidator.add_pri pri s)
                        expected_pris s in
    (forall pri, In pri s' <-> In pri s \/ In pri expected_pris) /\
    (NoDup s -> NoDup s') /\
    Py.len s' <= Py.len s + Py.len expected_pris.
Proof.
  induction expected_pris as [|pri expected_pris IH]; intros s; cbv zeta.
  - cbn; split; [intuition|]; split; [auto|unfold Py.len; cbn; lia].
  - cbn [fold_left].
    destruct (IH (DataValidator.add_pri pri s)) as (Hin & Hnodup & Hlen).
    split; [|split].
    + intros pri'; rewrite Hin, add_pri_In; cbn; intuition.
    + intros Hs; apply Hnodup, add_pri_NoDup, Hs.
    + pose proof (len_add_pri pri s).
      unfold Py.len in *; cbn [List.length]; lia.
Qed.

(** X21. [check_completeness] on results that are dictionaries whose
    [pri] can be hashed: nothing is raised; expected_count is the
    length of the list of expected PRIs, with its repetitions, while
    missing_pris holds each missing PRI once: a PRI is missing exactly
    when it is expected and no result has it as [pri]; the counts are
    the lengths of the lists, missing_count is at most expected_count
    and actual_count at most the number of results; and complete is
    true exactly when every expected PRI is the [pri] of some
    result. *)
Theorem check_completeness_accounts (expected_pris : list string)
    (actual_results : list PyVal) :
  Forall (fun r => keyed r = true) actual_results ->
  exists report,
    DataValidator.check_completeness expected_pris actual_results
    = inr report /\
    DataValidator.Completeness.expected_count report = Py.len expected_pris /\
    DataValidator.Completeness.actual_count report
    <= Py.len actual_results /\
    DataValidator.Completeness.missing_count report
    = Py.len (DataValidator.Completeness.missing_pris report) /\
    DataValidator.Completeness.extra_count report
    = Py.len (DataValidator.Completeness.extra_pris report) /\
    DataValidator.Completeness.missing_count report
    <= DataValidator.Completeness.expected_count report /\
    NoDup (DataValidator.Completeness.missing_pris report) /\
    (forall pri,
       In pri (DataValidator.Completeness.missing_pris report) <->
       In pri expected_pris /\ existsb (has_pri pri) actual_results = false) /\
    (DataValidator.Completeness.complete report = true <->
     forall pri, In pri expected_pris ->
                 existsb (has_pri pri) actual_results = true).
Proof.
  intros Hkeyed.
  destruct (pri_set_spec Hkeyed []) as (actual_pris & Hset & Hlen & Hmem).
  destruct (expected_set_spec expected_pris []) as (Hin & Hnodup & Hle).
  unfold DataValidator.check_completeness; rewrite Hset.
  set (expected_set := fold_left _ expected_pris []) in *.
  eexists; split; [reflexivity|].
  cbn [DataValidator.Completeness.expected_count
       DataValidator.Completeness.actual_count
       DataValidator.Completeness.missing_count
       DataValidator.Completeness.extra_count
       DataValidator.Completeness.missing_pris
       DataValidator.Completeness.extra_pris
       DataValidator.Completeness.complete].
  set (missing := filter _ expected_set).
  assert (Hmissing : forall pri,
            In pri missing <->
            In pri expected_pris /\
            existsb (has_pri pri) actual_results = false).
  { intros pri; unfold missing.
    rewrite filter_In, Hin, Hmem; cbn [existsb orb In].
    rewrite negb_true_iff; intuition. }
  split; [reflexivity|].
  split; [unfold Py.len in *; cbn [List.length] in Hlen; lia|].
  split; [reflexivity|]; split; [reflexivity|].
  split.
  { pose proof (@ManagerFacts.len_filter_le _
                  (fun pri => negb (existsb (Val.eqb (PStr pri)) actual_pris))
                  expected_set) as Hfilter.
    fold missing in Hfilter.
    unfold Py.len in *; cbn [List.length] in Hle; lia. }
  split; [apply NoDup_filter, Hnodup; constructor|].
  split; [exact Hmissing|].
  split.
  - intros Hcomplete pri Hpri.
    apply Z.eqb_eq in Hcomplete.
    destruct (existsb (has_pri pri) actual_results) eqn:Hfound;
      [reflexivity|].
    assert (Hin' : In pri missing) by (apply Hmissing; now split).
    destruct missing; [destruct Hin'|].
    unfold Py.len in Hcomplete; cbn [List.length] in Hcomplete; lia.
  - intros Hall; apply Z.eqb_eq.
    destruct missing as [|pri missing']; [reflexivity|].
    destruct (proj1 (Hmissing pri) (or_introl eq_refl)) as (Hexp & Hnot).
    rewrite (Hall pri Hexp) in Hnot; discriminate.
Qed.

End ValidatorFacts.

(** * Managers without retries *)

Module RetryFacts.

Import Spec Tally.

Section Facts.
Context {Task Result : Type} `{Py.Object Task}.
Implicit Types (self : BotManager.t Task Result) (tasks : list Task).
Implicit Types (run : BotManager.Run Task Result).

(** A bot whose max_retries is not positive gives up each task. *)
Lemma process_each_no_attempt (tasks : list Task) :
  forall bot : Bot.t Task Result,
    Bot.max_retries bot <= 0 ->
    let ret := Bot.process_each tasks bot in
    fst ret = None /\
    Bot.results (snd ret)
    = Bot.results bot ++ map (@given_up Task Result (Bot.bot_id bot)) tasks /\
    Bot.trace (snd ret) = Bot.trace bot.
Proof.
  induction tasks as [|task tasks IH]; intros bot Hmax; cbv zeta.
  - cbn; rewrite app_nil_r; repeat split.
  - cbn [Bot.process_each].
    unfold Bot._process_single_task, Py.range.
    cbn [Bot.max_retries Bot.update_progress Bot.set_progress].
    replace (Z.to_nat (Bot.max_retries bot)) with O by lia.
    cbn [seq map Bot.attempts].
    match goal with
    | |- context [Bot.process_each tasks ?b] =>
        specialize (IH b Hmax); cbv zeta in IH;
        destruct IH as (Hnone & Hresults & Htrace)
    end.
    rewrite Hnone, Hresults, Htrace.
    cbn [Bot.results Bot.trace Bot.bot_id Bot.append_result
         Bot.update_progress Bot.set_progress map].
    rewrite <- app_assoc; repeat split.
Qed.

Lemma process_tasks_no_attempt (tasks : list Task) (bot : Bot.t Task Result) :
  Bot.max_retries bot <= 0 ->
  let ret := Bot.process_tasks tasks bot in
  fst ret
  = inr (Bot.results bot ++ map (@given_up Task Result (Bot.bot_id bot)) tasks) /\
  Bot.trace (snd ret) = Bot.trace bot.
Proof.
  intros Hmax; cbv zeta; unfold Bot.process_tasks.
  destruct (process_each_no_attempt tasks
              (Bot.update_progress (BotProgress.set_state ACTIVE) bot) Hmax)
    as (Hnone & Hresults & Htrace).
  destruct (Bot.process_each tasks _) as [[err|] bot'];
    cbn [fst snd] in *; [discriminate|].
  cbn [Bot.results Bot.trace Bot.update_progress Bot.set_progress].
  rewrite Hresults, Htrace; split; reflexivity.
Qed.

(** The threads of a manager whose max_retries is not positive. *)
Lemma thread_no_attempt run self (i : Z) (batch : list Task) :
  BotManager.max_retries self <= 0 ->
  let ret := BotManager.submit (fresh run self i, batch) in
  Bot.trace (snd ret) = [] /\
  match fst ret with
  | Some outcome => outcome = inr (map (@given_up Task Result i) batch)
  | None => batch = []
  end.
Proof.
  intros Hmax; cbv zeta; unfold BotManager.submit.
  destruct batch as [|task batch]; [split; reflexivity|].
  destruct (@process_tasks_no_attempt (task :: batch) (fresh run self i) Hmax)
    as (Hret & Htrace).
  destruct (Bot.process_tasks (task :: batch) (fresh run self i))
    as [outcome bot].
  cbn [fst snd] in *; split; [exact Htrace|exact Hret].
Qed.

Lemma futures_no_attempt run self (g : Z -> list Task) (indices : list Z) :
  BotManager.max_retries self <= 0 ->
  flat_map collected
    (BotManager.future_to_bot
       (map (fun i => BotManager.submit (fresh run self i, g i)) indices))
  = flat_map (fun i => map (@given_up Task Result i) (g i)) indices.
Proof.
  intros Hmax; induction indices as [|i indices IH]; [reflexivity|].
  cbn [map BotManager.future_to_bot flat_map].
  rewrite flat_map_app; fold (BotManager.future_to_bot
    (map (fun i => BotManager.submit (fresh run self i, g i)) indices)).
  rewrite IH; f_equal.
  destruct (@thread_no_attempt run self i (g i) Hmax) as (_ & Hout).
  destruct (fst (BotManager.submit (fresh run self i, g i))) as [outcome|].
  - subst outcome; cbn; now rewrite app_nil_r.
  - rewrite Hout; reflexivity.
Qed.

Lemma given_up_tasks (g : Z -> list Task) (indices : list Z) :
  map (@TaskResult.task Task Result)
      (flat_map (fun i => map (@given_up Task Result i) (g i)) indices)
  = concat (map g indices).
Proof.
  induction indices as [|i indices IH]; [reflexivity|].
  cbn [flat_map map concat]; rewrite map_app, IH, map_map.
  f_equal; apply map_id.
Qed.

(** X25. A manager whose max_retries is 0, which is what a
    configuration may hold, fails every task without calling the
    processor: after [execute] on a task list that is not empty
    (num_bots > 0), for every run and every retry_delay, no bot has
    called the processor or slept, the results added are one failure
    for each task, with no result and no error, and the report counts
    no new success and len(tasks) new failures. *)
Theorem zero_retries_fail_every_task run tasks self :
  0 < BotManager.num_bots self ->
  BotManager.max_retries self <= 0 ->
  tasks <> [] ->
  let ret := BotManager.execute run tasks self in
  Forall (fun bot => Bot.trace bot = []) (BotManager.bots (snd ret)) /\
  (exists new,
     BotManager.all_results (snd ret) = BotManager.all_results self ++ new /\
     Permutation (map (@TaskResult.task Task Result) new) tasks /\
     Forall (fun r => TaskResult.success r = false /\
                      TaskResult.result r = None /\
                      TaskResult.error r = None)
            new) /\
  BotManager.Report.successful (fst ret)
  = Tally.successes (BotManager.all_results self) /\
  BotManager.Report.failed (fst ret)
  = Tally.failures (BotManager.all_results self) + Py.len tasks.
Proof.
  intros Hw Hmax Hne; cbv zeta.
  destruct (@ManagerFacts.execute_nonempty Task Result _ run tasks self Hw Hne)
    as (done & Hperm & Hexec).
  cbv zeta in Hexec; rewrite Hexec; cbn [fst snd BotManager.bots
                                          BotManager.all_results].
  assert (Hnew : Permutation
                   (flat_map collected done)
                   (flat_map (fun i => map (@given_up Task Result i)
                                           (chunk tasks
                                              (BotManager.num_bots self) i))
                             (Py.range (BotManager.num_bots self)))).
  { rewrite (Permutation_flat_map _ Hperm).
    unfold threads; rewrite futures_no_attempt by exact Hmax.
    reflexivity. }
  assert (Hfailed : Forall (fun r => TaskResult.success r = false /\
                                     TaskResult.result r = None /\
                                     TaskResult.error r = None)
                           (flat_map collected done)).
  { apply Forall_forall; intros r Hr.
    apply (Permutation_in _ Hnew) in Hr.
    apply in_flat_map in Hr; destruct Hr as (i & _ & Hr).
    apply in_map_iff in Hr; destruct Hr as (task & <- & _).
    repeat split. }
  assert (Htasks : Permutation
                     (map (@TaskResult.task Task Result)
                          (flat_map collected done))
                     tasks).
  { rewrite (Permutation_map _ Hnew), given_up_tasks.
    rewrite ManagerFacts.chunks_concat by exact Hw; reflexivity. }
  split.
  { apply Forall_forall; intros bot Hbot.
    unfold threads in Hbot; rewrite map_map in Hbot.
    apply in_map_iff in Hbot; destruct Hbot as (i & <- & _).
    apply thread_no_attempt; exact Hmax. }
  split; [eexists; split; [reflexivity|split; assumption]|].
  unfold BotManager._compile_results.
  cbn [BotManager.Report.successful BotManager.Report.failed].
  fold (Tally.successes
          (BotManager.all_results self ++ flat_map collected done)).
  fold (Tally.failures
          (BotManager.all_results self ++ flat_map collected done)).
  destruct (EngineFacts.tally_app (BotManager.all_results self)
                                  (flat_map collected done)) as (-> & ->).
  assert (Hnone : filter (fun r => TaskResult.success r)
                         (flat_map collected done) = []
                  /\ filter (fun r => negb (TaskResult.success r))
                            (flat_map collected done)
                     = flat_map collected done).
  { clear - Hfailed.
    induction (flat_map collected done) as [|r rs IH]; [split; reflexivity|].
    inversion Hfailed as [|? ? (Hr & _) Hrs]; subst.
    destruct (IH Hrs) as (IH1 & IH2).
    cbn [filter]; rewrite Hr; cbn [negb]; rewrite IH1, IH2.
    split; reflexivity. }
  destruct Hnone as (Hsuccesses & Hfailures).
  unfold Tally.successes at 2, Tally.failures at 2.
  rewrite Hsuccesses, Hfailures.
  split; [change (Py.len (@nil (TaskResult.t Task Result))) with 0; lia|].
  f_equal.
  apply Permutation_length in Htasks.
  rewrite length_map in Htasks; unfold Py.len; lia.
Qed.

End Facts.

End RetryFacts.

(** * The configuration *)

Module ConfigurationFacts.

Import Spec Tally.

Lemma not_le_zero (x : Q) : Qle_bool x 0 = false <-> (0 < x)%Q.
Proof.
  split.
  - intros Hle; apply Qnot_le_lt; intros H.
    apply Qle_bool_iff in H; congruence.
  - intros Hlt; destruct (Qle_bool x 0) eqn:Hle; [|reflexivity].
    apply Qle_bool_iff in Hle.
    exfalso; exact (Qlt_not_le _ _ Hlt Hle).
Qed.

(** [x <= 0] is false of a NaN and of the numbers above 0. *)
Lemma le_zero_false (x : Val.Number) :
  Val.le_zero x = false <-> x = Val.NaN \/ above_zero x.
Proof.
  destruct x as [q| |negative]; cbn.
  - rewrite not_le_zero; split; [now right|intros [H|H]; [discriminate|exact H]].
  - split; [now left|reflexivity].
  - split; [now right|intros [H|H]; [discriminate|exact H]].
Qed.

(** [x < 0] is false of a NaN and of the numbers that are 0 or above
    it. *)
Lemma lt_zero_false (x : Val.Number) :
  Val.lt_zero x = false <-> x = Val.NaN \/ zero_or_above x.
Proof.
  destruct x as [q| |negative]; cbn.
  - rewrite Bool.negb_false_iff, Qle_bool_iff.
    split; [now right|intros [H|H]; [discriminate|exact H]].
  - split; [now left|reflexivity].
  - split; [now right|intros [H|H]; [discriminate|exact H]].
Qed.

(** X23. A configuration whose four checked fields are numbers is
    accepted exactly when num_bots is a NaN or > 0, max_retries is a
    NaN or >= 0, retry_delay is a NaN or >= 0 and monitor_interval is a
    NaN or > 0, the positive infinity being above 0: a NaN passes every
    check, since each comparison with it is false.  Otherwise the
    construction raises ValueError.  The accepted configuration holds
    the values given, with an empty dictionary in place of a
    task_processor_config that is None; verbose and
    task_processor_config are not checked. *)
Theorem configuration_accepted_iff
    (num_bots max_retries retry_delay verbose monitor_interval
     task_processor_config : PyVal) (n r d m : Val.Number) :
  Val.number num_bots = Some n ->
  Val.number max_retries = Some r ->
  Val.number retry_delay = Some d ->
  Val.number monitor_interval = Some m ->
  let made := BotConfiguration.__init__ num_bots max_retries retry_delay
                verbose monitor_interval task_processor_config in
  let passes :=
    (n = Val.NaN \/ above_zero n) /\ (r = Val.NaN \/ zero_or_above r) /\
    (d = Val.NaN \/ zero_or_above d) /\ (m = Val.NaN \/ above_zero m) in
  (passes ->
   made = inr (BotConfiguration.mk
                 num_bots max_retries retry_delay verbose monitor_interval
                 (match task_processor_config with
                  | PNone => PDict []
                  | _ => task_processor_config
                  end))) /\
  (~ passes ->
   exists msg, made = inl (BotConfiguration.Invalid (ValueError msg))).
Proof.
  intros Hn Hr Hd Hm; cbv zeta.
  unfold BotConfiguration.__init__, BotConfiguration.__post_init__,
    BotConfiguration.le_zero, BotConfiguration.lt_zero.
  cbn [BotConfiguration.num_bots BotConfiguration.max_retries
       BotConfiguration.retry_delay BotConfiguration.monitor_interval
       BotConfiguration.verbose BotConfiguration.task_processor_config].
  rewrite Hn, Hr, Hd, Hm.
  rewrite <- (le_zero_false n), <- (lt_zero_false r), <- (lt_zero_false d),
    <- (le_zero_false m).
  destruct (Val.le_zero n).
  { split; [intros (H & _); discriminate|intros _; eexists; reflexivity]. }
  destruct (Val.lt_zero r).
  { split; [intros (_ & H & _); discriminate|intros _; eexists; reflexivity]. }
  destruct (Val.lt_zero d).
  { split; [intros (_ & _ & H & _); discriminate
           |intros _; eexists; reflexivity]. }
  destruct (Val.le_zero m).
  { split; [intros (_ & _ & _ & H); discriminate
           |intros _; eexists; reflexivity]. }
  split.
  - intros _; destruct task_processor_config; reflexivity.
  - intros Hnot; exfalso; apply Hnot; repeat split.
Qed.

(** A configuration that has been accepted is accepted again. *)
Lemma accepted_again
    (num_bots max_retries retry_delay verbose monitor_interval
     task_processor_config : PyVal) (config : BotConfiguration.t) :
  BotConfiguration.__init__ num_bots max_retries retry_delay verbose
    monitor_interval task_processor_config
  = inr config ->
  BotConfiguration.__post_init__ config = inr config /\
  BotConfiguration.num_bots config = num_bots /\
  BotConfiguration.max_retries config = max_retries /\
  BotConfiguration.retry_delay config = retry_delay /\
  BotConfiguration.verbose config = verbose /\
  BotConfiguration.monitor_interval config = monitor_interval /\
  BotConfiguration.task_processor_config config <> PNone.
Proof.
  unfold BotConfiguration.__init__, BotConfiguration.__post_init__.
  cbn [BotConfiguration.num_bots BotConfiguration.max_retries
       BotConfiguration.retry_delay BotConfiguration.monitor_interval
       BotConfiguration.verbose BotConfiguration.task_processor_config].
  destruct (BotConfiguration.le_zero num_bots) as [e|[|]] eqn:Hn;
    try discriminate.
  destruct (BotConfiguration.lt_zero max_retries) as [e|[|]] eqn:Hr;
    try discriminate.
  destruct (BotConfiguration.lt_zero retry_delay) as [e|[|]] eqn:Hd;
    try discriminate.
  destruct (BotConfiguration.le_zero monitor_interval) as [e|[|]] eqn:Hm;
    try discriminate.
  intros Hconfig; injection Hconfig as <-.
  destruct task_processor_config;
    cbn [BotConfiguration.num_bots BotConfiguration.max_retries
         BotConfiguration.retry_delay BotConfiguration.monitor_interval
         BotConfiguration.verbose BotConfiguration.task_processor_config];
    rewrite Hn, Hr, Hd, Hm; repeat split; discriminate.
Qed.

(** X24. [from_dict] after [to_dict]: every configuration that has
    been accepted is read back from its dictionary as it is, also when
    the dictionary is followed by further entries; and [to_dict] lists
    the six fields, in their order. *)
Theorem configuration_round_trip
    (num_bots max_retries retry_delay verbose monitor_interval
     task_processor_config : PyVal) (config : BotConfiguration.t)
    (further : Val.Dict) :
  BotConfiguration.__init__ num_bots max_retries retry_delay verbose
    monitor_interval task_processor_config
  = inr config ->
  BotConfiguration.from_dict (BotConfiguration.to_dict config ++ further)
  = inr config /\
  BotConfiguration.from_dict (BotConfiguration.to_dict config) = inr config /\
  map fst (BotConfiguration.to_dict config)
  = ["num_bots"; "max_retries"; "retry_delay"; "verbose";
     "monitor_interval"; "task_processor_config"].
Proof.
  intros Hmade.
  destruct (accepted_again _ _ _ _ _ _ Hmade) as (Hagain & _).
  destruct config as [n r d v m c].
  split; [|split]; [exact Hagain|exact Hagain|reflexivity].
Qed.

(** X26. A configuration that has been accepted, with integers as
    num_bots and max_retries and a finite float as retry_delay, makes a
    manager as [BotManager(num_bots=config.num_bots, ...)] does:
    [BotManager.__init__] does not raise, the manager has num_bots >
    0, max_retries >= 0 and retry_delay >= 0, and these bounds are all
    that the configuration ensures: max_retries may be 0.  The bound
    on retry_delay is that of a finite float only: with a NaN or with
    the positive infinity as retry_delay the same configuration is
    accepted as well, its check retry_delay < 0 being false. *)
Theorem accepted_configuration_makes_manager {Task Result : Type}
    (n r : Z) (d : Q) (verbose monitor_interval task_processor_config : PyVal)
    (config : BotConfiguration.t) :
  BotConfiguration.__init__ (PInt n) (PInt r) (PFloat d) verbose
    monitor_interval task_processor_config
  = inr config ->
  BotConfiguration.num_bots config = PInt n /\
  BotConfiguration.max_retries config = PInt r /\
  BotConfiguration.retry_delay config = PFloat d /\
  @BotManager.__init__ Task Result n r d
  = inr (BotManager.mk n r d [] []) /\
  0 < n /\ 0 <= r /\ (0 <= d)%Q /\
  forall delay : PyVal,
    (exists id, delay = PNaN id) \/ delay = PInf false ->
    BotConfiguration.__init__ (PInt n) (PInt r) delay verbose
      monitor_interval task_processor_config
    = inr (BotConfiguration.mk
             (PInt n) (PInt r) delay (BotConfiguration.verbose config)
             (BotConfiguration.monitor_interval config)
             (BotConfiguration.task_processor_config config)) /\
    BotConfiguration.lt_zero delay = inr false.
Proof.
  intros Hmade.
  destruct (accepted_again _ _ _ _ _ _ Hmade)
    as (_ & Hn & Hr & Hd & _).
  revert Hmade.
  unfold BotConfiguration.__init__, BotConfiguration.__post_init__,
    BotConfiguration.le_zero, BotConfiguration.lt_zero.
  cbn [BotConfiguration.num_bots BotConfiguration.max_retries
       BotConfiguration.retry_delay BotConfiguration.monitor_interval
       Val.number Val.le_zero Val.lt_zero].
  destruct (Qle_bool (inject_Z n) 0) eqn:Hn0; [discriminate|].
  destruct (Qle_bool 0 (inject_Z r)) eqn:Hr0; [|discriminate].
  destruct (Qle_bool 0 d) eqn:Hd0; [|discriminate].
  cbn [negb].
  destruct (Val.number monitor_interval) as [m|]; [|discriminate].
  destruct (Val.le_zero m); [discriminate|].
  intros Hmade; injection Hmade as <-.
  apply not_le_zero in Hn0; apply Qle_bool_iff in Hr0, Hd0.
  rewrite <- (Zlt_Qlt 0) in Hn0; rewrite <- (Zle_Qle 0) in Hr0.
  split; [exact Hn|]; split; [exact Hr|]; split; [exact Hd|].
  split; [unfold BotManager.__init__;
          destruct (Z.leb_spec n 0); [lia|reflexivity]|].
  split; [exact Hn0|split; [exact Hr0|split; [exact Hd0|]]].
  intros delay [(id & ->)| ->];
    (split; [destruct task_processor_config; reflexivity|reflexivity]).
Qed.

End ConfigurationFacts.

(** * Runs of the further properties *)

Module Scenarios.

Import Examples.

(** Two failed calls, then a value. *)
Lemma retry_then_success_witness :
  let bot := Bot.__init__ 0 recovering_processor 3 (1 # 100) in
  let ret := Bot._process_single_task 4 bot in
  (0 <= Bot.retry_delay bot)%Q /\
  2 < Bot.max_retries bot /\
  fst ret = inr (TaskResult.mk 0 4 true (Some 8) None) /\
  Bot.trace (snd ret)
  = [EvCall 4; EvSleep (1 # 100); EvCall 4; EvSleep (1 # 100); EvCall 4].
Proof.
  cbv zeta.
  split; [discriminate|].
  split; [reflexivity|].
  assert (Hfail : forall j, (j < 2)%nat ->
            exists e, recovering_processor (0 + j)%nat 4 = Raised e).
  { intros j Hj; exists "Not yet".
    destruct j as [|[|j]]; [reflexivity|reflexivity|lia]. }
  destruct (@EngineFacts.retry_then_success Z Z 4 8 2%nat
              (Bot.__init__ 0 recovering_processor 3 (1 # 100))
              ltac:(discriminate) eq_refl Hfail eq_refl)
    as (Hret & Htrace & _).
  split; [exact Hret|exact Htrace].
Defined.

(** A task that succeeds and one that fails, on one bot. *)
Lemma process_tasks_in_order_witness :
  let bot := Bot.__init__ 0 sometimes_failing_processor 1 (1 # 100) in
  let ret := Bot.process_tasks [4; 5] bot in
  (0 <= Bot.retry_delay bot)%Q /\
  exists new,
    fst ret = inr new /\
    map (@TaskResult.task Z Z) new = [4; 5] /\
    BotProgress.state (Bot.progress (snd ret)) = COMPLETED.
Proof.
  cbv zeta.
  split; [discriminate|].
  destruct (@EngineFacts.process_tasks_in_order Z Z [4; 5]
              (Bot.__init__ 0 sometimes_failing_processor 1 (1 # 100))
              ltac:(discriminate))
    as (new & Hret & _ & Htasks & _ & Hstate & _).
  exists new; split; [exact Hret|]; split; [exact Htasks|exact Hstate].
Defined.

(** A negative delay and a processor that raises. *)
Lemma negative_delay_escapes_witness :
  let bot := Bot.__init__ 0 failing_processor 2 (-1 # 1) in
  let ret := Bot.process_tasks [1; 2] bot in
  (Bot.retry_delay bot < 0)%Q /\
  2 <= Bot.max_retries bot /\
  fst ret = inl (ValueError "sleep length must be non-negative") /\
  Bot.results (snd ret) = [] /\
  BotProgress.state (Bot.progress (snd ret)) = ACTIVE.
Proof.
  cbv zeta.
  split; [reflexivity|].
  split; [discriminate|].
  destruct (@EngineFacts.negative_delay_escapes Z Z 1 [2] "Test failure"
              (Bot.__init__ 0 failing_processor 2 (-1 # 1))
              eq_refl ltac:(discriminate) eq_refl)
    as (_ & Hret & _ & Hresults & _ & Hstate & _).
  split; [exact Hret|]; split; [exact Hresults|exact Hstate].
Defined.

(** Four tasks of which one fails. *)
Lemma counters_follow_results_witness :
  let bot := Bot.__init__ 0 sometimes_failing_processor 1 (1 # 100) in
  let ret := Bot.process_tasks [3; 4; 5; 6] bot in
  (0 <= Bot.retry_delay bot)%Q /\
  exists new,
    Bot.results (snd ret) = new /\
    BotProgress.tasks_completed (Bot.progress (snd ret))
    = Tally.successes new /\
    BotProgress.tasks_failed (Bot.progress (snd ret)) = Tally.failures new.
Proof.
  cbv zeta.
  split; [discriminate|].
  destruct (@EngineFacts.counters_follow_results Z Z [3; 4; 5; 6]
              (Bot.__init__ 0 sometimes_failing_processor 1 (1 # 100))
              ltac:(discriminate))
    as (new & Hresults & _ & Hcompleted & Hfailed).
  exists new; split; [exact Hresults|].
  split; [exact Hcompleted|exact Hfailed].
Defined.

(** Ten tasks on four bots, two of them failing. *)
Lemma report_totals_follow_counters_witness :
  let ret := BotManager.execute some_fail ten_tasks four_bots in
  0 < BotManager.num_bots four_bots /\
  (0 <= BotManager.retry_delay four_bots)%Q /\
  ten_tasks <> [] /\
  BotManager.Report.successful (fst ret)
  = Tally.successes (BotManager.all_results four_bots)
    + Spec.sum_Z
        (map (fun bot => BotProgress.tasks_completed (Bot.progress bot))
             (BotManager.bots (snd ret))) /\
  BotManager.Report.failed (fst ret)
  = Tally.failures (BotManager.all_results four_bots)
    + Spec.sum_Z
        (map (fun bot => BotProgress.tasks_failed (Bot.progress bot))
             (BotManager.bots (snd ret))).
Proof.
  cbv zeta.
  split; [reflexivity|].
  split; [discriminate|].
  split; [discriminate|].
  exact (@EngineFacts.report_totals_follow_counters Z Z int_object some_fail
           ten_tasks four_bots eq_refl ltac:(discriminate)
           ltac:(discriminate)).
Defined.

(** The results of bot 1 of four, the bots finishing in reverse
    order. *)
Lemma results_grouped_by_bot_witness :
  let ret := BotManager.execute some_fail ten_tasks four_bots in
  0 < BotManager.num_bots four_bots /\
  (0 <= BotManager.retry_delay four_bots)%Q /\
  ten_tasks <> [] /\
  nth_error (BotManager._divide_tasks ten_tasks four_bots) 1 = Some [4; 5; 6] /\
  exists new,
    BotManager.all_results (snd ret) = new /\
    map (@TaskResult.task Z Z) (Tally.made_by 1 new) = [4; 5; 6].
Proof.
  cbv zeta.
  split; [reflexivity|].
  split; [discriminate|].
  split; [discriminate|].
  split; [reflexivity|].
  destruct (@EngineFacts.results_grouped_by_bot Z Z int_object some_fail
              ten_tasks four_bots eq_refl ltac:(discriminate)
              ltac:(discriminate))
    as (new & Hresults & _ & Hgroups).
  exists new; split; [exact Hresults|].
  exact (Hgroups 1 [4; 5; 6] ltac:(discriminate) eq_refl).
Defined.

(** Three tasks, then two more, on the same manager. *)
Lemma second_run_replaces_bots_witness :
  let ret1 := BotManager.execute all_succeed [1; 2; 3] two_bots in
  let ret2 := BotManager.execute some_fail [4; 5] (snd ret1) in
  0 < BotManager.num_bots two_bots /\
  (0 <= BotManager.retry_delay two_bots)%Q /\
  [1; 2; 3] <> [] /\
  [4; 5] <> [] /\
  Spec.sum_Z
    (map (fun bot => BotProgress.tasks_completed (Bot.progress bot)
                     + BotProgress.tasks_failed (Bot.progress bot))
         (BotManager.bots (snd ret2)))
  = 2 /\
  BotManager.Report.total_tasks (fst ret2) = 5.
Proof.
  cbv zeta.
  split; [reflexivity|].
  split; [discriminate|].
  split; [discriminate|].
  split; [discriminate|].
  destruct (@EngineFacts.second_run_replaces_bots Z Z int_object all_succeed
              some_fail [1; 2; 3] [4; 5] two_bots eq_refl
              ltac:(discriminate) ltac:(discriminate) ltac:(discriminate))
    as (_ & Hsum & Htotal).
  split; [exact Hsum|exact Htotal].
Defined.

(** The mock cookie of a login that cannot connect. *)
Lemma returned_cookie_is_valid_witness :
  let c := AuthManager._create_mock_cookie unreachable "test" in
  fst (AuthManager.refresh_cookie unreachable credentials []) = Some c /\
  AuthManager.validate_cookie (Some c) = true.
Proof.
  cbv zeta.
  split; [reflexivity|].
  destruct (@ExtractionFacts.returned_cookie_is_valid Z unreachable
              credentials []
              (AuthManager._create_mock_cookie unreachable "test") eq_refl)
    as (_ & Hvalid & _).
  exact Hvalid.
Defined.

(** A login that cannot connect authenticates the bot all the same. *)
Lemma authenticate_outcome_witness :
  let ret :=
    PhoenixBot.authenticate (PhoenixBot.__init__ unreachable credentials 0) in
  fst ret = true /\
  PhoenixBot.trace (snd ret) = [EvPost "http://test.com/auth/login"] /\
  AuthManager.validate_cookie (PhoenixBot.cookie (snd ret)) = true.
Proof.
  cbv zeta.
  destruct (@ExtractionFacts.authenticate_outcome Z unreachable credentials 0)
    as (Hret & _ & Htrace & Hcookie).
  split; [exact Hret|].
  split; [exact Htrace|].
  exact (proj1 (Hcookie Hret)).
Defined.

(** A bot that has not authenticated fails its batch, as in
    [test_extract_batch_data_not_authenticated]. *)
Lemma extract_batch_data_accounts_witness :
  let bot := PhoenixBot.__init__ answering credentials 0 in
  let ret := PhoenixBot.extract_batch_data ["PRI001"; "PRI002"] None bot in
  PhoenixBot.authenticated bot = false /\
  fst ret = BatchResult.mk [] ["PRI001"; "PRI002"] /\
  snd ret = bot.
Proof.
  cbv zeta.
  split; [reflexivity|].
  destruct (@ExtractionFacts.extract_batch_data_accounts Z int_object
              ["PRI001"; "PRI002"] None
              (PhoenixBot.__init__ answering credentials 0))
    as (_ & _ & _ & _ & Hnone).
  exact (Hnone eq_refl).
Defined.

(** Five PRIs in batches of two, one PRI unknown to the network. *)
Lemma extract_data_summary_witness :
  let self := BotConductor.__init__ 5 2 in
  0 < BotConductor.batch_size self /\
  0 < BotConductor.max_workers self /\
  five_pris <> [] /\
  exists results failed_pris bots,
    BotConductor.extract_data last_first five_pris credentials None self
    = inr (BotConductor.Report.Summary
             "completed" 5 (Py.len results) (Py.len failed_pris)
             results failed_pris,
           bots) /\
    Py.len results + Py.len failed_pris = 5 /\
    map (@PhoenixBot.batch_id Z) bots = [0; 1; 2].
Proof.
  cbv zeta.
  split; [reflexivity|].
  split; [reflexivity|].
  split; [discriminate|].
  destruct (@ExtractionFacts.extract_data_summary Z int_object last_first
              five_pris credentials None (BotConductor.__init__ 5 2)
              eq_refl eq_refl ltac:(discriminate))
    as (results & failed_pris & bots & Hret & _ & Hsum & _ & Hbots & _).
  exists results, failed_pris, bots.
  split; [exact Hret|]; split; [exact Hsum|exact Hbots].
Defined.

(** A conductor with the batch size 0. *)
Lemma extract_data_bad_configuration_witness :
  let self := BotConductor.__init__ 5 0 in
  five_pris <> [] /\
  BotConductor.batch_size self = 0 /\
  BotConductor.extract_data last_first five_pris credentials None self
  = inl (ValueError "range() arg 3 must not be zero").
Proof.
  cbv zeta.
  split; [discriminate|].
  split; [reflexivity|].
  destruct (@ExtractionFacts.extract_data_bad_configuration Z int_object
              last_first five_pris credentials None
              (BotConductor.__init__ 5 0) ltac:(discriminate))
    as (Hzero & _).
  exact (Hzero eq_refl).
Defined.


(** After a run, the monitor has nothing to wait for. *)
Lemma monitor_returns_after_execute_witness :
  let ret := BotManager.execute some_fail ten_tasks four_bots in
  0 < BotManager.num_bots four_bots /\
  (0 <= BotManager.retry_delay four_bots)%Q /\
  ten_tasks <> [] /\
  BotManager.monitor_progress 1 1 None (snd ret) = Some (None, []).
Proof.
  cbv zeta.
  split; [reflexivity|].
  split; [discriminate|].
  split; [discriminate|].
  destruct (@MonitorFacts.monitor_returns_after_execute Z Z int_object
              some_fail ten_tasks four_bots 1 None eq_refl
              ltac:(discriminate) ltac:(discriminate))
    as (_ & _ & Hmonitor).
  exact (Hmonitor 0%nat).
Defined.

(** One bot with a negative delay and a processor that raises. *)
Lemma monitor_never_returns_witness :
  let ret := BotManager.execute all_fail [1] hasty_bot in
  0 < BotManager.num_bots hasty_bot /\
  (BotManager.retry_delay hasty_bot < 0)%Q /\
  2 <= BotManager.max_retries hasty_bot /\
  nth_error (BotManager._divide_tasks [1] hasty_bot) 0 = Some [1] /\
  BotManager.observed all_fail 0 0%nat 1 = Raised "Test failure" /\
  forall fuel, BotManager.monitor_progress fuel 1 None (snd ret) = None.
Proof.
  cbv zeta.
  split; [reflexivity|].
  split; [reflexivity|].
  split; [discriminate|].
  split; [reflexivity|].
  split; [reflexivity|].
  destruct (@MonitorFacts.monitor_never_returns Z Z int_object all_fail [1]
              hasty_bot 0 1 [] "Test failure" 1 None eq_refl eq_refl
              ltac:(discriminate) ltac:(discriminate) eq_refl eq_refl
              ltac:(discriminate) ltac:(intros cb progress; discriminate))
    as (_ & Hloop).
  exact Hloop.
Defined.

(** Results without their status. *)
Lemma validate_rejects_structure_witness :
  Py.get no_status "status" = None /\
  DataValidator.validate str_of no_status None
  = inr (DataValidator.Report.mk
           false 0 0 0 ["Missing required field: status"] None).
Proof.
  split; [reflexivity|].
  exact (@ValidatorFacts.validate_rejects_structure str_of no_status None
           (or_introl eq_refl)).
Defined.

(** Two entries, one of them without data. *)
Lemma validate_accounts_witness :
  exists report,
    DataValidator.validate str_of one_without_data None = inr report /\
    DataValidator.Report.total_count report = 2 /\
    DataValidator.Report.valid_count report
    + DataValidator.Report.invalid_count report
    = DataValidator.Report.total_count report.
Proof.
  destruct (@ValidatorFacts.validate_accounts str_of one_without_data _
              eq_refl eq_refl eq_refl
              ltac:(repeat constructor))
    as (report & Hret & _ & Htotal & _ & Hsum & _).
  exists report; split; [exact Hret|]; split; [exact Htotal|exact Hsum].
Defined.

(** Two samples, one of them missing. *)
Lemma validate_samples_accounts_witness :
  exists sample_report,
    DataValidator._validate_samples str_of two_entries ["PRI001"; "PRI999"]
    = inr sample_report /\
    DataValidator.SampleReport.total_samples sample_report = 2 /\
    DataValidator.SampleReport.missing_samples sample_report = ["PRI999"].
Proof.
  destruct (@ValidatorFacts.validate_samples_accounts str_of two_entries
              ["PRI001"; "PRI999"] ltac:(repeat constructor))
    as (sample_report & Hret & Htotal & _ & _ & Hmissing & _).
  exists sample_report; split; [exact Hret|].
  split; [exact Htotal|exact Hmissing].
Defined.

(** An entry whose PRI is a list, with and without samples. *)
Lemma unhashable_pri_raises_witness :
  (exists report,
     DataValidator.validate str_of listed_pri None = inr report /\
     DataValidator.Report.overall_valid report = false) /\
  DataValidator.validate str_of listed_pri (Some ["PRI001"]) = inl TypeError.
Proof.
  destruct (@ValidatorFacts.unhashable_pri_raises str_of listed_pri _
              [("pri", PList [PStr "PRI001"]);
               ("data", PDict [("field", PStr "value1")]);
               ("timestamp", PFloat 123456)]
              "PRI001" [] eq_refl eq_refl eq_refl
              ltac:(repeat constructor) (or_introl eq_refl) eq_refl)
    as ((report & Hret & Hvalid & _) & Hraised).
  split; [exists report; split; [exact Hret|exact Hvalid]|exact Hraised].
Defined.

(** Three expected PRIs, two of them present. *)
Lemma check_completeness_accounts_witness :
  exists report,
    DataValidator.check_completeness ["PRI001"; "PRI002"; "PRI003"]
                                     two_entries
    = inr report /\
    DataValidator.Completeness.expected_count report = 3 /\
    In "PRI003" (DataValidator.Completeness.missing_pris report).
Proof.
  destruct (@ValidatorFacts.check_completeness_accounts
              ["PRI001"; "PRI002"; "PRI003"] two_entries
              ltac:(repeat constructor))
    as (report & Hret & Hexpected & _ & _ & _ & _ & _ & Hmissing & _).
  exists report; split; [exact Hret|]; split; [exact Hexpected|].
  apply Hmissing; split; [cbn; tauto|reflexivity].
Defined.

(** The results of an extraction are valid. *)
Lemma validate_results_of_extraction_witness :
  let self := BotConductor.__init__ 5 2 in
  let clock := fun _ : BatchResult.Extracted PyVal => 123456%Q in
  exists report bots validation_report,
    @BotConductor.extract_data PyVal (Val.object str_of) in_order five_pris
      credentials None self
    = inr (report, bots) /\
    BotConductor.validate_results str_of (BotConductor.as_dict clock report)
                                  None self
    = inr validation_report.
Proof.
  cbv zeta.
  eexists _, _.
  destruct (@ValidatorFacts.validate_results_of_extraction str_of in_order
              five_pris credentials None (BotConductor.__init__ 5 2)
              _ _ (fun _ => 123456%Q)
              ltac:(vm_compute; reflexivity) (fun _ => eq_refl))
    as (validation_report & Hvalidated & _).
  exists validation_report; split; [reflexivity|exact Hvalidated].
Defined.

(** The default configuration, with a NaN as retry_delay. *)
Lemma configuration_accepted_iff_witness :
  Val.number (PInt 4) = Some (Val.Finite (inject_Z 4)) /\
  Val.number (PNaN 0) = Some Val.NaN /\
  BotConfiguration.__init__ (PInt 4) (PInt 3) (PNaN 0) (PBool false)
                            (PFloat 1) PNone
  = inr (BotConfiguration.mk (PInt 4) (PInt 3) (PNaN 0) (PBool false)
                             (PFloat 1) (PDict [])).
Proof.
  split; [reflexivity|].
  split; [reflexivity|].
  refine (proj1 (@ConfigurationFacts.configuration_accepted_iff
                   (PInt 4) (PInt 3) (PNaN 0) (PBool false) (PFloat 1) PNone
                   (Val.Finite (inject_Z 4)) (Val.Finite (inject_Z 3))
                   Val.NaN (Val.Finite 1)
                   eq_refl eq_refl eq_refl eq_refl) _).
  split; [right; reflexivity|].
  split; [right; discriminate|].
  split; [left; reflexivity|right; reflexivity].
Defined.

(** The default configuration, written and read with a key that is no
    field. *)
Lemma configuration_round_trip_witness :
  let config :=
    BotConfiguration.mk (PInt 4) (PInt 3) (PFloat 1) (PBool false)
                        (PFloat 1) (PDict []) in
  BotConfiguration.from_dict [] = inr config /\
  BotConfiguration.from_dict
    (BotConfiguration.to_dict config ++ [("comment", PStr "default")])
  = inr config.
Proof.
  cbv zeta.
  split; [reflexivity|].
  exact (proj1 (@ConfigurationFacts.configuration_round_trip
                  (PInt 4) (PInt 3) (PFloat 1) (PBool false) (PFloat 1) PNone
                  _ [("comment", PStr "default")] eq_refl)).
Defined.

(** Three tasks on a manager without retries. *)
Lemma zero_retries_fail_every_task_witness :
  let ret := BotManager.execute all_succeed [1; 2; 3] no_retries in
  0 < BotManager.num_bots no_retries /\
  BotManager.max_retries no_retries <= 0 /\
  [1; 2; 3] <> [] /\
  simple_processor 0%nat 1 = Returned 2 /\
  BotManager.Report.successful (fst ret) = 0 /\
  BotManager.Report.failed (fst ret) = 3.
Proof.
  cbv zeta.
  split; [reflexivity|].
  split; [discriminate|].
  split; [discriminate|].
  split; [reflexivity|].
  destruct (@RetryFacts.zero_retries_fail_every_task Z Z int_object
              all_succeed [1; 2; 3] no_retries eq_refl ltac:(discriminate)
              ltac:(discriminate))
    as (_ & _ & Hsuccessful & Hfailed).
  split; [exact Hsuccessful|exact Hfailed].
Defined.

(** The configuration of [example_with_configuration], and the same
    with a NaN as retry_delay. *)
Lemma accepted_configuration_makes_manager_witness :
  BotConfiguration.__init__ (PInt 3) (PInt 5) (PFloat (1 # 2)) (PBool true)
                            (PFloat 1) PNone
  = inr (BotConfiguration.mk (PInt 3) (PInt 5) (PFloat (1 # 2)) (PBool true)
                             (PFloat 1) (PDict [])) /\
  @BotManager.__init__ Z Z 3 5 (1 # 2) = inr (BotManager.mk 3 5 (1 # 2) [] []) /\
  BotConfiguration.__init__ (PInt 3) (PInt 5) (PNaN 0) (PBool true)
                            (PFloat 1) PNone
  = inr (BotConfiguration.mk (PInt 3) (PInt 5) (PNaN 0) (PBool true)
                             (PFloat 1) (PDict [])).
Proof.
  split; [reflexivity|].
  destruct (@ConfigurationFacts.accepted_configuration_makes_manager Z Z
              3 5 (1 # 2) (PBool true) (PFloat 1) PNone _ eq_refl)
    as (_ & _ & _ & Hmanager & _ & _ & _ & Hother).
  split; [exact Hmanager|].
  exact (proj1 (Hother (PNaN 0) (or_introl (ex_intro _ 0 eq_refl)))).
Defined.

(** The queries of an authenticated bot for two PRIs. *)
Lemma queries_follow_batch_witness :
  let bot :=
    snd (PhoenixBot.authenticate
           (PhoenixBot.__init__ answering credentials 0)) in
  let ret := PhoenixBot.extract_batch_data ["PRI001"; "PRI002"] None bot in
  PhoenixBot.authenticated bot = true /\
  exists queries,
    PhoenixBot.trace (snd ret) = PhoenixBot.trace bot ++ queries /\
    map Tally.queried queries = [Some "PRI001"; Some "PRI002"].
Proof.
  cbv zeta.
  split; [reflexivity|].
  destruct (@ExtractionFacts.queries_follow_batch Z int_object
              ["PRI001"; "PRI002"] None
              (snd (PhoenixBot.authenticate
                      (PhoenixBot.__init__ answering credentials 0)))
              eq_refl)
    as (queries & Htrace & Hqueried & _).
  exists queries; split; [exact Htrace|exact Hqueried].
Defined.

(** Results whose second entry is None. *)
Lemma validate_raises_on_entry_witness :
  let results :=
    [("status", PStr "completed"); ("total_pris", PInt 2);
     ("results", PList [entry "PRI001" "value1" 123456; PNone])] in
  Tally.is_scalar PNone = true /\
  DataValidator.validate str_of results None = inl TypeError.
Proof.
  cbv zeta.
  split; [reflexivity|].
  destruct (@ValidatorFacts.validate_raises_on_entry str_of
              [("status", PStr "completed"); ("total_pris", PInt 2);
               ("results", PList [entry "PRI001" "value1" 123456; PNone])]
              [entry "PRI001" "value1" 123456] PNone [] None
              eq_refl eq_refl eq_refl ltac:(repeat constructor))
    as (Hscalar & _).
  exact (Hscalar eq_refl).
Defined.

(** The results of the second of three batches. *)
Lemma results_keep_batch_order_witness :
  let self := BotConductor.__init__ 5 2 in
  0 < BotConductor.batch_size self /\
  0 < BotConductor.max_workers self /\
  five_pris <> [] /\
  exists status total_pris successful failed results failed_pris bots,
    BotConductor.extract_data last_first five_pris credentials None self
    = inr (BotConductor.Report.Summary status total_pris successful failed
                                       results failed_pris,
           bots) /\
    exists mask,
      map (@BatchResult.pri Z) (Tally.of_batch 1 results)
      = Tally.pick mask (Spec.batch_at five_pris 2 1).
Proof.
  cbv zeta.
  split; [reflexivity|].
  split; [reflexivity|].
  split; [discriminate|].
  destruct (@ExtractionFacts.results_keep_batch_order Z int_object last_first
              five_pris credentials None (BotConductor.__init__ 5 2)
              eq_refl eq_refl ltac:(discriminate))
    as (status & total_pris & successful & failed & results & failed_pris
        & bots & Hret & Horder).
  exists status, total_pris, successful, failed, results, failed_pris, bots.
  split; [exact Hret|].
  assert (Hk : 0 <= 1 < Spec.ceil_div (Py.len five_pris) 2)
    by (vm_compute; split; [discriminate|reflexivity]).
  destruct (Horder 1 Hk) as (mask & _ & Hpick).
  exists mask; exact Hpick.
Defined.

End Scenarios.
